(** * Septago 7x7 crossword: geometry, game state and reducer

    A shallow embedding of [septago_crossword/geometry.py] and
    [septago_crossword/engine.py], and the properties of the reducer.

    Conventions of the embedding:
    - Python [int] is [Z]; list indices are [Z] and converted at the access.
    - Python [str] is [string], read as a sequence of code points below 256;
      [upper] acts on [a]..[z], the only such code points that Python's
      [str.upper] sends to a single character in [A]..[Z].
    - A [dict] is an association list in insertion order, with Python's
      update rule (an existing key keeps its place, a new key goes last).
    - Code that can raise returns a [result]; [Raise] is a Python exception
      leaving the function.
    - The two impure calls of the engine, [uuid.uuid4()] and [time.time()],
      read their value from an explicit [Env] handed to the function. *)

From Stdlib Require Import ZArith Lia Ascii String DecimalString.
From Stdlib Require DecimalZ.
From stdpp Require Import base tactics option list strings.

Local Open Scope string_scope.
Local Open Scope list_scope.
Local Open Scope Z_scope.

(** ** Exceptions *)

Inductive exn := KeyError | IndexError | TypeError | ValueError.

Inductive result (A : Type) : Type :=
| Ok (a : A)
| Raise (e : exn).
Arguments Ok {A} a.
Arguments Raise {A} e.

#[global] Instance result_ret : MRet result := fun A a => Ok a.
#[global] Instance result_bind : MBind result := fun A B f m =>
  match m with
  | Ok a => f a
  | Raise e => Raise e
  end.

Definition is_Ok {A} (r : result A) : Prop := exists a, r = Ok a.

(** A [for] loop over [l] that updates [b] and whose body may raise. *)
Fixpoint foldM {A B} (f : B -> A -> result B) (b : B) (l : list A)
  : result B :=
  match l with
  | [] => Ok b
  | x :: l' => b' ← f b x; foldM f b' l'
  end.

(** ** Python lists *)

Definition py_len {A} (l : list A) : Z := Z.of_nat (length l).

(** [range(n)]: empty when [n <= 0]. *)
Definition range (n : Z) : list Z := seqZ 0 n.

Definition enumerate {A} (l : list A) : list (Z * A) :=
  zip (range (py_len l)) l.

(** Position denoted by index [i] in a list of length [n]; negative indices
    count from the end, anything else is an [IndexError]. *)
Definition py_index (n i : Z) : result nat :=
  if (0 <=? i) && (i <? n) then Ok (Z.to_nat i)
  else if (- n <=? i) && (i <? 0) then Ok (Z.to_nat (n + i))
  else Raise IndexError.

(** [l[i]] *)
Definition list_getitem {A} (l : list A) (i : Z) : result A :=
  k ← py_index (py_len l) i;
  match l !! k with
  | Some x => Ok x
  | None => Raise IndexError
  end.

(** [l[i] = v] *)
Definition list_setitem {A} (l : list A) (i : Z) (v : A) : result (list A) :=
  k ← py_index (py_len l) i;
  Ok (<[k := v]> l).

(** ** Python dictionaries *)

Section dict.
Context {K V : Type} `{EqDecision K}.

Fixpoint dict_get (d : list (K * V)) (k : K) : option V :=
    match d with
    | [] => None
    | (k', v) :: d' => if decide (k = k') then Some v else dict_get d' k
    end.

  (** [k in d] *)
Definition dict_contains (d : list (K * V)) (k : K) : bool :=
    match dict_get d k with Some _ => true | None => false end.

  (** [d.get(k, dflt)] *)
Definition dict_get_or (d : list (K * V)) (k : K) (dflt : V) : V :=
    match dict_get d k with Some v => v | None => dflt end.

  (** [d[k]] *)
Definition dict_item (d : list (K * V)) (k : K) : result V :=
    match dict_get d k with Some v => Ok v | None => Raise KeyError end.

  (** [d[k] = v] *)
Fixpoint dict_set (d : list (K * V)) (k : K) (v : V) : list (K * V) :=
    match d with
    | [] => [(k, v)]
    | (k', v') :: d' =>
        if decide (k = k') then (k', v) :: d' else (k', v') :: dict_set d' k v
    end.

Definition dict_keys (d : list (K * V)) : list K := map fst d.

  (** [{k: v for ... }] from the (key, value) pairs in evaluation order. *)
Definition dict_of_items (items : list (K * V)) : list (K * V) :=
    fold_left (fun d kv => dict_set d (fst kv) (snd kv)) items [].
End dict.

(** ** Python values found in payloads *)

(** What the engine does with a payload value is [is None], [int(x)] and
    [str(x)].  [None], [bool], [int] and [str] are given as they are; any
    other object (a float, a list, a dict) by what [int] and [str] make of
    it ([None] for [as_int]: [int] raises). *)
Inductive pyval :=
| PyNone
| PyBool (b : bool)
| PyInt (z : Z)
| PyStr (s : string)
| PyOther (as_int : option Z) (as_str : string).

(** Whitespace removed by [str.strip()]. *)
Definition py_isspace (c : ascii) : bool :=
  let n := N_of_ascii c in
  ((9 <=? n) && (n <=? 13) || (28 <=? n) && (n <=? 32)
   || (n =? 133) || (n =? 160))%N.

Fixpoint lstrip (s : string) : string :=
  match s with
  | String c s' => if py_isspace c then lstrip s' else s
  | EmptyString => EmptyString
  end.

Fixpoint rstrip (s : string) : string :=
  match s with
  | EmptyString => EmptyString
  | String c s' =>
      match rstrip s' with
      | EmptyString => if py_isspace c then EmptyString else String c EmptyString
      | r => String c r
      end
  end.

(** [s.strip()] *)
Definition strip (s : string) : string := rstrip (lstrip s).

(** The upper case of a character whose upper case is one character below
    256: the letters [a]..[z] and the Latin-1 letters 224 to 254 (247, the
    division sign, is no letter). *)
Definition upper_ascii (c : ascii) : ascii :=
  let n := N_of_ascii c in
  if ((97 <=? n) && (n <=? 122)
      || (224 <=? n) && (n <=? 254) && negb (n =? 247))%N
  then ascii_of_N (n - 32) else c.

(** [s.upper()].  The sharp s (223) becomes [SS].  The upper case of the
    micro sign (181) and of the y with diaeresis (255) lies above 255
    (code points 924 and 376): here the two characters stand for their own
    upper case, which is the upper case of no other character, so that
    comparing two results, or a result with [A]..[Z] or with white space,
    gives what it gives in Python. *)
Fixpoint upper (s : string) : string :=
  match s with
  | EmptyString => EmptyString
  | String c s' =>
      if (N_of_ascii c =? 223)%N then String "S" (String "S" (upper s'))
      else String (upper_ascii c) (upper s')
  end.

Definition digit_of_ascii (c : ascii) : option Z :=
  let n := N_of_ascii c in
  if ((48 <=? n) && (n <=? 57))%N then Some (Z.of_N n - 48) else None.

(** [sys.get_int_max_str_digits()]: the interpreter converts no numeral of
    more digits to an [int], and no [int] of more digits to a [str]. *)
Definition INT_MAX_STR_DIGITS : Z := 4300.

(** The digits of a numeral, leading zeros included, underscores not. *)
Fixpoint count_digits (s : string) : Z :=
  match s with
  | EmptyString => 0
  | String c s' =>
      match digit_of_ascii c with
      | Some _ => 1 + count_digits s'
      | None => count_digits s'
      end
  end.

(** What [str(x)] returns. *)
Definition py_str (x : pyval) : string :=
  match x with
  | PyNone => "None"
  | PyBool true => "True"
  | PyBool false => "False"
  | PyInt z => NilZero.string_of_int (Z.to_int z)
  | PyStr s => s
  | PyOther _ s => s
  end.

(** [str(x)] raises [ValueError] on an [int] of more digits than the
    interpreter converts. *)
Definition str_raises (x : pyval) : bool :=
  match x with
  | PyInt z => INT_MAX_STR_DIGITS <? count_digits (py_str (PyInt z))
  | _ => false
  end.

(** [str(x)] *)
Definition str_of (x : pyval) : result string :=
  if str_raises x then Raise ValueError else Ok (py_str x).

(** Decimal digits, single underscores allowed between two digits. *)
Fixpoint int_digits (acc : Z) (after_digit : bool) (s : string) : option Z :=
  match s with
  | EmptyString => if after_digit then Some acc else None
  | String c s' =>
      match digit_of_ascii c with
      | Some d => int_digits (10 * acc + d) true s'
      | None =>
          if Ascii.eqb c "_" && after_digit then int_digits acc false s'
          else None
      end
  end.

(** The white space that [int] skips at both ends of a string: that of
    [str.strip] without the separators 28 to 31. *)
Definition int_isspace (c : ascii) : bool :=
  let n := N_of_ascii c in
  ((9 <=? n) && (n <=? 13) || (n =? 32) || (n =? 133) || (n =? 160))%N.

Fixpoint int_lstrip (s : string) : string :=
  match s with
  | String c s' => if int_isspace c then int_lstrip s' else s
  | EmptyString => EmptyString
  end.

Fixpoint int_rstrip (s : string) : string :=
  match s with
  | EmptyString => EmptyString
  | String c s' =>
      match int_rstrip s' with
      | EmptyString => if int_isspace c then EmptyString else String c EmptyString
      | r => String c r
      end
  end.

(** The numeral after the sign. *)
Definition int_of_numeral (s : string) : option Z :=
  if INT_MAX_STR_DIGITS <? count_digits s then None
  else int_digits 0 false s.

(** [int(s)] for a string, base 10: [None] is [ValueError]. *)
Definition int_of_str (s : string) : option Z :=
  match int_rstrip (int_lstrip s) with
  | String "-" s' => Z.opp <$> int_of_numeral s'
  | String "+" s' => int_of_numeral s'
  | s' => int_of_numeral s'
  end.

(** [int(x)] *)
Definition py_int (x : pyval) : result Z :=
  match x with
  | PyNone => Raise TypeError
  | PyBool b => Ok (if b then 1 else 0)
  | PyInt z => Ok z
  | PyStr s => match int_of_str s with Some z => Ok z | None => Raise ValueError end
  | PyOther (Some z) _ => Ok z
  | PyOther None _ => Raise TypeError
  end.

(** [try: int(x) except Exception: dflt] *)
Definition int_or (x : pyval) (dflt : Z) : Z :=
  match py_int x with Ok z => z | Raise _ => dflt end.

(** The payload of an event: a [dict] from field names to values. *)
Abbreviation Payload := (list (string * pyval)) (only parsing).

(** [payload.get(k)] and [payload.get(k, None)] *)
Definition payload_get (p : Payload) (k : string) : pyval :=
  dict_get_or p k PyNone.

(** ** Geometry ([geometry.py]) *)

Abbreviation Cell := (Z * Z)%type (only parsing).
Abbreviation GridBarId := string (only parsing).
Abbreviation BarPos := (string * Z)%type (only parsing).

Record GridSpec := {
  size : Z;
  playable_mask : list (list bool);
  bars : list (GridBarId * list Cell);
  cell_to_positions : list (Cell * list BarPos);
  cross_map : list (BarPos * BarPos);
  intersections : list BarPos;
  bar_lengths : list (GridBarId * Z)
}.

Definition build_grid_spec : GridSpec :=
  let size := 7 in
  let playable_rows := [1; 3; 5] in
  let playable_cols := [1; 3; 5] in
  let playable_mask :=
    map (fun r => map (fun c => bool_decide (r ∈ playable_rows)
                                || bool_decide (c ∈ playable_cols))
                      (range size))
        (range size) in
  let bars : list (GridBarId * list Cell) :=
    [ ("h1", map (fun c => (1, c)) (range size));
      ("h2", map (fun c => (3, c)) (range size));
      ("h3", map (fun c => (5, c)) (range size));
      ("v1", map (fun r => (r, 1)) (range size));
      ("v2", map (fun r => (r, 3)) (range size));
      ("v3", map (fun r => (r, 5)) (range size)) ] in
  (* cell_to_positions.setdefault(cell, []).append((bid, i)) *)
  let cell_to_positions : list (Cell * list BarPos) :=
    fold_left
      (fun acc '(bid, cells) =>
         fold_left
           (fun acc '(i, cell) =>
              dict_set acc cell (dict_get_or acc cell [] ++ [(bid, i)]))
           (enumerate cells) acc)
      bars [] in
  let cross_map : list (BarPos * BarPos) :=
    fold_left
      (fun acc '(cell, pos_list) =>
         match pos_list with
         | [a; b] => dict_set (dict_set acc a b) b a
         | _ => acc
         end)
      cell_to_positions [] in
  let intersections : list BarPos :=
    flat_map (fun '(r, h) => map (fun c => (h, c)) [1; 3; 5])
             [(1, "h1"); (3, "h2"); (5, "h3")] in
  let bar_lengths :=
    dict_of_items (map (fun '(bid, cells) => (bid, py_len cells)) bars) in
  {| size := size;
     playable_mask := playable_mask;
     bars := bars;
     cell_to_positions := cell_to_positions;
     cross_map := cross_map;
     intersections := intersections;
     bar_lengths := bar_lengths |}.

(** ** Contracts ([engine.py]) *)

Inductive BarScope := ScopeGrid | ScopeHidden.
Inductive Direction := Horizontal | Vertical.

Record BarRef := {
  br_scope : BarScope;
  br_bar_id : string;
  br_length : Z
}.

Record ActiveRef := {
  scope : BarScope;
  bar_id : string;
  index : Z;
  direction : Direction
}.

Record GridEvent := {
  type : string;
  payload : Payload
}.

Record GameState := {
  puzzle_id : string;
  state_id : string;
  grid_cells : list (GridBarId * list string);
  hidden_cells : list (string * list string);
  active : ActiveRef;
  clue_order : list BarRef;
  start_time : Z;
  last_client_seq : Z;
  last_action : string
}.

(** The fields of a [Puzzle] that the engine reads: [meta], the value of
    [answers.get("hidden")] when it is a list ([None] when the key is
    missing or holds something else), and [filename]. *)
Record Puzzle := {
  meta : Payload;
  answers_hidden : option (list pyval);
  filename : string
}.

(** What [uuid.uuid4()] and [time.time()] return when a transition calls
    them; the clock reading is kept as an opaque number. *)
Record Env := {
  uuid4 : string;
  time_time : Z
}.

(** [dataclasses.replace(state, field=...)], one field at a time. *)
Definition with_last_action (s : GameState) (v : string) : GameState :=
  {| puzzle_id := puzzle_id s; state_id := state_id s;
     grid_cells := grid_cells s; hidden_cells := hidden_cells s;
     active := active s; clue_order := clue_order s;
     start_time := start_time s; last_client_seq := last_client_seq s;
     last_action := v |}.

Definition with_last_client_seq (s : GameState) (v : Z) : GameState :=
  {| puzzle_id := puzzle_id s; state_id := state_id s;
     grid_cells := grid_cells s; hidden_cells := hidden_cells s;
     active := active s; clue_order := clue_order s;
     start_time := start_time s; last_client_seq := v;
     last_action := last_action s |}.

Definition with_active (s : GameState) (v : ActiveRef) : GameState :=
  {| puzzle_id := puzzle_id s; state_id := state_id s;
     grid_cells := grid_cells s; hidden_cells := hidden_cells s;
     active := v; clue_order := clue_order s;
     start_time := start_time s; last_client_seq := last_client_seq s;
     last_action := last_action s |}.

Definition with_grid_cells (s : GameState) (v : list (GridBarId * list string))
  : GameState :=
  {| puzzle_id := puzzle_id s; state_id := state_id s;
     grid_cells := v; hidden_cells := hidden_cells s;
     active := active s; clue_order := clue_order s;
     start_time := start_time s; last_client_seq := last_client_seq s;
     last_action := last_action s |}.

Definition with_hidden_cells (s : GameState) (v : list (string * list string))
  : GameState :=
  {| puzzle_id := puzzle_id s; state_id := state_id s;
     grid_cells := grid_cells s; hidden_cells := v;
     active := active s; clue_order := clue_order s;
     start_time := start_time s; last_client_seq := last_client_seq s;
     last_action := last_action s |}.

(** [new_active = dict(a); new_active["index"] = i] *)
Definition with_index (a : ActiveRef) (i : Z) : ActiveRef :=
  {| scope := scope a; bar_id := bar_id a; index := i;
     direction := direction a |}.

Definition GRID_ORDER : list GridBarId := ["h1"; "h2"; "h3"; "v1"; "v2"; "v3"].

Definition _bar_direction (bar_id : string) : Direction :=
  if bool_decide (bar_id ∈ ["h1"; "h2"; "h3"]) then Horizontal
  else if bool_decide (bar_id ∈ ["v1"; "v2"; "v3"]) then Vertical
  else Horizontal.

Definition _first_empty_index (cells : list string) : Z :=
  match List.find (fun '(i, ch) => String.eqb ch "") (enumerate cells) with
  | Some (i, _) => i
  | None => 0
  end.

(** [["" for _ in range(n)]] and [[""] * n] *)
Definition blank_cells (n : Z) : list string := replicate (Z.to_nat n) "".

Definition derive_intersection_letters (state : GameState) (grid : GridSpec)
  : result (list string) :=
  mapM (fun '(bar_id, idx) =>
          list_getitem (dict_get_or (grid_cells state) bar_id [""]) idx)
       (intersections grid).

Definition is_complete (state : GameState) : bool :=
  forallb (fun '(bid, arr) => forallb (fun ch => negb (String.eqb ch "")) arr)
          (grid_cells state)
  && forallb (fun '(hid, arr) => forallb (fun ch => negb (String.eqb ch "")) arr)
             (hidden_cells state).

(** [puzzle.answers.get("hidden", [])], replaced by [[""]] when it is not a
    list or is empty. *)
Definition hidden_answers_of (puzzle : Puzzle) : list pyval :=
  match answers_hidden puzzle with
  | Some (w :: ws) => w :: ws
  | _ => [PyStr ""]
  end.

(** The loop [for i, word in enumerate(hidden_answers, start=1)].  The
    number [i] in [f"hidden{i}"] counts the elements of a list. *)
Definition init_hidden_cells (hidden_answers : list pyval)
  : result (list (string * list string)) :=
  foldM
    (fun d '(i, word) =>
       w ← str_of word;
       Ok (dict_set d (String.append "hidden" (py_str (PyInt i)))
                    (blank_cells (Z.of_nat (String.length w)))))
    [] (zip (seqZ 1 (py_len hidden_answers)) hidden_answers).

Definition init_state (puzzle : Puzzle) (grid : GridSpec) (env : Env)
  : result GameState :=
  grid_items ← mapM (fun bid => n ← dict_item (bar_lengths grid) bid;
                                Ok (bid, blank_cells n)) GRID_ORDER;
  let grid_cells := dict_of_items grid_items in
  let hidden_answers := hidden_answers_of puzzle in
  hidden_cells ← init_hidden_cells hidden_answers;
  clue_grid ← mapM (fun bid => n ← dict_item (bar_lengths grid) bid;
                               Ok {| br_scope := ScopeGrid; br_bar_id := bid;
                                     br_length := n |}) GRID_ORDER;
  let clue_order :=
    clue_grid ++ map (fun '(hid, arr) =>
                        {| br_scope := ScopeHidden; br_bar_id := hid;
                           br_length := py_len arr |}) hidden_cells in
  let active := {| scope := ScopeGrid; bar_id := "h1"; index := 0;
                   direction := Horizontal |} in
  puzzle_id ← str_of (dict_get_or (meta puzzle) "id" (PyStr (filename puzzle)));
  Ok {| puzzle_id := puzzle_id;
        state_id := uuid4 env;
        grid_cells := grid_cells;
        hidden_cells := hidden_cells;
        active := active;
        clue_order := clue_order;
        start_time := time_time env;
        last_client_seq := 0;
        last_action := "init" |}.

(** ** Reducer *)

Definition _clamp (i lo hi : Z) : Z := Z.max lo (Z.min hi i).

(** The cells of the bar the cursor is on, [[]] when the bar is unknown. *)
Definition active_cells (state : GameState) : list string :=
  match scope (active state) with
  | ScopeGrid => dict_get_or (grid_cells state) (bar_id (active state)) []
  | ScopeHidden => dict_get_or (hidden_cells state) (bar_id (active state)) []
  end.

Definition _on_move (state : GameState) (step : Z) : GameState :=
  let a := active state in
  let idx := index a in
  let cells := active_cells state in
  match cells with
  | [] => with_last_action state "move:empty"
  | _ =>
      let nxt := _clamp (idx + step) 0 (py_len cells - 1) in
      if nxt =? idx then with_last_action state "move:edge"
      else with_last_action (with_active state (with_index a nxt)) "move"
  end.

Definition _on_set_active (state : GameState) (payload : Payload)
  : result GameState :=
  scope0 ← str_of (dict_get_or payload "scope" (PyStr "grid"));
  bar_id0 ← str_of (dict_get_or payload "bar_id" (PyStr "h1"));
  let idx_raw := payload_get payload "index" in
  let scope1 :=
    if bool_decide (scope0 ∈ ["grid"; "hidden"]) then scope0 else "grid" in
  '(scope2, bar_id2, cells, direction2) ←
    (if String.eqb scope1 "grid" then
       let bar_id1 :=
         if dict_contains (grid_cells state) bar_id0 then bar_id0 else "h1" in
       cells ← dict_item (grid_cells state) bar_id1;
       Ok (ScopeGrid, bar_id1, cells, _bar_direction bar_id1)
     else
       let bar_id1 :=
         if dict_contains (hidden_cells state) bar_id0 then bar_id0
         else match dict_keys (hidden_cells state) with
              | k :: _ => k
              | [] => "hidden1"
              end in
       Ok (ScopeHidden, bar_id1,
           dict_get_or (hidden_cells state) bar_id1 [], Horizontal));
  let idx :=
    match idx_raw with
    | PyNone => _first_empty_index cells
    | _ => _clamp (int_or idx_raw 0) 0 (Z.max 0 (py_len cells - 1))
    end in
  let new_active := {| scope := scope2; bar_id := bar_id2; index := idx;
                       direction := direction2 |} in
  Ok (with_last_action (with_active state new_active) "set_active").

(** [len(letter) != 1 or not ("A" <= letter <= "Z")] *)
Definition not_a_letter (letter : string) : bool :=
  negb (Z.of_nat (String.length letter) =? 1)
  || negb (String.leb "A" letter && String.leb letter "Z").

(** What [str(payload.get("letter", "")).upper().strip()] returns. *)
Definition payload_letter (payload : Payload) : string :=
  strip (upper (py_str (dict_get_or payload "letter" (PyStr "")))).

Definition _on_input_letter (state : GameState) (payload : Payload)
    (grid : GridSpec) : result GameState :=
  raw ← str_of (dict_get_or payload "letter" (PyStr ""));
  let letter := strip (upper raw) in
  if not_a_letter letter then Ok (with_last_action state "input:ignored")
  else
    let a := active state in
    let bar_id := bar_id a in
    let idx := index a in
    match scope a with
    | ScopeHidden =>
        if negb (dict_contains (hidden_cells state) bar_id) then
          Ok (with_last_action state "input:hidden_missing")
        else
          arr ← dict_item (hidden_cells state) bar_id;
          if (idx <? 0) || (idx >=? py_len arr) then
            Ok (with_last_action state "input:oob")
          else
            arr ← list_setitem arr idx letter;
            let new_hidden := dict_set (hidden_cells state) bar_id arr in
            let out := with_last_action (with_hidden_cells state new_hidden)
                                        "input:hidden" in
            Ok (_on_move out 1)
    | ScopeGrid =>
        if negb (dict_contains (grid_cells state) bar_id) then
          Ok (with_last_action state "input:grid_missing")
        else
          arr ← dict_item (grid_cells state) bar_id;
          if (idx <? 0) || (idx >=? py_len arr) then
            Ok (with_last_action state "input:oob")
          else
            arr ← list_setitem arr idx letter;
            let new_grid := dict_set (grid_cells state) bar_id arr in
            (* Cross-link at intersections *)
            let key := (bar_id, idx) in
            new_grid ←
              match dict_get (cross_map grid) key with
              | Some (other_bar, other_idx) =>
                  n ← dict_item (bar_lengths grid) other_bar;
                  let other_arr := dict_get_or new_grid other_bar (blank_cells n) in
                  if (0 <=? other_idx) && (other_idx <? py_len other_arr) then
                    other_arr ← list_setitem other_arr other_idx letter;
                    Ok (dict_set new_grid other_bar other_arr)
                  else Ok new_grid
              | None => Ok new_grid
              end;
            let out := with_last_action (with_grid_cells state new_grid)
                                        "input:grid" in
            Ok (_on_move out 1)
    end.

(** The two local functions of [_on_backspace]. *)
Definition clear_at (grid : GridSpec) (b : GridBarId) (i : Z)
    (grid_cells : list (GridBarId * list string))
  : result (list (GridBarId * list string)) :=
  n ← dict_item (bar_lengths grid) b;
  let a2 := dict_get_or grid_cells b (blank_cells n) in
  if (0 <=? i) && (i <? py_len a2) then
    a2 ← list_setitem a2 i "";
    Ok (dict_set grid_cells b a2)
  else Ok grid_cells.

Definition clear_with_partner (grid : GridSpec) (b : GridBarId) (i : Z)
    (grid_cells : list (GridBarId * list string))
  : result (list (GridBarId * list string)) :=
  out ← clear_at grid b i grid_cells;
  match dict_get (cross_map grid) (b, i) with
  | Some (ob, oi) => clear_at grid ob oi out
  | None => Ok out
  end.

Definition _on_backspace (state : GameState) (grid : GridSpec)
  : result GameState :=
  let a := active state in
  let bar_id := bar_id a in
  let idx := index a in
  match scope a with
  | ScopeHidden =>
      if negb (dict_contains (hidden_cells state) bar_id) then
        Ok (with_last_action state "bksp:hidden_missing")
      else
        arr ← dict_item (hidden_cells state) bar_id;
        match arr with
        | [] => Ok (with_last_action state "bksp:hidden_empty")
        | _ =>
            let idx := _clamp idx 0 (py_len arr - 1) in
            ch ← list_getitem arr idx;
            if negb (String.eqb ch "") then
              arr ← list_setitem arr idx "";
              let new_hidden := dict_set (hidden_cells state) bar_id arr in
              Ok (with_last_action (with_hidden_cells state new_hidden)
                                   "bksp:hidden_clear")
            else if idx >? 0 then
              let idx2 := idx - 1 in
              arr ← list_setitem arr idx2 "";
              let new_hidden := dict_set (hidden_cells state) bar_id arr in
              let new_active := with_index a idx2 in
              Ok (with_last_action
                    (with_active (with_hidden_cells state new_hidden) new_active)
                    "bksp:hidden_prev_clear")
            else Ok (with_last_action state "bksp:hidden_edge")
        end
  | ScopeGrid =>
      if negb (dict_contains (grid_cells state) bar_id) then
        Ok (with_last_action state "bksp:grid_missing")
      else
        arr ← dict_item (grid_cells state) bar_id;
        match arr with
        | [] => Ok (with_last_action state "bksp:grid_empty")
        | _ =>
            let idx := _clamp idx 0 (py_len arr - 1) in
            ch ← list_getitem arr idx;
            if negb (String.eqb ch "") then
              new_grid ← clear_with_partner grid bar_id idx (grid_cells state);
              Ok (with_last_action (with_grid_cells state new_grid)
                                   "bksp:grid_clear")
            else if idx >? 0 then
              let idx2 := idx - 1 in
              new_grid ← clear_with_partner grid bar_id idx2 (grid_cells state);
              let new_active := with_index a idx2 in
              Ok (with_last_action
                    (with_active (with_grid_cells state new_grid) new_active)
                    "bksp:grid_prev_clear")
            else Ok (with_last_action state "bksp:grid_edge")
        end
  end.

Definition _on_reset (state : GameState) (env : Env) : GameState :=
  let new_grid :=
    dict_of_items (map (fun '(bid, arr) => (bid, map (fun _ => "") arr))
                       (grid_cells state)) in
  let new_hidden :=
    dict_of_items (map (fun '(hid, arr) => (hid, map (fun _ => "") arr))
                       (hidden_cells state)) in
  let new_active := {| scope := ScopeGrid; bar_id := "h1"; index := 0;
                       direction := Horizontal |} in
  {| puzzle_id := puzzle_id state;
     state_id := uuid4 env;
     grid_cells := new_grid;
     hidden_cells := new_hidden;
     active := new_active;
     clue_order := clue_order state;
     start_time := time_time env;
     last_client_seq := 0;
     last_action := "reset" |}.

(** [int(client_seq) if client_seq is not None else None], [None] too when
    [int] raises. *)
Definition client_seq_int (payload : Payload) : option Z :=
  match payload_get payload "client_seq" with
  | PyNone => None
  | v => match py_int v with Ok z => Some z | Raise _ => None end
  end.

(** The end of [reduce]: [if client_seq_int is not None and client_seq_int >
    out.last_client_seq: out = replace(out, last_client_seq=client_seq_int)]. *)
Definition bump_client_seq (payload : Payload) (out : GameState) : GameState :=
  match client_seq_int payload with
  | Some n => if n >? last_client_seq out then with_last_client_seq out n
              else out
  | None => out
  end.

Definition reduce (state : GameState) (event : GridEvent) (grid : GridSpec)
    (env : Env) : result GameState :=
  let payload := payload event in
  let t := type event in
  out ←
    (if String.eqb t "INPUT_LETTER" then _on_input_letter state payload grid
     else if String.eqb t "MOVE_NEXT" then Ok (_on_move state 1)
     else if String.eqb t "MOVE_PREV" then Ok (_on_move state (-1))
     else if String.eqb t "SET_ACTIVE_BAR" then _on_set_active state payload
     else if String.eqb t "BACKSPACE" then _on_backspace state grid
     else if String.eqb t "RESET" then Ok (_on_reset state env)
     else if String.eqb t "TICK" then Ok state
     else Ok (with_last_action state (String.append "ignored:" t)));
  Ok (bump_client_seq payload out).

(** Folding the reducer over a list of events, each with the [Env] of its
    reduction. *)
Fixpoint reduce_all (state : GameState) (events : list (GridEvent * Env))
    (grid : GridSpec) : result GameState :=
  match events with
  | [] => Ok state
  | (ev, env) :: rest =>
      s ← reduce state ev grid env;
      reduce_all s rest grid
  end.

(** ** Specification vocabulary *)

(** [str] returns on the value that [INPUT_LETTER] prints. *)
Definition letter_prints (payload : Payload) : bool :=
  negb (str_raises (dict_get_or payload "letter" (PyStr ""))).

(** [str] returns on the two values that [SET_ACTIVE_BAR] prints. *)
Definition set_active_prints (payload : Payload) : bool :=
  negb (str_raises (dict_get_or payload "scope" (PyStr "grid")))
  && negb (str_raises (dict_get_or payload "bar_id" (PyStr "h1"))).

(** The handler of the event prints a value of the payload on which [str]
    raises: an [int] of more than 4300 digits as the letter of an
    [INPUT_LETTER], or as the scope or the bar id of a [SET_ACTIVE_BAR]. *)
Definition str_fails (ev : GridEvent) : bool :=
  if String.eqb (type ev) "INPUT_LETTER" then negb (letter_prints (payload ev))
  else if String.eqb (type ev) "SET_ACTIVE_BAR"
       then negb (set_active_prints (payload ev))
       else false.

(** [str] returns on what [init_state] prints of a puzzle: its hidden
    answers and its id. *)
Definition puzzle_prints (p : Puzzle) : bool :=
  forallb (fun w => negb (str_raises w)) (hidden_answers_of p)
  && negb (str_raises (dict_get_or (meta p) "id" (PyStr (filename p)))).

(** The hidden bars of a fresh state, when [str] returns on every hidden
    answer. *)
Definition blank_hidden_cells (hidden_answers : list pyval)
  : list (string * list string) :=
  fold_left
    (fun d '(i, word) =>
       dict_set d (String.append "hidden" (py_str (PyInt i)))
                (blank_cells (Z.of_nat (String.length (py_str word)))))
    (zip (seqZ 1 (py_len hidden_answers)) hidden_answers) [].

(** What the reducer relies on in a geometry: [cross_map] pairs positions
    symmetrically, its positions lie on the six grid bars within their
    length, and no grid bar is empty. *)
Record wf_grid (g : GridSpec) : Prop := {
  wf_sym : forall k k',
    dict_get (cross_map g) k = Some k' -> dict_get (cross_map g) k' = Some k;
  wf_range : forall k b i,
    dict_get (cross_map g) k = Some (b, i) ->
    b ∈ GRID_ORDER /\ exists n, dict_get (bar_lengths g) b = Some n /\ 0 <= i < n;
  wf_len : forall b,
    b ∈ GRID_ORDER -> exists n, dict_get (bar_lengths g) b = Some n /\ 1 <= n
}.

Definition pos_in_range (g : GridSpec) (k : BarPos) : bool :=
  bool_decide (k.1 ∈ GRID_ORDER)
  && match dict_get (bar_lengths g) k.1 with
     | Some n => (0 <=? k.2) && (k.2 <? n)
     | None => false
     end.

Definition wf_gridb (g : GridSpec) : bool :=
  forallb (fun kk => bool_decide (dict_get (cross_map g) kk.2 = Some kk.1)
                     && pos_in_range g kk.2) (cross_map g)
  && forallb (fun b => match dict_get (bar_lengths g) b with
                       | Some n => 1 <=? n
                       | None => false
                       end) GRID_ORDER.


(** The letter at index [i] of bar [b], [None] when there is no such cell. *)
Definition cell_at (cells : list (string * list string)) (b : string) (i : Z)
  : option string :=
  match dict_get cells b with
  | Some arr => if 0 <=? i then arr !! Z.to_nat i else None
  | None => None
  end.

(** The cell the cursor is on. *)
Definition active_cell (s : GameState) : option string :=
  match scope (active s) with
  | ScopeGrid => cell_at (grid_cells s) (bar_id (active s)) (index (active s))
  | ScopeHidden => cell_at (hidden_cells s) (bar_id (active s)) (index (active s))
  end.

(** [cells] with the letter [v] at index [i] of bar [b]. *)
Definition put (cells : list (string * list string)) (b : string) (i : Z)
    (v : string) : list (string * list string) :=
  match dict_get cells b with
  | Some arr => dict_set cells b (<[Z.to_nat i := v]> arr)
  | None => cells
  end.

(** [put] at a position and at its cross-linked partner, if it has one. *)
Definition put_linked (g : GridSpec) (cells : list (string * list string))
    (b : string) (i : Z) (v : string) : list (string * list string) :=
  match dict_get (cross_map g) (b, i) with
  | Some (ob, oi) => put (put cells b i v) ob oi v
  | None => put cells b i v
  end.


(** The six grid bars are present, in [GRID_ORDER], each with the length
    the geometry gives it. *)
Definition grid_shape (g : GridSpec) (cells : list (string * list string))
  : Prop :=
  dict_keys cells = GRID_ORDER /\
  forall b arr, dict_get cells b = Some arr ->
                dict_get (bar_lengths g) b = Some (py_len arr).

(** Cross-linked positions hold the same letter. *)
Definition synced (g : GridSpec) (cells : list (string * list string)) : Prop :=
  forall b i b' i', dict_get (cross_map g) (b, i) = Some (b', i') ->
                    cell_at cells b i = cell_at cells b' i'.

(** The hidden bars start with [hidden1] and no hidden bar id occurs twice. *)
Definition hidden_shape (cells : list (string * list string)) : Prop :=
  NoDup (dict_keys cells) /\ head (dict_keys cells) = Some "hidden1".

(** The bar the cursor refers to, [None] when it does not exist. *)
Definition active_bar (s : GameState) : option (list string) :=
  match scope (active s) with
  | ScopeGrid => dict_get (grid_cells s) (bar_id (active s))
  | ScopeHidden => dict_get (hidden_cells s) (bar_id (active s))
  end.

(** The cursor is on an existing bar, at an index within [[0, len - 1]]. *)
Definition cursor_valid (s : GameState) : Prop :=
  exists arr, active_bar s = Some arr
              /\ 0 <= index (active s) <= py_len arr - 1.

(** The same with the bound the reducer clamps to, [max(0, len - 1)]: it
    differs from [cursor_valid] on a bar without cells only. *)
Definition cursor_clamped (s : GameState) : Prop :=
  exists arr, active_bar s = Some arr
              /\ 0 <= index (active s) <= Z.max 0 (py_len arr - 1).

Definition hidden_bars_nonempty (s : GameState) : Prop :=
  forall hid arr, dict_get (hidden_cells s) hid = Some arr -> arr <> [].

Record state_inv (g : GridSpec) (s : GameState) : Prop := {
  inv_grid : grid_shape g (grid_cells s);
  inv_sync : synced g (grid_cells s);
  inv_hidden : hidden_shape (hidden_cells s);
  inv_cursor : cursor_clamped s
}.

(** States produced by [init_state] followed by any number of reductions. *)
Inductive reachable (p : Puzzle) (g : GridSpec) : GameState -> Prop :=
| reach_init env s :
    init_state p g env = Ok s -> reachable p g s
| reach_step s ev env s' :
    reachable p g s -> reduce s ev g env = Ok s' -> reachable p g s'.

(** [s'] is [s] up to [last_action] and [last_client_seq]. *)
Definition same_but_bookkeeping (s s' : GameState) : Prop :=
  puzzle_id s' = puzzle_id s /\ state_id s' = state_id s
  /\ grid_cells s' = grid_cells s /\ hidden_cells s' = hidden_cells s
  /\ active s' = active s /\ clue_order s' = clue_order s
  /\ start_time s' = start_time s.

(** The hidden answers of a puzzle that went through [load_puzzle], which
    rejects a missing or empty [answers.hidden] and an empty hidden word. *)
Definition puzzle_hidden_ok (p : Puzzle) : bool :=
  match answers_hidden p with
  | Some (w :: ws) => forallb (fun w => negb (String.eqb (py_str w) "")) (w :: ws)
  | _ => false
  end.

(** Every cell of every bar emptied, as [RESET] leaves them. *)
Definition blank_all (cells : list (string * list string))
  : list (string * list string) :=
  map (fun '(bid, arr) => (bid, map (fun _ => "") arr)) cells.

(** The fields no handler but [RESET] touches. *)
Definition meta_kept (s s' : GameState) : Prop :=
  puzzle_id s' = puzzle_id s /\ state_id s' = state_id s
  /\ clue_order s' = clue_order s /\ start_time s' = start_time s
  /\ last_client_seq s' = last_client_seq s.

(** The event types [reduce] has a branch for, [TICK] apart. *)
Definition HANDLED_TYPES : list string :=
  ["INPUT_LETTER"; "MOVE_NEXT"; "MOVE_PREV"; "SET_ACTIVE_BAR"; "BACKSPACE";
   "RESET"].

(** A string that is exactly one character in [A]..[Z]. *)
Definition single_capital (l : string) : Prop :=
  exists c, l = String c EmptyString /\ (65 <= N_of_ascii c <= 90)%N.

(** The letter at index [i] of bar [b] of the given scope. *)
Definition state_cell (s : GameState) (sc : BarScope) (b : string) (i : Z)
  : option string :=
  match sc with
  | ScopeGrid => cell_at (grid_cells s) b i
  | ScopeHidden => cell_at (hidden_cells s) b i
  end.

(** From [s] to [s'], the cell [(sc, b, i)] received [v], and so did its
    cross-linked partner when [sc] is the grid and it has one; every other
    cell, of either scope, holds what it held. *)
Definition written (g : GridSpec) (s s' : GameState) (sc : BarScope)
    (b : string) (i : Z) (v : string) : Prop :=
  state_cell s' sc b i = Some v
  /\ (forall b2 i2, sc = ScopeGrid ->
        dict_get (cross_map g) (b, i) = Some (b2, i2) ->
        cell_at (grid_cells s') b2 i2 = Some v)
  /\ (forall sc' b' i',
        (sc', b', i') <> (sc, b, i) ->
        ~ (sc' = ScopeGrid /\ sc = ScopeGrid
           /\ dict_get (cross_map g) (b, i) = Some (b', i')) ->
        state_cell s' sc' b' i' = state_cell s sc' b' i').

(** What a handler reads of a state besides the payload: the cells and the
    cursor. *)
Definition board (s : GameState)
  : list (string * list string) * list (string * list string) * ActiveRef :=
  (grid_cells s, hidden_cells s, active s).

(** ** Sample runs *)

Definition event (t : string) (p : Payload) : GridEvent :=
  {| type := t; payload := p |}.

Definition demo_puzzle : Puzzle :=
  {| meta := [("id", PyStr "demo")];
     answers_hidden := Some [PyStr "CAT"; PyStr "ACT"];
     filename := "demo.json" |}.

Definition demo_env : Env := {| uuid4 := "id-0"; time_time := 1000 |}.
Definition later_env : Env := {| uuid4 := "id-1"; time_time := 2000 |}.

Definition no_state : GameState :=
  {| puzzle_id := ""; state_id := ""; grid_cells := []; hidden_cells := [];
     active := {| scope := ScopeGrid; bar_id := ""; index := 0;
                  direction := Horizontal |};
     clue_order := []; start_time := 0; last_client_seq := 0;
     last_action := "" |}.

(** Reducing the events one after the other, up to the first one on which
    [reduce] raises: the caller is left with the state before it. *)
Fixpoint play_from (s : GameState) (events : list GridEvent) : GameState :=
  match events with
  | [] => s
  | ev :: rest =>
      match reduce s ev build_grid_spec later_env with
      | Ok s' => play_from s' rest
      | Raise _ => s
      end
  end.

(** The state after [init_state] on [demo_puzzle] and the given events. *)
Definition play (events : list GridEvent) : GameState :=
  match init_state demo_puzzle build_grid_spec demo_env with
  | Ok s => play_from s events
  | Raise _ => no_state
  end.

(** ** Vocabulary of the further properties *)

(** The clue order that [init_state] builds, read off the bars of a state:
    the grid bars then the hidden bars, each with its length. *)
Definition clue_order_of (grid_cells hidden_cells : list (string * list string))
  : list BarRef :=
  map (fun '(bid, arr) => {| br_scope := ScopeGrid; br_bar_id := bid;
                            br_length := py_len arr |}) grid_cells
  ++ map (fun '(hid, arr) => {| br_scope := ScopeHidden; br_bar_id := hid;
                               br_length := py_len arr |}) hidden_cells.

(** The name [init_state] gives to the hidden bar number [i]. *)
Definition hidden_bar_id (i : Z) : string :=
  String.append "hidden" (py_str (PyInt i)).

(** Events that fill bar [bar_id] of the given scope, cell by cell, with
    the letter [A]. *)
Definition fill_bar (sc bar_id : string) (n : nat) : list GridEvent :=
  event "SET_ACTIVE_BAR" [("scope", PyStr sc); ("bar_id", PyStr bar_id);
                          ("index", PyInt 0)]
  :: replicate n (event "INPUT_LETTER" [("letter", PyStr "a")]).

(** A run on [demo_puzzle] that fills every cell. *)
Definition demo_fill_all : list GridEvent :=
  fill_bar "grid" "h1" 7 ++ fill_bar "grid" "h2" 7 ++ fill_bar "grid" "h3" 7
  ++ fill_bar "grid" "v1" 7 ++ fill_bar "grid" "v2" 7 ++ fill_bar "grid" "v3" 7
  ++ fill_bar "hidden" "hidden1" 3 ++ fill_bar "hidden" "hidden2" 3.

(** ** The rest of [geometry.py] *)

(** [grid.playable_mask[r][c]] *)
Definition mask_at (grid : GridSpec) (r c : Z) : result bool :=
  row ← list_getitem (playable_mask grid) r;
  list_getitem row c.

Definition is_playable (grid : GridSpec) (cell : Cell) : result bool :=
  let '(r, c) := cell in
  if (r <? 0) || (c <? 0) || (r >=? size grid) || (c >=? size grid)
  then Ok false
  else mask_at grid r c.

(** The cells in the order of the two nested loops over [range(grid.size)]. *)
Definition row_major (n : Z) : list Cell :=
  flat_map (fun r => map (fun c => (r, c)) (range n)) (range n).

(** How [first_playable_cell] ends: it returns a cell, an access to the
    mask raises, or the loops run out and it raises [RuntimeError]. *)
Inductive search_result :=
| Found (cell : Cell)
| Raised (e : exn)
| NoPlayableCell.

Fixpoint first_playable_from (grid : GridSpec) (cells : list Cell)
  : search_result :=
  match cells with
  | [] => NoPlayableCell
  | (r, c) :: rest =>
      match mask_at grid r c with
      | Ok true => Found (r, c)
      | Ok false => first_playable_from grid rest
      | Raise e => Raised e
      end
  end.

Definition first_playable_cell (grid : GridSpec) : search_result :=
  first_playable_from grid (row_major (size grid)).

(** The cell at index [i] of bar [b], [None] when there is none. *)
Definition bar_cell (g : GridSpec) (b : string) (i : Z) : option Cell :=
  match dict_get (bars g) b with
  | Some cells => if 0 <=? i then cells !! Z.to_nat i else None
  | None => None
  end.

(** Every (bar, index) position of a geometry. *)
Definition all_positions (g : GridSpec) : list BarPos :=
  flat_map (fun '(b, cells) => map (fun i => (b, i)) (range (py_len cells)))
           (bars g).

(** ** The cell lookups of [ui_adapters.py] *)

(** [f"{cell[0]},{cell[1]}"] *)
Definition cell_id (cell : Cell) : string :=
  String.append (py_str (PyInt cell.1))
                (String.append "," (py_str (PyInt cell.2))).

Definition _cell_letter_from_state (state : GameState) (grid : GridSpec)
    (cell : Cell) : result string :=
  match dict_get_or (cell_to_positions grid) cell [] with
  | [] => Ok ""
  | (bar_id, idx) :: _ =>
      list_getitem (dict_get_or (grid_cells state) bar_id [""]) idx
  end.

(** ** [puzzle_io.py] *)

Module puzzle_io.

(** A value as [json.load] returns it.  Scalars are [pyval]s, where
    [PyOther] is a float, given by what [int] and [str] make of it; a list
    and a dict carry, next to their contents, the string [str] makes of
    them. *)
#[warnings="-register-all"]
Inductive json :=
| JVal (v : pyval)
| JList (items : list json) (as_str : string)
| JDict (fields : list (string * json)) (as_str : string).

(** [str(x)] *)
Definition json_str (x : json) : string :=
  match x with
  | JVal v => py_str v
  | JList _ s => s
  | JDict _ s => s
  end.

(** The truth value of [x], as [or] and [not] take it. *)
Definition truthy (x : json) : bool :=
  match x with
  | JVal PyNone => false
  | JVal (PyBool b) => b
  | JVal (PyInt z) => negb (z =? 0)
  | JVal (PyStr s) => negb (String.eqb s "")
  | JVal (PyOther _ s) => negb (String.eqb s "0.0" || String.eqb s "-0.0")
  | JList items _ => match items with [] => false | _ => true end
  | JDict fields _ => match fields with [] => false | _ => true end
  end.

(** The exceptions of the loader: its own [PuzzleValidationError], the
    [AttributeError] of [.get] on a value that is no dict, and those the
    engine knows. *)
Inductive load_exn :=
| PuzzleValidationError
| AttributeError
| Other (e : exn).

Inductive loaded (A : Type) : Type :=
| Loaded (a : A)
| Failed (e : load_exn).
Arguments Loaded {A} a.
Arguments Failed {A} e.

#[global] Instance loaded_ret : MRet loaded := fun A a => Loaded a.
#[global] Instance loaded_bind : MBind loaded := fun A B f m =>
  match m with
  | Loaded a => f a
  | Failed e => Failed e
  end.

#[global] Instance loaded_fmap : FMap loaded := fun A B f m =>
  match m with
  | Loaded a => Loaded (f a)
  | Failed e => Failed e
  end.

Definition empty_dict : json := JDict [] "{}".

(** [x.get(k, dflt)] *)
Definition get (x : json) (k : string) (dflt : json) : loaded json :=
  match x with
  | JDict fields _ => Loaded (dict_get_or fields k dflt)
  | _ => Failed AttributeError
  end.

(** [x[k]] for a dict [x] *)
Definition item (x : json) (k : string) : loaded json :=
  match x with
  | JDict fields _ =>
      match dict_get fields k with
      | Some v => Loaded v
      | None => Failed (Other KeyError)
      end
  | _ => Failed (Other TypeError)
  end.

(** [k in s] for two strings *)
Fixpoint is_substring (k s : string) : bool :=
  String.prefix k s
  || match s with
     | EmptyString => false
     | String _ s' => is_substring k s'
     end.

(** [k in x] for a string [k]: a key of a dict, an element of a list, a
    substring of a string; other values are not iterable. *)
Definition contains (x : json) (k : string) : loaded bool :=
  match x with
  | JDict fields _ => Loaded (dict_contains fields k)
  | JList items _ =>
      Loaded (existsb (fun y => match y with
                                | JVal (PyStr s) => String.eqb s k
                                | _ => false
                                end) items)
  | JVal (PyStr s) => Loaded (is_substring k s)
  | JVal _ => Failed (Other TypeError)
  end.

(** [x or {}] *)
Definition or_empty_dict (x : json) : json :=
  if truthy x then x else empty_dict.

Fixpoint without_spaces (s : string) : string :=
  match s with
  | EmptyString => EmptyString
  | String c s' =>
      if Ascii.eqb c " " then without_spaces s' else String c (without_spaces s')
  end.

(** As everywhere in this development, [upper] is Python's on code points
    below 128; above, Python's [str.upper] can make letters in [A]..[Z]
    out of other characters (the sharp s becomes [SS]). *)
Definition _norm_letters (s : json) : string :=
  without_spaces (strip (upper (json_str s))).

(** ["A" <= ch <= "Z"] *)
Definition is_capital (ch : ascii) : bool :=
  ((65 <=? N_of_ascii ch) && (N_of_ascii ch <=? 90))%N.

Definition _validate_letters_only (s : string) : loaded unit :=
  if forallb is_capital (list_ascii_of_string s) then Loaded tt
  else Failed PuzzleValidationError.

Definition _get_required_grid_len (grid : GridSpec) (bar_id : string)
  : loaded Z :=
  match dict_get (bar_lengths grid) bar_id with
  | Some n => Loaded n
  | None => Failed (Other KeyError)
  end.

(** The value of a key of [answers] and of [clues]: a string for a grid
    bar, a list of strings for ["hidden"]. *)
Inductive entry :=
| Word (s : string)
| Words (l : list string).

Record Puzzle := {
  schema_version : string;
  meta : json;
  answers : list (string * entry);
  clues : list (string * entry);
  filename : string
}.

Fixpoint has_slash (s : string) : bool :=
  match s with
  | EmptyString => false
  | String c s' => Ascii.eqb c "/" || has_slash s'
  end.

(** [os.path.basename(path)] of [posixpath]: what follows the last slash. *)
Fixpoint basename (path : string) : string :=
  match path with
  | EmptyString => EmptyString
  | String c rest =>
      if has_slash rest then basename rest
      else if Ascii.eqb c "/" then rest else path
  end.

Definition required_grid : list string := ["h1"; "h2"; "h3"; "v1"; "v2"; "v3"].

Definition raise_if {A} (cond : bool) (a : A) : loaded A :=
  if cond then Failed PuzzleValidationError else Loaded a.

(** [load_puzzle], from the value [raw] that [json.load] returned for the
    file at [path]. *)
Definition load_puzzle (raw : json) (path : string) (grid : GridSpec)
  : loaded Puzzle :=
  sv ← get raw "schema_version" (JVal (PyStr ""));
  let schema_version := strip (json_str sv) in
  _ ← raise_if (negb (String.eqb schema_version "puzzlefile.v2")) tt;
  meta ← or_empty_dict <$> get raw "meta" empty_dict;
  answers_raw ← or_empty_dict <$> get raw "answers" empty_dict;
  clues_raw ← or_empty_dict <$> get raw "clues" empty_dict;
  present ← mapM (contains answers_raw) required_grid;
  _ ← raise_if (negb (forallb id present)) tt;
  _ ← mapM (fun bid =>
              ans ← _norm_letters <$> get answers_raw bid (JVal (PyStr ""));
              _ ← raise_if (String.eqb ans "") tt;
              _ ← _validate_letters_only ans;
              required_len ← _get_required_grid_len grid bid;
              raise_if (negb (Z.of_nat (String.length ans) =? required_len)) tt)
           required_grid;
  hidden ← get answers_raw "hidden" (JVal PyNone);
  match hidden with
  | JList (hw :: hws) _ =>
      let hidden := hw :: hws in
      _ ← raise_if (negb ((py_len hidden =? 1) || (py_len hidden =? 2))) tt;
      hidden_norm ← mapM (fun hw =>
                            let hw_s := _norm_letters hw in
                            _ ← raise_if (String.eqb hw_s "") tt;
                            _ ← _validate_letters_only hw_s;
                            Loaded hw_s) hidden;
      _ ← mapM (fun bid =>
                  clue ← (fun c => strip (json_str c))
                         <$> get clues_raw bid (JVal (PyStr ""));
                  raise_if (String.eqb clue "") tt)
               required_grid;
      hidden_clues ← get clues_raw "hidden" (JVal PyNone);
      match hidden_clues with
      | JList hcs _ =>
          _ ← raise_if (negb (py_len hcs =? py_len hidden_norm)) tt;
          answers_grid ← mapM (fun bid =>
                                 a ← item answers_raw bid;
                                 Loaded (bid, Word (_norm_letters a)))
                              required_grid;
          let answers :=
            dict_set (dict_of_items answers_grid) "hidden" (Words hidden_norm) in
          clues_grid ← mapM (fun bid =>
                               c ← get clues_raw bid (JVal (PyStr ""));
                               Loaded (bid, Word (strip (json_str c))))
                            required_grid;
          let clues :=
            dict_set (dict_of_items clues_grid) "hidden"
                     (Words (map (fun x => strip (json_str x)) hcs)) in
          Loaded {| schema_version := schema_version;
                    meta := meta;
                    answers := answers;
                    clues := clues;
                    filename := basename path |}
      | _ => Failed PuzzleValidationError
      end
  | _ => Failed PuzzleValidationError
  end.

End puzzle_io.

(** A scalar or container of a puzzle file as the engine's payload value:
    [str] is the only thing the engine asks of a list or a dict. *)
Definition pyval_of_json (x : puzzle_io.json) : pyval :=
  match x with
  | puzzle_io.JVal v => v
  | puzzle_io.JList _ s => PyOther None s
  | puzzle_io.JDict _ s => PyOther None s
  end.

(** The loaded puzzle as the engine reads it; [None] when [meta] is not a
    dict, on which the engine's [.get] is an [AttributeError]. *)
Definition engine_puzzle (p : puzzle_io.Puzzle) : option Puzzle :=
  match puzzle_io.meta p with
  | puzzle_io.JDict fields _ =>
      Some {| meta := map (fun kv => (kv.1, pyval_of_json kv.2)) fields;
              answers_hidden :=
                match dict_get (puzzle_io.answers p) "hidden" with
                | Some (puzzle_io.Words l) => Some (map PyStr l)
                | _ => None
                end;
              filename := puzzle_io.filename p |}
  | _ => None
  end.

(** ** Vocabulary of the properties of the loader *)

Definition all_capitals (s : string) : bool :=
  forallb puzzle_io.is_capital (list_ascii_of_string s).

(** A dict, or a value that [x or {}] replaces by the empty dict. *)
Definition dict_or_falsy (x : puzzle_io.json) : bool :=
  match x with
  | puzzle_io.JDict _ _ => true
  | _ => negb (puzzle_io.truthy x)
  end.

Definition json_of_entry (repr : string) (e : puzzle_io.entry)
  : puzzle_io.json :=
  match e with
  | puzzle_io.Word s => puzzle_io.JVal (PyStr s)
  | puzzle_io.Words l =>
      puzzle_io.JList (map (fun s => puzzle_io.JVal (PyStr s)) l) repr
  end.

(** The content of a file that holds the puzzle [p].  [reprs] gives the
    strings that [str] makes of the dicts and lists so built, by their
    place in the file. *)
Definition json_of_puzzle (reprs : string -> string) (p : puzzle_io.Puzzle)
  : puzzle_io.json :=
  puzzle_io.JDict
    [("schema_version", puzzle_io.JVal (PyStr (puzzle_io.schema_version p)));
     ("meta", puzzle_io.meta p);
     ("answers",
      puzzle_io.JDict
        (map (fun kv => (kv.1, json_of_entry (reprs "answers.hidden") kv.2))
             (puzzle_io.answers p))
        (reprs "answers"));
     ("clues",
      puzzle_io.JDict
        (map (fun kv => (kv.1, json_of_entry (reprs "clues.hidden") kv.2))
             (puzzle_io.clues p))
        (reprs "clues"))]
    (reprs "").

(** ** A sample puzzle file *)

Definition demo_meta : puzzle_io.json :=
  puzzle_io.JDict [("id", puzzle_io.JVal (PyStr "demo"))] "{'id': 'demo'}".

Definition demo_answers : puzzle_io.json :=
  puzzle_io.JDict
    [("h1", puzzle_io.JVal (PyStr "painter"));
     ("h2", puzzle_io.JVal (PyStr "STEALTH"));
     ("h3", puzzle_io.JVal (PyStr "Betters"));
     ("v1", puzzle_io.JVal (PyStr "parties"));
     ("v2", puzzle_io.JVal (PyStr "unearth"));
     ("v3", puzzle_io.JVal (PyStr " restore "));
     ("hidden",
      puzzle_io.JList [puzzle_io.JVal (PyStr "cat");
                       puzzle_io.JVal (PyStr "a c t")]
                      "['cat', 'a c t']")]
    (String.append
       "{'h1': 'painter', 'h2': 'STEALTH', 'h3': 'Betters', 'v1': 'parties', "
       "'v2': 'unearth', 'v3': ' restore ', 'hidden': ['cat', 'a c t']}").

Definition demo_clues : puzzle_io.json :=
  puzzle_io.JDict
    [("h1", puzzle_io.JVal (PyStr "one"));
     ("h2", puzzle_io.JVal (PyStr " two "));
     ("h3", puzzle_io.JVal (PyStr "three"));
     ("v1", puzzle_io.JVal (PyStr "four"));
     ("v2", puzzle_io.JVal (PyStr "five"));
     ("v3", puzzle_io.JVal (PyInt 6));
     ("hidden",
      puzzle_io.JList [puzzle_io.JVal (PyStr "Pet");
                       puzzle_io.JVal (PyStr " Deed ")]
                      "['Pet', ' Deed ']")]
    (String.append
       "{'h1': 'one', 'h2': ' two ', 'h3': 'three', 'v1': 'four', "
       "'v2': 'five', 'v3': 6, 'hidden': ['Pet', ' Deed ']}").

Definition demo_file : puzzle_io.json :=
  puzzle_io.JDict
    [("schema_version", puzzle_io.JVal (PyStr "puzzlefile.v2"));
     ("meta", demo_meta);
     ("answers", demo_answers);
     ("clues", demo_clues)]
    (String.append "{'schema_version': 'puzzlefile.v2', 'meta': "
       (String.append (puzzle_io.json_str demo_meta)
          (String.append ", 'answers': "
             (String.append (puzzle_io.json_str demo_answers)
                (String.append ", 'clues': "
                   (String.append (puzzle_io.json_str demo_clues) "}")))))).

(** What [load_puzzle] makes of [demo_file]; its answers agree at the nine
    crossings. *)
Definition demo_loaded : puzzle_io.Puzzle :=
  {| puzzle_io.schema_version := "puzzlefile.v2";
     puzzle_io.meta := demo_meta;
     puzzle_io.answers :=
       [("h1", puzzle_io.Word "PAINTER"); ("h2", puzzle_io.Word "STEALTH");
        ("h3", puzzle_io.Word "BETTERS"); ("v1", puzzle_io.Word "PARTIES");
        ("v2", puzzle_io.Word "UNEARTH"); ("v3", puzzle_io.Word "RESTORE");
        ("hidden", puzzle_io.Words ["CAT"; "ACT"])];
     puzzle_io.clues :=
       [("h1", puzzle_io.Word "one"); ("h2", puzzle_io.Word "two");
        ("h3", puzzle_io.Word "three"); ("v1", puzzle_io.Word "four");
        ("v2", puzzle_io.Word "five"); ("v3", puzzle_io.Word "6");
        ("hidden", puzzle_io.Words ["Pet"; "Deed"])];
     puzzle_io.filename := "demo.json" |}.

(** ** Vocabulary of the properties of the letters *)

Definition letter_or_empty (ch : string) : Prop :=
  ch = "" \/ single_capital ch.

Definition cells_hold_letters (cells : list (string * list string)) : Prop :=
  forall b arr, dict_get cells b = Some arr -> Forall letter_or_empty arr.

(** ** The checks of [app/app.py] *)

(** [s.replace(old, new)] for a non-empty [old]: the occurrences of [old]
    are found from left to right and do not overlap.  [skip] counts the
    characters of an occurrence still to be passed over. *)
Fixpoint replace_from (skip : nat) (old new s : string) : string :=
  match s with
  | EmptyString => EmptyString
  | String c s' =>
      match skip with
      | S k => replace_from k old new s'
      | O =>
          if String.prefix old s
          then String.append new
                 (replace_from (String.length old - 1) old new s')
          else String c (replace_from 0 old new s')
      end
  end.

Definition replace (s old new : string) : string := replace_from 0 old new s.

(** The marks of [st.session_state.marks]: a mark by cell id for the grid,
    a list of marks by bar id for the hidden bars. *)
Record Marks := {
  mk_grid : list (string * string);
  mk_hidden : list (string * list string)
}.

Definition no_marks : Marks := {| mk_grid := []; mk_hidden := [] |}.

Definition _get_hidden_answer (puzzle : puzzle_io.Puzzle) (bar_id : string)
  : string :=
  match dict_get_or (puzzle_io.answers puzzle) "hidden" (puzzle_io.Words []) with
  | puzzle_io.Word _ => ""
  | puzzle_io.Words hidden =>
      let idx := match int_of_str (replace bar_id "hidden" "") with
                 | Some n => n - 1
                 | None => 0
                 end in
      if (0 <=? idx) && (idx <? py_len hidden)
      then match hidden !! Z.to_nat idx with
           | Some w => w
           | None => ""
           end
      else ""
  end.

(** [ans[i].upper() if i < len(ans) else ""], for [i >= 0] *)
Definition expected_letter (ans : string) (i : Z) : string :=
  if i <? Z.of_nat (String.length ans)
  then match String.get (Z.to_nat i) ans with
       | Some c => upper (String c EmptyString)
       | None => ""
       end
  else "".

(** ["correct" if got and got == expected else "wrong"] *)
Definition mark_of (got expected : string) : string :=
  if negb (String.eqb got "") && String.eqb got expected
  then "correct" else "wrong".

(** The marks of one hidden bar. *)
Definition hidden_marks (ans : string) (arr : list string) : list string :=
  map (fun '(i, ch) => mark_of (upper ch) (expected_letter ans i))
      (enumerate arr).

(** The loop over the cells of one grid bar, from the marks so far. *)
Fixpoint grid_marks (state : GameState) (bar_id ans : string)
    (cells : list (Z * Cell)) (marks_grid : list (string * string))
  : result (list (string * string)) :=
  match cells with
  | [] => Ok marks_grid
  | (i, cell) :: rest =>
      let cid := cell_id cell in
      ch ← list_getitem (dict_get_or (grid_cells state) bar_id [""]) i;
      let got := upper ch in
      let expected := expected_letter ans i in
      grid_marks state bar_id ans rest
                 (dict_set marks_grid cid (mark_of got expected))
  end.

Section checks.
(** What [str] makes of a non-empty list of strings; it is asked for only
    when a grid key of [answers] holds a list. *)
Variable list_repr : list string -> string.

(** [str(puzzle.answers.get(bar_id, "") or "")] *)
Definition grid_answer (puzzle : puzzle_io.Puzzle) (bar_id : string) : string :=
  match dict_get (puzzle_io.answers puzzle) bar_id with
  | Some (puzzle_io.Word w) => w
  | Some (puzzle_io.Words []) => ""
  | Some (puzzle_io.Words l) => list_repr l
  | None => ""
  end.

(** [_check_word], from the geometry and the marks of the session to the
    marks it leaves there. *)
Definition _check_word (puzzle : puzzle_io.Puzzle) (state : GameState)
    (grid_spec : GridSpec) (marks : Marks) : result Marks :=
  let a := active state in
  match scope a with
  | ScopeHidden =>
      let answer := _get_hidden_answer puzzle (bar_id a) in
      if String.eqb answer "" then Ok marks
      else
        let arr := dict_get_or (hidden_cells state) (bar_id a) [] in
        Ok {| mk_grid := [];
              mk_hidden := [(bar_id a, hidden_marks answer arr)] |}
  | ScopeGrid =>
      let answer := grid_answer puzzle (bar_id a) in
      if String.eqb answer "" then Ok marks
      else
        let cells := dict_get_or (bars grid_spec) (bar_id a) [] in
        marks_grid ← grid_marks state (bar_id a) answer (enumerate cells) [];
        Ok {| mk_grid := marks_grid; mk_hidden := [] |}
  end.

(** The loop of [_check_puzzle] over the grid bars. *)
Fixpoint check_bars (puzzle : puzzle_io.Puzzle) (state : GameState)
    (grid_spec : GridSpec) (bids : list string)
    (marks_grid : list (string * string)) : result (list (string * string)) :=
  match bids with
  | [] => Ok marks_grid
  | bid :: rest =>
      let ans := grid_answer puzzle bid in
      if String.eqb ans "" then check_bars puzzle state grid_spec rest marks_grid
      else
        let cells := dict_get_or (bars grid_spec) bid [] in
        marks_grid' ← grid_marks state bid ans (enumerate cells) marks_grid;
        check_bars puzzle state grid_spec rest marks_grid'
  end.

Definition _check_puzzle (puzzle : puzzle_io.Puzzle) (state : GameState)
    (grid_spec : GridSpec) : result Marks :=
  marks_grid ← check_bars puzzle state grid_spec
                          ["h1"; "h2"; "h3"; "v1"; "v2"; "v3"] [];
  let marks_hidden :=
    fold_left (fun acc '(hid, arr) =>
                 let ans := _get_hidden_answer puzzle hid in
                 if String.eqb ans "" then acc
                 else dict_set acc hid (hidden_marks ans arr))
              (hidden_cells state) [] in
  Ok {| mk_grid := marks_grid; mk_hidden := marks_hidden |}.
End checks.

(** ** Vocabulary of the properties of the checks *)

(** The letter at index [i] of the word [w], as a string; empty when there
    is none. *)
Definition letter_at (w : string) (i : Z) : string :=
  if 0 <=? i
  then match String.get (Z.to_nat i) w with
       | Some c => String c EmptyString
       | None => ""
       end
  else "".

(** Every mark is ["correct"]. *)
Definition all_correct (marks : Marks) : Prop :=
  (forall cid m, dict_get (mk_grid marks) cid = Some m -> m = "correct")
  /\ (forall hid ms m,
        dict_get (mk_hidden marks) hid = Some ms -> m ∈ ms -> m = "correct").

(** The cells [arr] of a bar hold, in order, the letters of the word [w]. *)
Definition spells (arr : list string) (w : string) : Prop :=
  forall (j : nat) ch, arr !! j = Some ch -> ch = letter_at w (Z.of_nat j).

(** Every grid bar and every hidden bar of the state spells its answer. *)
Definition solved (P : puzzle_io.Puzzle) (s : GameState) : Prop :=
  (forall b w arr,
     dict_get (puzzle_io.answers P) b = Some (puzzle_io.Word w) ->
     dict_get (grid_cells s) b = Some arr -> spells arr w)
  /\ (forall ws (k : nat) w arr,
        dict_get (puzzle_io.answers P) "hidden" = Some (puzzle_io.Words ws) ->
        ws !! k = Some w ->
        dict_get (hidden_cells s) (hidden_bar_id (Z.of_nat k + 1)) = Some arr ->
        spells arr w).

(** The answers of two crossing bars have the same letter at the crossing. *)
Definition answers_agree (P : puzzle_io.Puzzle) (g : GridSpec) : Prop :=
  forall b i b' i' w w',
    dict_get (cross_map g) (b, i) = Some (b', i') ->
    dict_get (puzzle_io.answers P) b = Some (puzzle_io.Word w) ->
    dict_get (puzzle_io.answers P) b' = Some (puzzle_io.Word w') ->
    letter_at w i = letter_at w' i'.

(** * Properties *)

(** ** Lists and dictionaries *)

Lemma bind_Ok {A B} (a : A) (f : A -> result B) : (Ok a ≫= f) = f a.
Proof. reflexivity. Qed.

Lemma str_of_prints (v : pyval) :
  str_raises v = false -> str_of v = Ok (py_str v).
Proof. intros H. unfold str_of. by rewrite H. Qed.

Lemma str_of_raises (v : pyval) :
  str_raises v = true -> str_of v = Raise ValueError.
Proof. intros H. unfold str_of. by rewrite H. Qed.

Lemma str_of_Ok (v : pyval) (w : string) :
  str_of v = Ok w -> str_raises v = false /\ w = py_str v.
Proof. unfold str_of. destruct (str_raises v); [done |]. by intros [= <-]. Qed.

Lemma bind_is_Ok {A B} (m : result A) (f : A -> result B) (b : B) :
  (m ≫= f) = Ok b -> exists a, m = Ok a /\ f a = Ok b.
Proof. destruct m as [a|e]; [eauto | discriminate]. Qed.

Lemma py_len_nil {A} (l : list A) : py_len l = 0 <-> l = [].
Proof.
  unfold py_len. destruct l; simpl; split; intros H; try done; lia.
Qed.

Lemma py_len_nonneg {A} (l : list A) : 0 <= py_len l.
Proof. unfold py_len. lia. Qed.

Lemma py_index_in_range (n i : Z) :
  0 <= i < n -> py_index n i = Ok (Z.to_nat i).
Proof.
  intros H. unfold py_index.
  destruct (Z.leb_spec 0 i); [| lia].
  destruct (Z.ltb_spec i n); [done | lia].
Qed.

Lemma list_setitem_in_range {A} (l : list A) (i : Z) (v : A) :
  0 <= i < py_len l -> list_setitem l i v = Ok (<[Z.to_nat i := v]> l).
Proof.
  intros H. unfold list_setitem. by rewrite py_index_in_range.
Qed.

Lemma list_getitem_in_range {A} (l : list A) (i : Z) :
  0 <= i < py_len l ->
  exists x, l !! Z.to_nat i = Some x /\ list_getitem l i = Ok x.
Proof.
  intros H. unfold list_getitem. rewrite py_index_in_range by done.
  destruct (lookup_lt_is_Some_2 l (Z.to_nat i)) as [x Hx].
  { unfold py_len in H. lia. }
  exists x. split; [done |]. rewrite bind_Ok. by rewrite Hx.
Qed.

Lemma py_len_insert {A} (l : list A) (k : nat) (v : A) :
  py_len (<[k := v]> l) = py_len l.
Proof. unfold py_len. by rewrite length_insert. Qed.

Section dict_facts.
Context {K V : Type} `{EqDecision K}.
Implicit Types (d : list (K * V)) (k : K) (v : V).

Lemma dict_get_set d k v k' :
    dict_get (dict_set d k v) k' =
      if decide (k' = k) then Some v else dict_get d k'.
Proof.
    induction d as [| [k0 v0] d IH]; simpl.
    - by destruct (decide (k' = k)).
    - destruct (decide (k = k0)) as [-> | Hne]; simpl.
      + by destruct (decide (k' = k0)).
      + destruct (decide (k' = k0)) as [-> | Hne'].
        * destruct (decide (k0 = k)); [congruence | done].
        * apply IH.
Qed.

Lemma dict_get_set_eq d k v : dict_get (dict_set d k v) k = Some v.
Proof. rewrite dict_get_set. by destruct (decide (k = k)). Qed.

Lemma dict_get_set_ne d k v k' :
    k' <> k -> dict_get (dict_set d k v) k' = dict_get d k'.
Proof. intros Hne. rewrite dict_get_set. by destruct (decide (k' = k)). Qed.

Lemma dict_keys_set_present d k v v0 :
    dict_get d k = Some v0 -> dict_keys (dict_set d k v) = dict_keys d.
Proof.
    unfold dict_keys. induction d as [| [k0 w] d IH]; simpl; [done |].
    destruct (decide (k = k0)) as [-> | Hne]; simpl; [done |].
    intros Hg. by rewrite IH.
Qed.

Lemma dict_set_absent d k v :
    dict_get d k = None -> dict_set d k v = d ++ [(k, v)].
Proof.
    induction d as [| [k0 w] d IH]; simpl; [done |].
    destruct (decide (k = k0)); [done |]. intros Hg. by rewrite IH.
Qed.

Lemma dict_get_keys d k : is_Some (dict_get d k) <-> k ∈ dict_keys d.
Proof.
    unfold dict_keys. induction d as [| [k0 w] d IH]; simpl.
    - split; [intros [? ?]; done | intros ?%elem_of_nil; done].
    - rewrite elem_of_cons. destruct (decide (k = k0)) as [-> | Hne].
      + split; eauto.
      + rewrite IH. split; [by right | by intros [? | ?]].
Qed.

Lemma dict_get_None_keys d k : dict_get d k = None <-> k ∉ dict_keys d.
Proof.
    rewrite <- dict_get_keys. destruct (dict_get d k) as [v |].
    - split; [done |]. intros Hn. exfalso. apply Hn. eauto.
    - split; [| done]. intros _ [? ?]. done.
Qed.

Lemma dict_get_elem_of d k v : dict_get d k = Some v -> (k, v) ∈ d.
Proof.
    induction d as [| [k0 w] d IH]; simpl; [done |].
    destruct (decide (k = k0)) as [-> | Hne].
    - intros [= ->]. apply elem_of_cons. by left.
    - intros Hg. apply elem_of_cons. right. by apply IH.
Qed.

Lemma dict_contains_true d k :
    dict_contains d k = true <-> is_Some (dict_get d k).
Proof.
    unfold dict_contains. destruct (dict_get d k) as [v |].
    - split; eauto.
    - split; [done |]. intros [? ?]. done.
Qed.

Lemma dict_item_Some d k v : dict_get d k = Some v -> dict_item d k = Ok v.
Proof. unfold dict_item. by intros ->. Qed.

Lemma dict_get_or_Some d k v dflt :
    dict_get d k = Some v -> dict_get_or d k dflt = v.
Proof. unfold dict_get_or. by intros ->. Qed.

  (** Items with pairwise distinct keys give the dictionary that lists them
      in order. *)
Lemma dict_fold_distinct (items acc : list (K * V)) :
    NoDup (dict_keys (acc ++ items)) ->
    fold_left (fun d kv => dict_set d (fst kv) (snd kv)) items acc
    = acc ++ items.
Proof.
    revert acc. induction items as [| [k v] items IH]; intros acc Hnd; simpl.
    - by rewrite app_nil_r.
    - rewrite dict_set_absent.
      + rewrite IH; rewrite <- app_assoc; done.
      + apply dict_get_None_keys. unfold dict_keys in *.
        rewrite map_app in Hnd. apply NoDup_app in Hnd as (_ & Hdis & _).
        intros Hin. apply (Hdis k Hin). simpl. apply elem_of_cons. by left.
Qed.

Lemma dict_of_items_distinct (items : list (K * V)) :
    NoDup (dict_keys items) -> dict_of_items items = items.
Proof. intros Hnd. unfold dict_of_items. by rewrite dict_fold_distinct. Qed.
End dict_facts.

(** ** Numerals *)

Lemma int_digits_uint_acc (d : Decimal.uint) (acc : positive) :
  int_digits (Z.pos acc) true (NilEmpty.string_of_uint d)
  = Some (Z.pos (Pos.of_uint_acc d acc)).
Proof.
  revert acc. induction d; intros acc; simpl; try done;
    rewrite <- IHd; f_equal; lia.
Qed.

Lemma int_digits_uint (d : Decimal.uint) :
  int_digits 0 true (NilEmpty.string_of_uint d) = Some (Z.of_N (Pos.of_uint d)).
Proof.
  induction d; simpl; try done.
  all: match goal with
       | |- int_digits ?n true (NilEmpty.string_of_uint ?d) = _ =>
           match eval vm_compute in n with
           | Z.pos ?q => change n with (Z.pos q)
           end
       end; by rewrite int_digits_uint_acc.
Qed.

Lemma uint_chars (d : Decimal.uint) (c : ascii) :
  In c (list_ascii_of_string (NilEmpty.string_of_uint d)) ->
  (48 <= N_of_ascii c <= 57)%N.
Proof.
  induction d; simpl; try done; intros [<- | H]; try (by apply IHd);
    by vm_compute.
Qed.

Lemma py_str_int_chars (z : Z) (c : ascii) :
  In c (list_ascii_of_string (py_str (PyInt z))) ->
  c = "-"%char \/ (48 <= N_of_ascii c <= 57)%N.
Proof.
  simpl. unfold NilZero.string_of_int, NilZero.string_of_uint.
  assert (H0 : In c (list_ascii_of_string "0") -> (48 <= N_of_ascii c <= 57)%N).
  { simpl. intros [<- | []]. by vm_compute. }
  destruct (Z.to_int z) as [d | d]; simpl.
  - intros H. right. destruct d; try (by apply (uint_chars _ _ H)). by apply H0.
  - intros [<- | H]; [by left |]. right.
    destruct d; try (by apply (uint_chars _ _ H)). by apply H0.
Qed.

Lemma int_strip_id (s : string) :
  (forall c, In c (list_ascii_of_string s) -> int_isspace c = false) ->
  int_rstrip (int_lstrip s) = s.
Proof.
  intros H. assert (int_lstrip s = s) as ->.
  { destruct s as [| c s]; [done |]. simpl. by rewrite (H c) by (by left). }
  induction s as [| c s IH]; [done |]. simpl.
  rewrite IH by (intros c' Hc'; apply H; by right).
  rewrite (H c) by (by left). by destruct s.
Qed.

Lemma int_digits_first (d : Decimal.uint) :
  d <> Decimal.Nil ->
  int_digits 0 false (NilEmpty.string_of_uint d)
  = int_digits 0 true (NilEmpty.string_of_uint d).
Proof. by destruct d. Qed.

Lemma int_digits_nilzero (d : Decimal.uint) :
  int_digits 0 false (NilZero.string_of_uint d) = Some (Z.of_uint d).
Proof.
  unfold NilZero.string_of_uint, Z.of_uint.
  destruct d; try done; by rewrite int_digits_first, int_digits_uint.
Qed.

Lemma count_digits_le (s : string) :
  0 <= count_digits s <= Z.of_nat (String.length s).
Proof.
  induction s as [| c s IH]; simpl; [lia |].
  destruct (digit_of_ascii c); lia.
Qed.

Lemma int_of_numeral_short (s : string) :
  count_digits s <= INT_MAX_STR_DIGITS ->
  int_of_numeral s = int_digits 0 false s.
Proof.
  intros H. unfold int_of_numeral.
  by destruct (Z.ltb_spec INT_MAX_STR_DIGITS (count_digits s)); [lia |].
Qed.

Lemma int_of_numeral_long (s : string) :
  INT_MAX_STR_DIGITS < count_digits s -> int_of_numeral s = None.
Proof.
  intros H. unfold int_of_numeral.
  by destruct (Z.ltb_spec INT_MAX_STR_DIGITS (count_digits s)); [| lia].
Qed.

(** The numeral of [z], as [int] reads it back: the whole of it but for
    the sign. *)
Lemma int_of_str_decimal (z : Z) :
  int_of_str (py_str (PyInt z))
  = if INT_MAX_STR_DIGITS <? count_digits (py_str (PyInt z)) then None
    else Some z.
Proof.
  unfold int_of_str. rewrite int_strip_id.
  2:{ intros c [-> | Hc]%py_str_int_chars; [done |].
      unfold int_isspace. cbv zeta.
      repeat match goal with
             | |- context [(?a <=? ?b)%N] => destruct (N.leb_spec a b)
             | |- context [(?a =? ?b)%N] => destruct (N.eqb_spec a b)
             end; try done; lia. }
  rewrite <- (DecimalZ.of_to z) at 3. simpl.
  unfold NilZero.string_of_int.
  destruct (Z.to_int z) as [d | d].
  - pose proof (int_digits_nilzero d) as Hd.
    assert (Hc : forall c, In c (list_ascii_of_string (NilZero.string_of_uint d)) ->
                   (48 <= N_of_ascii c <= 57)%N).
    { intros c Hc. unfold NilZero.string_of_uint in Hc.
      destruct d; try (by apply (uint_chars _ _ Hc)).
      simpl in Hc. destruct Hc as [<- | []]. by vm_compute. }
    destruct (NilZero.string_of_uint d) as [| c s] eqn:E; [done |].
    assert (H48 : (48 <= N_of_ascii c <= 57)%N) by (apply Hc; by left).
    destruct (Ascii.eqb_spec c "-") as [-> | Hm]; [by vm_compute in H48 |].
    destruct (Ascii.eqb_spec c "+") as [-> | Hp]; [by vm_compute in H48 |].
    simpl Z.of_int. 
    assert (Hn : int_of_numeral (String c s)
                 = if INT_MAX_STR_DIGITS <? count_digits (String c s) then None
                   else Some (Z.of_uint d)).
    { unfold int_of_numeral. by rewrite Hd. }
    rewrite <- Hn.
    destruct c as [[] [] [] [] [] [] [] []]; try done.
  - change (count_digits (String "-" (NilZero.string_of_uint d)))
      with (count_digits (NilZero.string_of_uint d)).
    unfold int_of_numeral. rewrite int_digits_nilzero.
    by destruct (INT_MAX_STR_DIGITS <? count_digits (NilZero.string_of_uint d)).
Qed.


(** ** Well-formed geometries *)

Lemma wf_gridb_sound (g : GridSpec) : wf_gridb g = true -> wf_grid g.
Proof.
  unfold wf_gridb. intros [Hc Hl]%andb_prop.
  rewrite forallb_forall in Hc. rewrite forallb_forall in Hl.
  assert (Hentry : forall k k', dict_get (cross_map g) k = Some k' ->
            dict_get (cross_map g) k' = Some k /\ pos_in_range g k' = true).
  { intros k k' Hk. apply dict_get_elem_of, list_elem_of_In in Hk.
    specialize (Hc _ Hk). simpl in Hc. apply andb_prop in Hc as [H1 H2].
    by apply bool_decide_eq_true in H1. }
  split.
  - intros k k' Hk. by apply Hentry.
  - intros k b i Hk. apply Hentry in Hk as [_ Hr].
    unfold pos_in_range in Hr. simpl in Hr.
    apply andb_prop in Hr as [Hb Hn]. apply bool_decide_eq_true in Hb.
    split; [done |]. destruct (dict_get (bar_lengths g) b) as [n |]; [| done].
    exists n. split; [done | lia].
  - intros b Hb. apply list_elem_of_In in Hb. specialize (Hl _ Hb).
    destruct (dict_get (bar_lengths g) b) as [n |]; [| done].
    exists n. split; [done | lia].
Qed.

Lemma build_grid_spec_wf : wf_grid build_grid_spec.
Proof. apply wf_gridb_sound. vm_compute. reflexivity. Qed.

(** ** Cells of the grid *)

Lemma cell_at_Some cells b i ch :
  cell_at cells b i = Some ch <->
  exists arr, dict_get cells b = Some arr /\ 0 <= i < py_len arr
              /\ arr !! Z.to_nat i = Some ch.
Proof.
  unfold cell_at. split.
  - destruct (dict_get cells b) as [arr |]; [| done].
    destruct (Z.leb_spec 0 i); [| done]. intros Hl.
    exists arr. split; [done |]. split; [| done].
    apply lookup_lt_Some in Hl. unfold py_len. lia.
  - intros (arr & -> & Hr & Hl). destruct (Z.leb_spec 0 i); [done | lia].
Qed.

Lemma cell_at_is_Some cells b i :
  is_Some (cell_at cells b i) <->
  exists arr, dict_get cells b = Some arr /\ 0 <= i < py_len arr.
Proof.
  split.
  - intros [ch Hc]. apply cell_at_Some in Hc as (arr & ? & ? & ?). eauto.
  - intros (arr & Hg & Hr).
    destruct (lookup_lt_is_Some_2 arr (Z.to_nat i)) as [ch Hch].
    { unfold py_len in Hr. lia. }
    exists ch. apply cell_at_Some. eauto.
Qed.

Lemma dict_keys_put cells b i v : dict_keys (put cells b i v) = dict_keys cells.
Proof.
  unfold put. destruct (dict_get cells b) as [arr |] eqn:Hg; [| done].
  by eapply dict_keys_set_present.
Qed.

Lemma dict_get_put cells b i v b' :
  dict_get (put cells b i v) b' =
    match dict_get cells b' with
    | Some arr => Some (if decide (b' = b) then <[Z.to_nat i := v]> arr else arr)
    | None => None
    end.
Proof.
  unfold put. destruct (dict_get cells b) as [arr |] eqn:Hg.
  - rewrite dict_get_set. destruct (decide (b' = b)) as [-> | Hne].
    + by rewrite Hg.
    + by destruct (dict_get cells b').
  - destruct (decide (b' = b)) as [-> | Hne].
    + by rewrite Hg.
    + by destruct (dict_get cells b').
Qed.

Lemma cell_at_put cells b i v b' i' :
  is_Some (cell_at cells b i) ->
  cell_at (put cells b i v) b' i' =
    if decide ((b', i') = (b, i)) then Some v else cell_at cells b' i'.
Proof.
  intros (arr & Hg & Hr)%cell_at_is_Some.
  unfold cell_at at 1. rewrite dict_get_put.
  destruct (decide ((b', i') = (b, i))) as [[= -> ->] | Hne].
  - rewrite Hg. destruct (decide (b = b)); [| done].
    destruct (Z.leb_spec 0 i); [| lia].
    apply list_lookup_insert_eq. unfold py_len in Hr. lia.
  - unfold cell_at. destruct (dict_get cells b') as [arr' |]; [| done].
    destruct (Z.leb_spec 0 i'); [| done].
    destruct (decide (b' = b)) as [-> | Hb]; [| done].
    apply list_lookup_insert_ne. intros Heq. apply Hne. f_equal. lia.
Qed.

Lemma cell_at_put_is_Some cells b i v b' i' :
  is_Some (cell_at (put cells b i v) b' i') <-> is_Some (cell_at cells b' i').
Proof.
  rewrite !cell_at_is_Some. rewrite dict_get_put. split.
  - intros (arr & Hg & Hr). destruct (dict_get cells b') as [arr0 |]; [| done].
    exists arr0. split; [done |]. injection Hg as <-.
    destruct (decide (b' = b)); [by rewrite py_len_insert in Hr | done].
  - intros (arr & -> & Hr). eexists. split; [done |].
    destruct (decide (b' = b)); [by rewrite py_len_insert | done].
Qed.

(** ** Writing a letter and its cross-linked partner *)

Section linked_writes.
Variable g : GridSpec.
Hypothesis Hwf : wf_grid g.
Implicit Types (cells : list (string * list string)) (b : string) (i : Z).

Lemma grid_shape_put cells b i v :
  grid_shape g cells -> grid_shape g (put cells b i v).
Proof.
  intros [Hk Hl]. split.
  - by rewrite dict_keys_put.
  - intros b' arr'. rewrite dict_get_put.
    destruct (dict_get cells b') as [arr |] eqn:Hg; [| done].
    intros [= <-]. rewrite (Hl _ _ Hg).
    destruct (decide (b' = b)); [by rewrite py_len_insert | done].
Qed.

Lemma grid_shape_put_linked cells b i v :
  grid_shape g cells -> grid_shape g (put_linked g cells b i v).
Proof.
  intros Hs. unfold put_linked.
  destruct (dict_get (cross_map g) (b, i)) as [[ob oi] |];
    auto using grid_shape_put.
Qed.

Lemma grid_shape_bar cells b :
  grid_shape g cells -> b ∈ GRID_ORDER ->
  exists arr, dict_get cells b = Some arr /\ 1 <= py_len arr.
Proof.
  intros [Hk Hl] Hb.
  assert (Hs : is_Some (dict_get cells b)) by (apply dict_get_keys; by rewrite Hk).
  destruct Hs as [arr Hg]. exists arr. split; [done |].
  destruct (wf_len g Hwf b Hb) as (n & Hn & Hpos).
  rewrite (Hl _ _ Hg) in Hn. injection Hn as <-. done.
Qed.

Lemma grid_shape_in_order cells b arr :
  grid_shape g cells -> dict_get cells b = Some arr ->
  b ∈ GRID_ORDER /\ 1 <= py_len arr.
Proof.
  intros Hs Hg. assert (Hb : b ∈ GRID_ORDER).
  { destruct Hs as [<- _]. apply dict_get_keys. eauto. }
  split; [done |].
  destruct (grid_shape_bar cells b Hs Hb) as (arr' & Hg' & Hlen). congruence.
Qed.

Lemma cross_partner_exists cells b i b' i' :
  grid_shape g cells -> dict_get (cross_map g) (b, i) = Some (b', i') ->
  is_Some (cell_at cells b' i').
Proof.
  intros Hs Hc. destruct (wf_range g Hwf _ _ _ Hc) as (Hb & n & Hn & Hr).
  destruct (grid_shape_bar cells b' Hs Hb) as (arr & Hg & _).
  apply cell_at_is_Some. exists arr. split; [done |].
  destruct Hs as [_ Hl]. rewrite (Hl _ _ Hg) in Hn. injection Hn as <-. done.
Qed.

Lemma cell_at_put_linked cells b i v b2 i2 :
  grid_shape g cells -> is_Some (cell_at cells b i) ->
  cell_at (put_linked g cells b i v) b2 i2 =
    if decide ((b2, i2) = (b, i)) then Some v
    else if decide (dict_get (cross_map g) (b, i) = Some (b2, i2)) then Some v
    else cell_at cells b2 i2.
Proof.
  intros Hs Hv. unfold put_linked.
  destruct (dict_get (cross_map g) (b, i)) as [[ob oi] |] eqn:Hc.
  - rewrite cell_at_put.
    2:{ apply cell_at_put_is_Some. by eapply cross_partner_exists. }
    rewrite cell_at_put by done.
    repeat case_decide; try done; congruence.
  - rewrite cell_at_put by done. repeat case_decide; done.
Qed.

Lemma synced_put_linked cells b i v :
  grid_shape g cells -> synced g cells -> is_Some (cell_at cells b i) ->
  synced g (put_linked g cells b i v).
Proof.
  intros Hs Hsy Hv c j c' j' Hx.
  pose proof (wf_sym g Hwf _ _ Hx) as Hx'.
  rewrite !cell_at_put_linked by done.
  repeat case_decide; try done.
  - exfalso. congruence.
  - exfalso. assert (dict_get (cross_map g) (c, j) = Some (b, i)) as Hk
      by (by apply (wf_sym g Hwf)). congruence.
  - exfalso. congruence.
  - exfalso. assert (dict_get (cross_map g) (c', j') = Some (b, i)) as Hk
      by (by apply (wf_sym g Hwf)). congruence.
  - by apply Hsy.
Qed.

Lemma clear_at_put cells b i :
  grid_shape g cells -> is_Some (cell_at cells b i) ->
  clear_at g b i cells = Ok (put cells b i "").
Proof.
  intros [_ Hl] (arr & Hg & Hr)%cell_at_is_Some.
  unfold clear_at, put. rewrite (dict_item_Some _ _ _ (Hl _ _ Hg)), bind_Ok.
  rewrite (dict_get_or_Some _ _ arr) by done. rewrite Hg.
  destruct (Z.leb_spec 0 i); [| lia]. destruct (Z.ltb_spec i (py_len arr)); [| lia].
  simpl. by rewrite list_setitem_in_range.
Qed.

Lemma clear_with_partner_put_linked cells b i :
  grid_shape g cells -> is_Some (cell_at cells b i) ->
  clear_with_partner g b i cells = Ok (put_linked g cells b i "").
Proof.
  intros Hs Hv. unfold clear_with_partner, put_linked.
  rewrite clear_at_put, bind_Ok by done.
  destruct (dict_get (cross_map g) (b, i)) as [[ob oi] |] eqn:Hc; [| done].
  apply clear_at_put; [by apply grid_shape_put |].
  apply cell_at_put_is_Some. by eapply cross_partner_exists.
Qed.

End linked_writes.

(** ** The handlers, one by one *)

Lemma _clamp_bounds i lo hi : lo <= hi -> lo <= _clamp i lo hi <= hi.
Proof. unfold _clamp. lia. Qed.

Lemma _clamp_id i lo hi : lo <= i <= hi -> _clamp i lo hi = i.
Proof. unfold _clamp. lia. Qed.

Lemma active_cells_bar s :
  active_cells s = match active_bar s with Some arr => arr | None => [] end.
Proof.
  unfold active_cells, active_bar, dict_get_or. by destruct (scope (active s)).
Qed.

Lemma state_inv_ext g s s' :
  state_inv g s -> grid_cells s' = grid_cells s ->
  hidden_cells s' = hidden_cells s -> active s' = active s -> state_inv g s'.
Proof.
  intros [Hg Hs Hh Hc] Eg Eh Ea. split; rewrite ?Eg, ?Eh; try done.
  unfold cursor_clamped, active_bar in *. by rewrite Eg, Eh, Ea.
Qed.

Lemma hidden_bars_nonempty_ext s s' :
  hidden_bars_nonempty s -> hidden_cells s' = hidden_cells s ->
  hidden_bars_nonempty s'.
Proof. unfold hidden_bars_nonempty. by intros H ->. Qed.

Lemma on_move_frame s step :
  let s' := _on_move s step in
  puzzle_id s' = puzzle_id s /\ state_id s' = state_id s
  /\ grid_cells s' = grid_cells s /\ hidden_cells s' = hidden_cells s
  /\ clue_order s' = clue_order s /\ start_time s' = start_time s
  /\ last_client_seq s' = last_client_seq s
  /\ scope (active s') = scope (active s)
  /\ bar_id (active s') = bar_id (active s)
  /\ direction (active s') = direction (active s).
Proof.
  unfold _on_move. destruct (active_cells s); simpl; [done |].
  case (Z.eqb_spec _ _); intros; simpl; done.
Qed.

Lemma on_move_index s step :
  index (active (_on_move s step)) =
    match active_cells s with
    | [] => index (active s)
    | cells => _clamp (index (active s) + step) 0 (py_len cells - 1)
    end.
Proof.
  unfold _on_move. destruct (active_cells s) as [| c cells]; simpl; [done |].
  case (Z.eqb_spec _ _); intros Heq; simpl; [by rewrite Heq | done].
Qed.

Lemma on_move_active_bar s step :
  active_bar (_on_move s step) = active_bar s.
Proof.
  destruct (on_move_frame s step) as (_ & _ & Eg & Eh & _ & _ & _ & Es & Eb & _).
  unfold active_bar. by rewrite Es, Eb, Eg, Eh.
Qed.

Lemma on_move_inv g s step : state_inv g s -> state_inv g (_on_move s step).
Proof.
  intros [Hg Hs Hh Hc].
  destruct (on_move_frame s step) as (_ & _ & Eg & Eh & _).
  split; rewrite ?Eg, ?Eh; try done.
  destruct Hc as (arr & Ha & Hr). exists arr.
  rewrite on_move_active_bar. split; [done |].
  rewrite on_move_index, active_cells_bar, Ha.
  destruct arr as [| c arr]; [done |].
  pose proof (py_len_nonneg arr).
  assert (1 <= py_len (c :: arr)) by (unfold py_len in *; simpl; lia).
  pose proof (_clamp_bounds (index (active s) + step) 0 (py_len (c :: arr) - 1)).
  lia.
Qed.

Lemma on_move_nonempty s step :
  hidden_bars_nonempty s -> hidden_bars_nonempty (_on_move s step).
Proof.
  intros H. eapply hidden_bars_nonempty_ext; [done |].
  by destruct (on_move_frame s step) as (_ & _ & _ & Eh & _).
Qed.

Lemma find_empty_from (m : Z) (cells : list string) :
  match List.find (fun '(i, ch) => String.eqb ch "")
                  (zip (seqZ m (py_len cells)) cells) with
  | Some (i, _) =>
      exists k : nat, i = m + Z.of_nat k /\ cells !! k = Some ""
                      /\ forall j, (j < k)%nat -> cells !! j <> Some ""
  | None => "" ∉ cells
  end.
Proof.
  revert m. induction cells as [| c cells IH]; intros m.
  - simpl. apply not_elem_of_nil.
  - rewrite seqZ_cons by (unfold py_len; simpl; lia).
    replace (Z.pred (py_len (c :: cells))) with (py_len cells)
      by (unfold py_len; simpl; lia).
    simpl. destruct (String.eqb_spec c "") as [-> | Hc].
    + exists 0%nat. split; [lia |]. split; [done |]. intros j Hj. lia.
    + specialize (IH (Z.succ m)).
      destruct (List.find _ _) as [[i ch] |].
      * destruct IH as (k & -> & Hk & Hmin). exists (S k).
        split; [lia |]. split; [done |].
        intros [| j] Hj; simpl; [congruence | apply Hmin; lia].
      * intros [Heq | Hin]%elem_of_cons; [congruence | done].
Qed.

Lemma first_empty_index_spec (cells : list string) :
  (exists k : nat, _first_empty_index cells = Z.of_nat k /\ cells !! k = Some ""
                   /\ forall j, (j < k)%nat -> cells !! j <> Some "")
  \/ (_first_empty_index cells = 0 /\ "" ∉ cells).
Proof.
  unfold _first_empty_index, enumerate, range.
  pose proof (find_empty_from 0 cells) as H.
  destruct (List.find _ _) as [[i ch] |].
  - left. destruct H as (k & -> & Hk & Hmin). exists k. split; [lia | done].
  - by right.
Qed.

Lemma first_empty_index_bounds (cells : list string) :
  0 <= _first_empty_index cells <= Z.max 0 (py_len cells - 1).
Proof.
  destruct (first_empty_index_spec cells) as [(k & -> & Hk & _) | [-> _]]; [| lia].
  apply lookup_lt_Some in Hk. unfold py_len. lia.
Qed.

Lemma scope_choice (x : string) :
  String.eqb (if bool_decide (x ∈ ["grid"; "hidden"]) then x else "grid") "grid"
  = negb (String.eqb x "hidden").
Proof.
  case_bool_decide as H.
  - apply elem_of_cons in H as [-> | H]; [done |].
    apply list_elem_of_singleton in H as ->. done.
  - destruct (String.eqb_spec x "hidden") as [-> | Hne]; [| done].
    exfalso. apply H. apply elem_of_cons. right. apply elem_of_cons. by left.
Qed.

(** Opening [_on_input_letter] on a payload whose letter [str] prints. *)
Ltac unfold_input_letter H :=
  unfold _on_input_letter;
  rewrite (str_of_prints _ (proj1 (negb_true_iff _) H)), bind_Ok;
  cbv beta zeta;
  repeat match goal with
         | |- context [strip (upper (py_str (dict_get_or ?p "letter" (PyStr ""))))] =>
             change (strip (upper (py_str (dict_get_or p "letter" (PyStr "")))))
               with (payload_letter p)
         end.

Section handlers.
Variable g : GridSpec.
Hypothesis Hwf : wf_grid g.

Lemma hidden_shape_first cells :
  hidden_shape cells -> is_Some (dict_get cells "hidden1")
                        /\ exists ks, dict_keys cells = "hidden1" :: ks.
Proof.
  intros [_ Hh]. apply head_Some in Hh as [ks Hks]. split; [| eauto].
  apply dict_get_keys. rewrite Hks. apply elem_of_cons. by left.
Qed.

Lemma on_set_active_raises s payload :
  set_active_prints payload = false ->
  _on_set_active s payload = Raise ValueError.
Proof.
  unfold set_active_prints, _on_set_active, str_of. intros H.
  destruct (str_raises (dict_get_or payload "scope" (PyStr "grid")));
    [done |].
  by destruct (str_raises (dict_get_or payload "bar_id" (PyStr "h1"))).
Qed.

Lemma set_active_prints_true payload :
  set_active_prints payload = true ->
  str_of (dict_get_or payload "scope" (PyStr "grid"))
  = Ok (py_str (dict_get_or payload "scope" (PyStr "grid")))
  /\ str_of (dict_get_or payload "bar_id" (PyStr "h1"))
     = Ok (py_str (dict_get_or payload "bar_id" (PyStr "h1"))).
Proof.
  unfold set_active_prints. intros [H1 H2]%andb_true_iff.
  apply negb_true_iff in H1, H2. split; by apply str_of_prints.
Qed.

Lemma on_set_active_spec s payload :
  state_inv g s -> set_active_prints payload = true ->
  let want_scope := py_str (dict_get_or payload "scope" (PyStr "grid")) in
  let want_bar := py_str (dict_get_or payload "bar_id" (PyStr "h1")) in
  exists s' cells,
    _on_set_active s payload = Ok s'
    /\ same_but_bookkeeping (with_active s (active s')) s'
    /\ last_client_seq s' = last_client_seq s
    /\ last_action s' = "set_active"
    /\ active_bar s' = Some cells
    /\ scope (active s') =
         (if String.eqb want_scope "hidden" then ScopeHidden else ScopeGrid)
    /\ bar_id (active s') =
         match scope (active s') with
         | ScopeGrid =>
             if dict_contains (grid_cells s) want_bar then want_bar else "h1"
         | ScopeHidden =>
             if dict_contains (hidden_cells s) want_bar then want_bar
             else "hidden1"
         end
    /\ direction (active s') =
         match scope (active s') with
         | ScopeGrid => _bar_direction (bar_id (active s'))
         | ScopeHidden => Horizontal
         end
    /\ index (active s') =
         match payload_get payload "index" with
         | PyNone => _first_empty_index cells
         | _ => _clamp (int_or (payload_get payload "index") 0) 0
                       (Z.max 0 (py_len cells - 1))
         end.
Proof.
  intros [Hg Hs Hh Hc] [Es Eb]%set_active_prints_true want_scope want_bar.
  unfold _on_set_active. rewrite Es, bind_Ok, Eb, bind_Ok.
  fold want_scope want_bar. rewrite scope_choice.
  destruct (String.eqb want_scope "hidden"); simpl negb; cbv iota.
  - (* hidden *)
    destruct (hidden_shape_first _ Hh) as [[arr1 H1] [ks Hks]].
    set (bar := if dict_contains (hidden_cells s) want_bar then want_bar
                else match dict_keys (hidden_cells s) with
                     | k :: _ => k
                     | [] => "hidden1"
                     end).
    assert (Hbar : bar = if dict_contains (hidden_cells s) want_bar
                         then want_bar else "hidden1").
    { subst bar. by rewrite Hks. }
    assert (Hsome : is_Some (dict_get (hidden_cells s) bar)).
    { rewrite Hbar. destruct (dict_contains _ want_bar) eqn:Hcn; [| eauto].
      by apply dict_contains_true. }
    destruct Hsome as [arr Harr]. rewrite bind_Ok.
    rewrite (dict_get_or_Some _ _ arr) by done.
    eexists _, arr. split; [reflexivity |]. simpl.
    unfold same_but_bookkeeping, active_bar. simpl. rewrite Harr.
    repeat split; try done.
  - (* grid *)
    set (bar := if dict_contains (grid_cells s) want_bar then want_bar else "h1").
    assert (Hsome : is_Some (dict_get (grid_cells s) bar)).
    { subst bar. destruct (dict_contains _ want_bar) eqn:Hcn.
      - by apply dict_contains_true.
      - destruct (grid_shape_bar g Hwf _ "h1" Hg) as (a & Ha & _); [| eauto].
        apply elem_of_cons. by left. }
    destruct Hsome as [arr Harr].
    rewrite (dict_item_Some _ _ _ Harr), !bind_Ok.
    eexists _, arr. split; [reflexivity |]. simpl.
    unfold same_but_bookkeeping, active_bar. simpl. rewrite Harr.
    repeat split; try done.
Qed.

Lemma on_set_active_inv s payload :
  state_inv g s -> set_active_prints payload = true ->
  exists s', _on_set_active s payload = Ok s' /\ state_inv g s'
             /\ hidden_cells s' = hidden_cells s.
Proof.
  intros Hinv Hpr.
  destruct (on_set_active_spec s payload Hinv Hpr)
    as (s' & cells & Hr & Hsame & _ & _ & Hbar & _ & _ & _ & Hidx).
  exists s'. split; [done |].
  destruct Hsame as (_ & _ & Eg & Eh & _). simpl in Eg, Eh.
  split; [| done]. destruct Hinv as [Hg Hs Hh Hc].
  split; rewrite ?Eg, ?Eh; try done.
  exists cells. split; [done |]. rewrite Hidx.
  destruct (payload_get payload "index");
    try apply _clamp_bounds; try lia.
  apply first_empty_index_bounds.
Qed.

Lemma dict_get_put_len cells b i v b' arr :
  dict_get cells b' = Some arr ->
  exists arr', dict_get (put cells b i v) b' = Some arr'
               /\ py_len arr' = py_len arr.
Proof.
  intros Hg. rewrite dict_get_put, Hg. eexists. split; [done |].
  destruct (decide (b' = b)); [apply py_len_insert | done].
Qed.

Lemma dict_get_put_linked_len cells b i v b' arr :
  dict_get cells b' = Some arr ->
  exists arr', dict_get (put_linked g cells b i v) b' = Some arr'
               /\ py_len arr' = py_len arr.
Proof.
  intros Hg. unfold put_linked.
  destruct (dict_get (cross_map g) (b, i)) as [[ob oi] |].
  - destruct (dict_get_put_len cells b i v b' arr Hg) as (a1 & H1 & L1).
    destruct (dict_get_put_len _ ob oi v b' a1 H1) as (a2 & H2 & L2).
    exists a2. split; [done | congruence].
  - by apply dict_get_put_len.
Qed.

Lemma cursor_clamped_len s s' :
  cursor_clamped s -> active s' = active s ->
  (forall arr, active_bar s = Some arr ->
               exists arr', active_bar s' = Some arr' /\ py_len arr' = py_len arr) ->
  cursor_clamped s'.
Proof.
  intros (arr & Ha & Hr) Ea Hlen. destruct (Hlen arr Ha) as (arr' & Ha' & Hl).
  exists arr'. split; [done |]. rewrite Ea, Hl. done.
Qed.

Lemma hidden_shape_put cells b i v :
  hidden_shape cells -> hidden_shape (put cells b i v).
Proof. unfold hidden_shape. by rewrite dict_keys_put. Qed.

Lemma nonempty_put s cells b i v :
  hidden_bars_nonempty s -> cells = put (hidden_cells s) b i v ->
  forall hid arr, dict_get cells hid = Some arr -> arr <> [].
Proof.
  intros Hne -> hid arr. rewrite dict_get_put.
  destruct (dict_get (hidden_cells s) hid) as [arr0 |] eqn:Hg; [| done].
  intros [= <-]. specialize (Hne hid arr0 Hg).
  destruct (decide (hid = b)); [| done].
  intros Hnil. apply Hne. apply py_len_nil. apply py_len_nil in Hnil.
  by rewrite py_len_insert in Hnil.
Qed.

(** A grid cursor is always on a cell: no grid bar is empty. *)
Lemma grid_cursor_on_cell s :
  state_inv g s -> scope (active s) = ScopeGrid ->
  exists arr, dict_get (grid_cells s) (bar_id (active s)) = Some arr
              /\ 0 <= index (active s) < py_len arr.
Proof.
  intros [Hg _ _ (arr & Ha & Hr)] Hsc. unfold active_bar in Ha.
  rewrite Hsc in Ha. exists arr. split; [done |].
  destruct (grid_shape_in_order g Hwf _ _ _ Hg Ha) as [_ Hlen]. lia.
Qed.

Lemma on_input_letter_raises s payload :
  letter_prints payload = false -> _on_input_letter s payload g = Raise ValueError.
Proof.
  intros H%negb_false_iff. unfold _on_input_letter.
  by rewrite (str_of_raises _ H).
Qed.

Lemma on_input_letter_ignored s payload :
  letter_prints payload = true ->
  not_a_letter (payload_letter payload) = true ->
  _on_input_letter s payload g = Ok (with_last_action s "input:ignored").
Proof. intros Hpr H. unfold_input_letter Hpr. by rewrite H. Qed.

Lemma on_input_letter_grid s payload arr :
  letter_prints payload = true ->
  grid_shape g (grid_cells s) ->
  not_a_letter (payload_letter payload) = false ->
  scope (active s) = ScopeGrid ->
  dict_get (grid_cells s) (bar_id (active s)) = Some arr ->
  0 <= index (active s) < py_len arr ->
  _on_input_letter s payload g =
    Ok (_on_move
          (with_last_action
             (with_grid_cells s
                (put_linked g (grid_cells s) (bar_id (active s))
                            (index (active s)) (payload_letter payload)))
             "input:grid") 1).
Proof.
  intros Hpr Hg Hl Hsc Ha Hr. unfold_input_letter Hpr. rewrite Hl, Hsc.
  assert (Hcn : dict_contains (grid_cells s) (bar_id (active s)) = true).
  { apply dict_contains_true. eauto. }
  rewrite Hcn. simpl negb. cbv iota.
  rewrite (dict_item_Some _ _ _ Ha), bind_Ok.
  destruct (Z.ltb_spec (index (active s)) 0); [lia |].
  destruct (Z.geb_spec (index (active s)) (py_len arr)); [lia |].
  simpl orb. cbv iota. rewrite list_setitem_in_range, bind_Ok by done.
  unfold put_linked. unfold put at 2 3. rewrite Ha.
  destruct (dict_get (cross_map g) _) as [[ob oi] |] eqn:Hc;
    [| by rewrite bind_Ok].
  destruct (wf_range g Hwf _ _ _ Hc) as (Hob & n & Hn & Hrange).
  rewrite (dict_item_Some _ _ _ Hn), bind_Ok.
  assert (Hv : is_Some (cell_at (put (grid_cells s) (bar_id (active s))
                 (index (active s)) (payload_letter payload)) ob oi)).
  { apply cell_at_put_is_Some. by eapply cross_partner_exists. }
  apply cell_at_is_Some in Hv as (arr2 & Hg2 & Hr2).
  unfold put in Hg2. rewrite Ha in Hg2.
  rewrite (dict_get_or_Some _ _ arr2) by done.
  destruct (Z.leb_spec 0 oi); [| lia].
  destruct (Z.ltb_spec oi (py_len arr2)); [| lia].
  simpl andb. cbv iota. rewrite list_setitem_in_range, !bind_Ok by done.
  unfold put. by rewrite Hg2.
Qed.

Lemma on_input_letter_hidden s payload arr :
  letter_prints payload = true ->
  not_a_letter (payload_letter payload) = false ->
  scope (active s) = ScopeHidden ->
  dict_get (hidden_cells s) (bar_id (active s)) = Some arr ->
  0 <= index (active s) ->
  _on_input_letter s payload g =
    if index (active s) <? py_len arr then
      Ok (_on_move
            (with_last_action
               (with_hidden_cells s
                  (put (hidden_cells s) (bar_id (active s))
                       (index (active s)) (payload_letter payload)))
               "input:hidden") 1)
    else Ok (with_last_action s "input:oob").
Proof.
  intros Hpr Hl Hsc Ha Hr. unfold_input_letter Hpr. rewrite Hl, Hsc.
  assert (Hcn : dict_contains (hidden_cells s) (bar_id (active s)) = true).
  { apply dict_contains_true. eauto. }
  rewrite Hcn. simpl negb. cbv iota.
  rewrite (dict_item_Some _ _ _ Ha), bind_Ok.
  destruct (Z.ltb_spec (index (active s)) 0); [lia |].
  destruct (Z.geb_spec (index (active s)) (py_len arr));
    destruct (Z.ltb_spec (index (active s)) (py_len arr)); try lia; [done |].
  simpl orb. cbv iota. rewrite list_setitem_in_range, bind_Ok by done.
  unfold put. by rewrite Ha.
Qed.

Lemma on_input_letter_inv s payload :
  state_inv g s -> letter_prints payload = true ->
  exists s', _on_input_letter s payload g = Ok s' /\ state_inv g s'
             /\ (hidden_bars_nonempty s -> hidden_bars_nonempty s').
Proof.
  intros Hinv Hpr. destruct (not_a_letter (payload_letter payload)) eqn:Hl.
  { rewrite on_input_letter_ignored by done. eexists. split; [done |].
    split; [by eapply state_inv_ext | intros H; by eapply hidden_bars_nonempty_ext]. }
  destruct (scope (active s)) eqn:Hsc.
  - destruct (grid_cursor_on_cell s Hinv Hsc) as (arr & Ha & Hr).
    destruct Hinv as [Hg Hs Hh Hc].
    rewrite (on_input_letter_grid s payload arr) by done.
    eexists. split; [done |]. split.
    + apply on_move_inv. split; simpl.
      * by apply grid_shape_put_linked.
      * apply synced_put_linked; try done. apply cell_at_is_Some. eauto.
      * done.
      * eapply cursor_clamped_len; [exact Hc | done |].
        unfold active_bar. simpl. rewrite Hsc. intros arr0 Ha0.
        by apply dict_get_put_linked_len.
    + intros Hne. apply on_move_nonempty. by eapply hidden_bars_nonempty_ext.
  - pose proof Hinv as [Hg Hs Hh Hc]. destruct Hc as (arr & Ha & Hr).
    unfold active_bar in Ha. rewrite Hsc in Ha.
    rewrite (on_input_letter_hidden s payload arr) by (done || lia).
    destruct (Z.ltb_spec (index (active s)) (py_len arr)).
    + eexists. split; [done |]. split.
      * apply on_move_inv. split; simpl; try done.
        -- by apply hidden_shape_put.
        -- eapply cursor_clamped_len; [by apply Hinv | done |].
           unfold active_bar. simpl. rewrite Hsc. intros arr0 Ha0.
           by apply dict_get_put_len.
      * intros Hne. apply on_move_nonempty. unfold hidden_bars_nonempty. simpl.
        by eapply nonempty_put.
    + eexists. split; [done |].
      split; [by eapply state_inv_ext | intros ?; by eapply hidden_bars_nonempty_ext].
Qed.

Lemma on_backspace_grid s arr ch :
  grid_shape g (grid_cells s) ->
  scope (active s) = ScopeGrid ->
  dict_get (grid_cells s) (bar_id (active s)) = Some arr ->
  0 <= index (active s) < py_len arr ->
  arr !! Z.to_nat (index (active s)) = Some ch ->
  _on_backspace s g =
    if negb (String.eqb ch "") then
      Ok (with_last_action
            (with_grid_cells s
               (put_linked g (grid_cells s) (bar_id (active s))
                           (index (active s)) ""))
            "bksp:grid_clear")
    else if index (active s) >? 0 then
      Ok (with_last_action
            (with_active
               (with_grid_cells s
                  (put_linked g (grid_cells s) (bar_id (active s))
                              (index (active s) - 1) ""))
               (with_index (active s) (index (active s) - 1)))
            "bksp:grid_prev_clear")
    else Ok (with_last_action s "bksp:grid_edge").
Proof.
  intros Hg Hsc Ha Hr Hch. unfold _on_backspace. rewrite Hsc.
  assert (Hcn : dict_contains (grid_cells s) (bar_id (active s)) = true).
  { apply dict_contains_true. eauto. }
  rewrite Hcn. simpl negb. cbv iota.
  rewrite (dict_item_Some _ _ _ Ha), bind_Ok.
  destruct arr as [| c arr']; [unfold py_len in Hr; simpl in Hr; lia |].
  rewrite _clamp_id by lia.
  destruct (list_getitem_in_range (c :: arr') (index (active s)) Hr)
    as (ch' & Hch' & ->).
  rewrite bind_Ok. assert (ch' = ch) as -> by congruence.
  destruct (negb (String.eqb ch "")).
  - rewrite clear_with_partner_put_linked; try done.
    apply cell_at_is_Some. eauto.
  - destruct (Z.gtb_spec (index (active s)) 0); [| done].
    rewrite clear_with_partner_put_linked; try done.
    apply cell_at_is_Some. exists (c :: arr'). split; [done | lia].
Qed.

Lemma on_backspace_hidden s arr ch :
  scope (active s) = ScopeHidden ->
  dict_get (hidden_cells s) (bar_id (active s)) = Some arr ->
  0 <= index (active s) < py_len arr ->
  arr !! Z.to_nat (index (active s)) = Some ch ->
  _on_backspace s g =
    if negb (String.eqb ch "") then
      Ok (with_last_action
            (with_hidden_cells s
               (put (hidden_cells s) (bar_id (active s)) (index (active s)) ""))
            "bksp:hidden_clear")
    else if index (active s) >? 0 then
      Ok (with_last_action
            (with_active
               (with_hidden_cells s
                  (put (hidden_cells s) (bar_id (active s))
                       (index (active s) - 1) ""))
               (with_index (active s) (index (active s) - 1)))
            "bksp:hidden_prev_clear")
    else Ok (with_last_action s "bksp:hidden_edge").
Proof.
  intros Hsc Ha Hr Hch. unfold _on_backspace. rewrite Hsc.
  assert (Hcn : dict_contains (hidden_cells s) (bar_id (active s)) = true).
  { apply dict_contains_true. eauto. }
  rewrite Hcn. simpl negb. cbv iota.
  rewrite (dict_item_Some _ _ _ Ha), bind_Ok.
  destruct arr as [| c arr']; [unfold py_len in Hr; simpl in Hr; lia |].
  rewrite _clamp_id by lia.
  destruct (list_getitem_in_range (c :: arr') (index (active s)) Hr)
    as (ch' & Hch' & ->).
  rewrite bind_Ok. assert (ch' = ch) as -> by congruence.
  unfold put. rewrite Ha.
  destruct (negb (String.eqb ch "")).
  - by rewrite list_setitem_in_range, bind_Ok.
  - destruct (Z.gtb_spec (index (active s)) 0); [| done].
    by rewrite list_setitem_in_range, bind_Ok by lia.
Qed.

Lemma on_backspace_hidden_empty s :
  scope (active s) = ScopeHidden ->
  dict_get (hidden_cells s) (bar_id (active s)) = Some [] ->
  _on_backspace s g = Ok (with_last_action s "bksp:hidden_empty").
Proof.
  intros Hsc Ha. unfold _on_backspace. rewrite Hsc.
  assert (Hcn : dict_contains (hidden_cells s) (bar_id (active s)) = true).
  { apply dict_contains_true. eauto. }
  rewrite Hcn. simpl negb. cbv iota.
  by rewrite (dict_item_Some _ _ _ Ha), bind_Ok.
Qed.

Lemma on_backspace_inv s :
  state_inv g s ->
  exists s', _on_backspace s g = Ok s' /\ state_inv g s'
             /\ (hidden_bars_nonempty s -> hidden_bars_nonempty s').
Proof.
  intros Hinv. destruct (scope (active s)) eqn:Hsc.
  - destruct (grid_cursor_on_cell s Hinv Hsc) as (arr & Ha & Hr).
    destruct Hinv as [Hg Hs Hh Hc].
    destruct (lookup_lt_is_Some_2 arr (Z.to_nat (index (active s)))) as [ch Hch].
    { unfold py_len in Hr. lia. }
    rewrite (on_backspace_grid s arr ch) by done.
    assert (Hput : forall i, is_Some (cell_at (grid_cells s) (bar_id (active s)) i) ->
              state_inv g (with_grid_cells s
                (put_linked g (grid_cells s) (bar_id (active s)) i ""))).
    { intros i Hi. split; simpl.
      - by apply grid_shape_put_linked.
      - by apply synced_put_linked.
      - done.
      - eapply cursor_clamped_len; [exact Hc | done |].
        unfold active_bar. simpl. rewrite Hsc. intros arr0 Ha0.
        by apply dict_get_put_linked_len. }
    destruct (negb (String.eqb ch "")).
    + eexists. split; [done |]. split.
      * eapply state_inv_ext; [apply (Hput (index (active s))) | done ..].
        apply cell_at_is_Some. eauto.
      * intros ?. by eapply hidden_bars_nonempty_ext.
    + destruct (Z.gtb_spec (index (active s)) 0).
      * eexists. split; [done |]. split.
        -- assert (Hi : is_Some (cell_at (grid_cells s) (bar_id (active s))
                                   (index (active s) - 1))).
           { apply cell_at_is_Some. exists arr. split; [done | lia]. }
           destruct (Hput _ Hi) as [Hg' Hs' Hh' _]. split; simpl; try done.
           destruct (dict_get_put_linked_len (grid_cells s) (bar_id (active s))
                       (index (active s) - 1) "" _ _ Ha) as (arr' & Ha' & Hl').
           exists arr'. unfold active_bar. simpl. rewrite Hsc.
           split; [done | lia].
        -- intros ?. by eapply hidden_bars_nonempty_ext.
      * eexists. split; [done |].
        split; [by eapply state_inv_ext | intros ?; by eapply hidden_bars_nonempty_ext].
  - pose proof Hinv as [Hg Hs Hh Hc]. destruct Hc as (arr & Ha & Hr).
    unfold active_bar in Ha. rewrite Hsc in Ha.
    destruct arr as [| c arr'].
    { rewrite on_backspace_hidden_empty by done. eexists. split; [done |].
      split; [by eapply state_inv_ext | intros ?; by eapply hidden_bars_nonempty_ext]. }
    set (arr := c :: arr') in *.
    assert (Hlen : 1 <= py_len arr) by (unfold py_len; simpl; lia).
    assert (Hr' : 0 <= index (active s) < py_len arr) by lia.
    destruct (lookup_lt_is_Some_2 arr (Z.to_nat (index (active s)))) as [ch Hch].
    { unfold py_len in Hr'. lia. }
    rewrite (on_backspace_hidden s arr ch) by done.
    assert (Hput : forall i s',
              hidden_cells s' = put (hidden_cells s) (bar_id (active s)) i "" ->
              hidden_bars_nonempty s -> hidden_bars_nonempty s').
    { intros i s' E Hne hid a. rewrite E. by eapply nonempty_put. }
    destruct (negb (String.eqb ch "")).
    + eexists. split; [done |]. split; [| by apply Hput with (i := index (active s))].
      split; simpl; try done; [by apply hidden_shape_put |].
      eapply cursor_clamped_len; [by apply Hinv | done |].
      unfold active_bar. simpl. rewrite Hsc. intros arr0 Ha0.
      by apply dict_get_put_len.
    + destruct (Z.gtb_spec (index (active s)) 0).
      * eexists. split; [done |].
        split; [| by apply Hput with (i := index (active s) - 1)].
        split; simpl; try done; [by apply hidden_shape_put |].
        destruct (dict_get_put_len (hidden_cells s) (bar_id (active s))
                    (index (active s) - 1) "" _ _ Ha) as (arr2 & Ha2 & Hl2).
        exists arr2. unfold active_bar. simpl. rewrite Hsc.
        split; [done | lia].
      * eexists. split; [done |].
        split; [by eapply state_inv_ext | intros ?; by eapply hidden_bars_nonempty_ext].
Qed.

Lemma dict_keys_blank_all cells : dict_keys (blank_all cells) = dict_keys cells.
Proof.
  unfold dict_keys, blank_all. induction cells as [| [k v] cells IH]; simpl;
    [done | by rewrite IH].
Qed.

Lemma dict_get_blank_all cells b :
  dict_get (blank_all cells) b = map (fun _ => "") <$> dict_get cells b.
Proof.
  unfold blank_all. induction cells as [| [k v] cells IH]; simpl; [done |].
  by destruct (decide (b = k)).
Qed.

Lemma cell_at_blank_all cells b i :
  cell_at (blank_all cells) b i = (fun _ => "") <$> cell_at cells b i.
Proof.
  unfold cell_at. rewrite dict_get_blank_all.
  destruct (dict_get cells b) as [arr |]; simpl; [| done].
  destruct (0 <=? i); [| done]. apply list_lookup_fmap.
Qed.

Lemma on_reset_cells s env :
  NoDup (dict_keys (grid_cells s)) -> NoDup (dict_keys (hidden_cells s)) ->
  grid_cells (_on_reset s env) = blank_all (grid_cells s)
  /\ hidden_cells (_on_reset s env) = blank_all (hidden_cells s).
Proof.
  intros Hg Hh. unfold _on_reset. simpl. fold (blank_all (grid_cells s)).
  fold (blank_all (hidden_cells s)).
  by rewrite !dict_of_items_distinct by (by rewrite dict_keys_blank_all).
Qed.

Lemma GRID_ORDER_NoDup : NoDup GRID_ORDER.
Proof. compute_done. Qed.

Lemma on_reset_inv s env :
  state_inv g s ->
  state_inv g (_on_reset s env)
  /\ (hidden_bars_nonempty s -> hidden_bars_nonempty (_on_reset s env)).
Proof.
  intros [[Hk Hl] Hs [Hnd Hhd] Hc].
  destruct (on_reset_cells s env) as [Eg Eh]; [rewrite Hk; apply GRID_ORDER_NoDup | done |].
  split; [split |].
  - rewrite Eg. split; [by rewrite dict_keys_blank_all |].
    intros b arr. rewrite dict_get_blank_all.
    destruct (dict_get (grid_cells s) b) as [arr0 |] eqn:Hg0; [| done].
    intros [= <-]. rewrite (Hl _ _ Hg0). unfold py_len. by rewrite length_map.
  - rewrite Eg. intros b i b' i' Hx. rewrite !cell_at_blank_all.
    by rewrite (Hs _ _ _ _ Hx).
  - rewrite Eh. unfold hidden_shape. by rewrite dict_keys_blank_all.
  - assert (Hh1 : "h1" ∈ GRID_ORDER) by (apply elem_of_cons; by left).
    assert (Hshape : grid_shape g (grid_cells (_on_reset s env))).
    { rewrite Eg. split; [by rewrite dict_keys_blank_all |].
      intros b arr. rewrite dict_get_blank_all.
      destruct (dict_get (grid_cells s) b) as [arr0 |] eqn:Hg0; [| done].
      intros [= <-]. rewrite (Hl _ _ Hg0). unfold py_len. by rewrite length_map. }
    destruct (grid_shape_bar g Hwf _ "h1" Hshape Hh1) as (arr & Ha & Hlen).
    exists arr. split; [done |]. simpl. lia.
  - intros Hne hid arr. rewrite Eh, dict_get_blank_all.
    destruct (dict_get (hidden_cells s) hid) as [arr0 |] eqn:Hg0; [| done].
    intros [= <-]. specialize (Hne _ _ Hg0). by destruct arr0.
Qed.

(** ** The reducer preserves the invariant and never raises *)

Lemma reduce_raises s ev env :
  str_fails ev = true -> reduce s ev g env = Raise ValueError.
Proof.
  unfold str_fails, reduce.
  destruct (String.eqb (type ev) "INPUT_LETTER").
  { intros H%negb_true_iff. by rewrite on_input_letter_raises. }
  destruct (String.eqb_spec (type ev) "SET_ACTIVE_BAR") as [E | _]; [| done].
  replace (String.eqb (type ev) "MOVE_NEXT") with false
    by (rewrite E; reflexivity).
  replace (String.eqb (type ev) "MOVE_PREV") with false
    by (rewrite E; reflexivity).
  intros H%negb_true_iff. by rewrite on_set_active_raises.
Qed.

Lemma reduce_Ok_prints s ev env s' :
  reduce s ev g env = Ok s' -> str_fails ev = false.
Proof.
  intros H. destruct (str_fails ev) eqn:E; [| done].
  by rewrite reduce_raises in H.
Qed.

Lemma reduce_inv s ev env :
  state_inv g s -> str_fails ev = false ->
  exists s', reduce s ev g env = Ok s' /\ state_inv g s'
             /\ (hidden_bars_nonempty s -> hidden_bars_nonempty s').
Proof.
  intros Hinv. unfold reduce, str_fails.
  assert (Hseq : forall out,
            state_inv g out ->
            (hidden_bars_nonempty s -> hidden_bars_nonempty out) ->
            exists s',
              Ok (bump_client_seq (payload ev) out) = Ok s'
              /\ state_inv g s'
              /\ (hidden_bars_nonempty s -> hidden_bars_nonempty s')).
  { intros out Hout Hne. eexists. split; [done |]. unfold bump_client_seq.
    destruct (client_seq_int (payload ev)) as [n |]; [| done].
    destruct (n >? last_client_seq out); [| done].
    split; [by eapply state_inv_ext |].
    intros H. eapply hidden_bars_nonempty_ext; [by apply Hne | done]. }
  destruct (String.eqb (type ev) "INPUT_LETTER").
  { intros Hpr%negb_false_iff.
    destruct (on_input_letter_inv s (payload ev) Hinv Hpr) as (s1 & -> & H1 & H2).
    rewrite bind_Ok. by apply Hseq. }
  destruct (String.eqb (type ev) "MOVE_NEXT").
  { intros _. rewrite bind_Ok.
    apply Hseq; [by apply on_move_inv | apply on_move_nonempty]. }
  destruct (String.eqb (type ev) "MOVE_PREV").
  { intros _. rewrite bind_Ok.
    apply Hseq; [by apply on_move_inv | apply on_move_nonempty]. }
  destruct (String.eqb (type ev) "SET_ACTIVE_BAR").
  { intros Hpr%negb_false_iff.
    destruct (on_set_active_inv s (payload ev) Hinv Hpr) as (s1 & -> & H1 & H2).
    rewrite bind_Ok. apply Hseq; [done |].
    intros H. by eapply hidden_bars_nonempty_ext. }
  intros _.
  destruct (String.eqb (type ev) "BACKSPACE").
  { destruct (on_backspace_inv s Hinv) as (s1 & -> & H1 & H2).
    rewrite bind_Ok. by apply Hseq. }
  destruct (String.eqb (type ev) "RESET").
  { rewrite bind_Ok. destruct (on_reset_inv s env Hinv). by apply Hseq. }
  destruct (String.eqb (type ev) "TICK").
  { rewrite bind_Ok. by apply Hseq. }
  rewrite bind_Ok. apply Hseq; [by eapply state_inv_ext |].
  intros H. by eapply hidden_bars_nonempty_ext.
Qed.

End handlers.

Lemma on_input_letter_Ok_prints s payload g out :
  _on_input_letter s payload g = Ok out -> letter_prints payload = true.
Proof.
  intros H. destruct (letter_prints payload) eqn:E; [done |].
  by rewrite on_input_letter_raises in H.
Qed.

Lemma on_set_active_Ok_prints s payload out :
  _on_set_active s payload = Ok out -> set_active_prints payload = true.
Proof.
  intros H. destruct (set_active_prints payload) eqn:E; [done |].
  by rewrite on_set_active_raises in H.
Qed.

(** ** The initial state *)

Lemma mapM_Ok {A B} (f : A -> result B) (h : A -> B) (l : list A) :
  (forall x, x ∈ l -> f x = Ok (h x)) -> mapM f l = Ok (map h l).
Proof.
  induction l as [| x l IH]; intros Hf; simpl; [done |].
  rewrite (Hf x) by (apply elem_of_cons; by left). rewrite bind_Ok.
  rewrite IH; [done |]. intros y Hy. apply Hf. apply elem_of_cons. by right.
Qed.

Lemma dict_get_tabulate {V} (F : string -> V) (l : list string) (b : string) :
  dict_get (map (fun b => (b, F b)) l) b =
    if decide (b ∈ l) then Some (F b) else None.
Proof.
  induction l as [| x l IH]; simpl.
  - destruct (decide (b ∈ [])) as [Hin | _]; [| done].
    by apply elem_of_nil in Hin.
  - destruct (decide (b = x)) as [-> | Hne].
    + destruct (decide (x ∈ x :: l)) as [_ | Hn]; [done |].
      exfalso. apply Hn. apply elem_of_cons. by left.
    + rewrite IH. destruct (decide (b ∈ l)) as [Hin | Hn].
      * destruct (decide (b ∈ x :: l)) as [_ | Hn']; [done |].
        exfalso. apply Hn'. apply elem_of_cons. by right.
      * destruct (decide (b ∈ x :: l)) as [Hin' | _]; [| done].
        apply elem_of_cons in Hin' as [? | ?]; done.
Qed.

Lemma dict_keys_tabulate {V} (F : string -> V) (l : list string) :
  dict_keys (map (fun b => (b, F b)) l) = l.
Proof.
  unfold dict_keys. induction l as [| x l IH]; simpl; [done | by rewrite IH].
Qed.

Lemma py_len_blank_cells n : 0 <= n -> py_len (blank_cells n) = n.
Proof. intros H. unfold py_len, blank_cells. rewrite length_replicate. lia. Qed.

Lemma map_blank_cells n : map (fun _ : string => "") (blank_cells n) = blank_cells n.
Proof.
  unfold blank_cells. induction (Z.to_nat n) as [| k IH]; simpl; [done |].
  by rewrite IH.
Qed.

Lemma blank_all_dict_set cells k arr :
  blank_all (dict_set cells k arr)
  = dict_set (blank_all cells) k (map (fun _ => "") arr).
Proof.
  unfold blank_all. induction cells as [| [k0 v0] cells IH]; simpl; [done |].
  destruct (decide (k = k0)); simpl; [done | by rewrite IH].
Qed.

Lemma dict_set_keys_NoDup {V} (d : list (string * V)) k v :
  NoDup (dict_keys d) -> NoDup (dict_keys (dict_set d k v)).
Proof.
  intros Hnd. destruct (dict_get d k) as [v0 |] eqn:Hg.
  - by erewrite dict_keys_set_present.
  - rewrite dict_set_absent by done. unfold dict_keys in *. rewrite map_app.
    apply NoDup_app. split; [done |]. split; [| apply NoDup_singleton].
    intros x Hx [-> | Hin]%elem_of_cons; [| by apply elem_of_nil in Hin].
    by apply dict_get_None_keys in Hg.
Qed.

Lemma dict_set_keys_head {V} (d : list (string * V)) k v x :
  head (dict_keys d) = Some x -> head (dict_keys (dict_set d k v)) = Some x.
Proof.
  destruct d as [| [k0 v0] d]; simpl; [done |]. by destruct (decide (k = k0)).
Qed.

(** The loop of [init_state] that creates the hidden bars. *)
Lemma hidden_loop_facts (items : list (Z * pyval)) (acc : list (string * list string)) :
  let step := fun (d : list (string * list string)) '(i, word) =>
    dict_set d (String.append "hidden" (py_str (PyInt i)))
             (blank_cells (Z.of_nat (String.length (py_str word)))) in
  let out := fold_left step items acc in
  (NoDup (dict_keys acc) -> NoDup (dict_keys out))
  /\ (forall x, head (dict_keys acc) = Some x -> head (dict_keys out) = Some x)
  /\ (blank_all acc = acc -> blank_all out = out)
  /\ (Forall (fun iw => py_str iw.2 <> "") items ->
      (forall hid arr, dict_get acc hid = Some arr -> arr <> []) ->
      forall hid arr, dict_get out hid = Some arr -> arr <> []).
Proof.
  revert acc. induction items as [| [i word] items IH]; intros acc; simpl.
  { done. }
  specialize (IH (dict_set acc (String.append "hidden" (py_str (PyInt i)))
                    (blank_cells (Z.of_nat (String.length (py_str word)))))).
  simpl in IH. destruct IH as (IH1 & IH2 & IH3 & IH4).
  split; [| split; [| split]].
  - intros H. by apply IH1, dict_set_keys_NoDup.
  - intros x H. by apply IH2, dict_set_keys_head.
  - intros H. apply IH3. by rewrite blank_all_dict_set, map_blank_cells, H.
  - intros [Hw Hrest]%Forall_cons Hacc. apply IH4; [done |].
    intros hid arr. rewrite dict_get_set.
    destruct (decide (hid = _)); [| by apply Hacc].
    intros [= <-]. simpl in Hw. unfold blank_cells. rewrite Nat2Z.id.
    destruct (py_str word); [done | simpl; done].
Qed.

Lemma Forall_zip_snd {A B} (P : B -> Prop) (k : list A) (l : list B) :
  Forall P l -> Forall (fun ab => P ab.2) (zip k l).
Proof.
  intros H. revert k. induction H as [| x l Hx Hl IH]; intros [| a k]; simpl;
    try apply Forall_nil_2.
  apply Forall_cons. split; [done | apply IH].
Qed.

Lemma blank_hidden_cells_facts (ha : list pyval) :
  ha <> [] ->
  hidden_shape (blank_hidden_cells ha)
  /\ blank_all (blank_hidden_cells ha) = blank_hidden_cells ha
  /\ (Forall (fun w => py_str w <> "") ha ->
      forall hid arr, dict_get (blank_hidden_cells ha) hid = Some arr -> arr <> []).
Proof.
  destruct ha as [| w ws]; [done |]. intros _. unfold blank_hidden_cells.
  rewrite seqZ_cons by (unfold py_len; simpl; lia).
  cbn [zip zip_with fold_left].
  pose proof (hidden_loop_facts
                (zip (seqZ (Z.succ 1) (Z.pred (py_len (w :: ws)))) ws)
                [("hidden1", blank_cells (Z.of_nat (String.length (py_str w))))])
    as (H1 & H2 & H3 & H4).
  change (dict_set [] (String.append "hidden" (py_str (PyInt 1)))
            (blank_cells (Z.of_nat (String.length (py_str w)))))
    with [("hidden1", blank_cells (Z.of_nat (String.length (py_str w))))].
  split; [split |]; [| | split].
  - apply H1. simpl. apply NoDup_singleton.
  - by apply H2.
  - apply H3. simpl. by rewrite map_blank_cells.
  - intros [Hw Hws]%Forall_cons. apply H4; [by apply (Forall_zip_snd (fun w => py_str w <> "")) |].
    intros hid arr. simpl. destruct (decide (hid = "hidden1")); [| done].
    intros [= <-]. unfold blank_cells. rewrite Nat2Z.id.
    destruct (py_str w); [done | simpl; done].
Qed.

Lemma hidden_answers_of_facts (p : Puzzle) :
  hidden_answers_of p <> []
  /\ (puzzle_hidden_ok p = true ->
      Forall (fun w => py_str w <> "") (hidden_answers_of p)).
Proof.
  unfold hidden_answers_of, puzzle_hidden_ok.
  destruct (answers_hidden p) as [[| w ws] |]; split; try done.
  intros H. apply Forall_forall. intros x Hx.
  rewrite forallb_forall in H. apply list_elem_of_In in Hx.
  specialize (H x Hx). destruct (String.eqb_spec (py_str x) ""); done.
Qed.

Lemma blank_cell_empty cells b i ch :
  blank_all cells = cells -> cell_at cells b i = Some ch -> ch = "".
Proof.
  intros <-. rewrite cell_at_blank_all.
  destruct (cell_at cells b i); simpl; congruence.
Qed.

Lemma blank_grid_synced g cells :
  wf_grid g -> grid_shape g cells -> blank_all cells = cells -> synced g cells.
Proof.
  intros Hwf Hs Hb b i b' i' Hx.
  destruct (cross_partner_exists g Hwf cells _ _ _ _ Hs Hx) as [c' Hc'].
  destruct (cross_partner_exists g Hwf cells _ _ _ _ Hs (wf_sym g Hwf _ _ Hx))
    as [c Hc].
  rewrite Hc, Hc'. f_equal.
  rewrite (blank_cell_empty _ _ _ _ Hb Hc). by rewrite (blank_cell_empty _ _ _ _ Hb Hc').
Qed.

Lemma hidden_loop_Ok (items : list (Z * pyval))
    (acc out : list (string * list string)) :
  foldM (fun d '(i, word) =>
           w ← str_of word;
           Ok (dict_set d (String.append "hidden" (py_str (PyInt i)))
                        (blank_cells (Z.of_nat (String.length w)))))
        acc items = Ok out
  <-> forallb (fun iw : Z * pyval => negb (str_raises iw.2)) items = true
      /\ out = fold_left
                 (fun d '(i, word) =>
                    dict_set d (String.append "hidden" (py_str (PyInt i)))
                      (blank_cells (Z.of_nat (String.length (py_str word)))))
                 items acc.
Proof.
  revert acc. induction items as [| [i word] items IH]; intros acc;
    cbn [foldM forallb fold_left snd].
  { split; [by intros [= <-] | by intros [_ ->]]. }
  destruct (str_raises word) eqn:E.
  - rewrite (str_of_raises _ E). split; [done | by intros [? _]].
  - rewrite (str_of_prints _ E), !bind_Ok. apply IH.
Qed.

Lemma forallb_zip_snd {A B} (f : B -> bool) (k : list A) (l : list B) :
  length k = length l ->
  forallb (fun ab : A * B => f ab.2) (zip k l) = forallb f l.
Proof.
  revert k. induction l as [| x l IH]; intros [| a k]; simpl; try done.
  intros [= H]. by rewrite IH.
Qed.

Lemma init_hidden_cells_Ok (ha : list pyval) (out : list (string * list string)) :
  init_hidden_cells ha = Ok out
  <-> forallb (fun w => negb (str_raises w)) ha = true
      /\ out = blank_hidden_cells ha.
Proof.
  unfold init_hidden_cells, blank_hidden_cells. rewrite hidden_loop_Ok.
  rewrite (forallb_zip_snd (fun w => negb (str_raises w))); [done |].
  rewrite length_seqZ. unfold py_len. lia.
Qed.

Lemma puzzle_prints_true (p : Puzzle) :
  puzzle_prints p = true ->
  init_hidden_cells (hidden_answers_of p)
  = Ok (blank_hidden_cells (hidden_answers_of p))
  /\ str_of (dict_get_or (meta p) "id" (PyStr (filename p)))
     = Ok (py_str (dict_get_or (meta p) "id" (PyStr (filename p)))).
Proof.
  unfold puzzle_prints. intros [H1 H2]%andb_true_iff. split.
  - by apply init_hidden_cells_Ok.
  - apply str_of_prints. by apply negb_true_iff.
Qed.

(** [init_state] returns only for the puzzles it can print. *)
Lemma init_state_Ok_prints g p env s :
  init_state p g env = Ok s -> puzzle_prints p = true.
Proof.
  unfold init_state, puzzle_prints. intros H.
  apply bind_is_Ok in H as (gi & _ & H).
  apply bind_is_Ok in H as (hc & Hhc & H).
  apply bind_is_Ok in H as (cg & _ & H).
  apply bind_is_Ok in H as (pid & Hid & _).
  apply init_hidden_cells_Ok in Hhc as [-> _].
  apply str_of_Ok in Hid as [-> _]. done.
Qed.

Lemma init_state_spec g p env :
  wf_grid g -> puzzle_prints p = true ->
  exists s, init_state p g env = Ok s
            /\ state_inv g s
            /\ (puzzle_hidden_ok p = true -> hidden_bars_nonempty s)
            /\ blank_all (grid_cells s) = grid_cells s
            /\ blank_all (hidden_cells s) = hidden_cells s
            /\ active s = {| scope := ScopeGrid; bar_id := "h1"; index := 0;
                             direction := Horizontal |}
            /\ state_id s = uuid4 env
            /\ last_client_seq s = 0.
Proof.
  intros Hwf [Ehc Eid]%puzzle_prints_true. unfold init_state.
  set (len_of := fun b => dict_get_or (bar_lengths g) b 0).
  assert (Hlen : forall b, b ∈ GRID_ORDER ->
            dict_get (bar_lengths g) b = Some (len_of b) /\ 1 <= len_of b).
  { intros b Hb. destruct (wf_len g Hwf b Hb) as (n & Hn & Hpos).
    unfold len_of. by rewrite (dict_get_or_Some _ _ n). }
  rewrite (mapM_Ok _ (fun b => (b, blank_cells (len_of b)))).
  2:{ intros b Hb. destruct (Hlen b Hb) as [Hn _].
      by rewrite (dict_item_Some _ _ _ Hn), bind_Ok. }
  rewrite bind_Ok, Ehc, bind_Ok.
  rewrite (mapM_Ok _ (fun b => {| br_scope := ScopeGrid; br_bar_id := b;
                                  br_length := len_of b |})).
  2:{ intros b Hb. destruct (Hlen b Hb) as [Hn _].
      by rewrite (dict_item_Some _ _ _ Hn), bind_Ok. }
  rewrite bind_Ok, Eid, bind_Ok. cbv zeta.
  rewrite dict_of_items_distinct
    by (rewrite dict_keys_tabulate; apply GRID_ORDER_NoDup).
  set (gc := map (fun b => (b, blank_cells (len_of b))) GRID_ORDER).
  destruct (hidden_answers_of_facts p) as [Hne Hok].
  destruct (blank_hidden_cells_facts _ Hne) as (Hsh & Hbl & Hnonempty).
  assert (Hshape : grid_shape g gc).
  { split; [apply dict_keys_tabulate |]. intros b arr. unfold gc.
    rewrite dict_get_tabulate.
    destruct (decide (b ∈ GRID_ORDER)) as [Hb |]; [| done]. intros [= <-].
    destruct (Hlen b Hb) as [-> Hpos]. by rewrite py_len_blank_cells by lia. }
  assert (Hblank : blank_all gc = gc).
  { unfold blank_all, gc. rewrite map_map. apply map_ext. intros b.
    by rewrite map_blank_cells. }
  clearbody gc. eexists. split; [reflexivity |].
  split; [split; simpl |].
  - done.
  - by apply blank_grid_synced.
  - done.
  - assert (Hh1 : "h1" ∈ GRID_ORDER) by (apply elem_of_cons; by left).
    destruct (grid_shape_bar g Hwf _ "h1" Hshape Hh1) as (arr & Ha & Hl).
    exists arr. unfold active_bar. simpl. split; [done | lia].
  - simpl. split; [| done]. intros Hp. unfold hidden_bars_nonempty. simpl.
    apply Hnonempty, Hok, Hp.
Qed.

Lemma reachable_inv g p s :
  wf_grid g -> reachable p g s ->
  state_inv g s /\ (puzzle_hidden_ok p = true -> hidden_bars_nonempty s).
Proof.
  intros Hwf Hr. induction Hr as [env s Hi | s ev env s' Hr IH Hstep].
  - destruct (init_state_spec g p env Hwf (init_state_Ok_prints _ _ _ _ Hi))
      as (s0 & E & Hinv & Hne & _).
    rewrite Hi in E. injection E as <-. done.
  - destruct IH as [Hinv Hne].
    destruct (reduce_inv g Hwf s ev env Hinv (reduce_Ok_prints _ _ _ _ _ Hstep))
      as (s1 & E & Hinv1 & Hne1).
    rewrite Hstep in E. injection E as <-. split; [done | auto].
Qed.

(** A puzzle with a reachable state is one that [init_state] prints. *)
Lemma reachable_prints g p s : reachable p g s -> puzzle_prints p = true.
Proof.
  induction 1 as [env s Hi | s ev env s' Hr IH Hstep]; [| done].
  by eapply init_state_Ok_prints.
Qed.

(** ** What the handlers leave alone, in any state *)

Ltac in_list :=
  repeat first [apply list_elem_of_here | apply list_elem_of_further].

Ltac handler_cases H :=
  repeat match type of H with
    | (?m ≫= _) = Ok _ =>
        let x := fresh "x" in
        let E := fresh "E" in
        destruct m as [x |] eqn:E; [rewrite bind_Ok in H | discriminate H]
    | (if ?b then _ else _) = Ok _ => destruct b eqn:?
    | (match ?x with _ => _ end) = Ok _ => destruct x eqn:?
    | Ok _ = Ok _ => injection H as H
    | Raise _ = Ok _ => discriminate H
    end.

Lemma on_move_meta s step : meta_kept s (_on_move s step).
Proof.
  destruct (on_move_frame s step) as (? & ? & ? & ? & ? & ? & ? & _).
  by repeat split.
Qed.

Lemma meta_kept_trans s1 s2 s3 :
  meta_kept s1 s2 -> meta_kept s2 s3 -> meta_kept s1 s3.
Proof.
  intros (? & ? & ? & ? & ?) (? & ? & ? & ? & ?).
  repeat split; congruence.
Qed.

Lemma on_input_letter_meta s payload g s' :
  _on_input_letter s payload g = Ok s' -> meta_kept s s'.
Proof.
  intros H. unfold _on_input_letter in H. cbv zeta in H.
  handler_cases H; subst s';
    try (by repeat split);
    (eapply meta_kept_trans; [| apply on_move_meta]); by repeat split.
Qed.

Lemma on_backspace_meta s g s' :
  _on_backspace s g = Ok s' -> meta_kept s s'.
Proof.
  intros H. unfold _on_backspace in H. cbv zeta in H.
  handler_cases H; subst s'; by repeat split.
Qed.

Lemma on_set_active_meta s payload s' :
  _on_set_active s payload = Ok s' -> meta_kept s s'.
Proof.
  intros H. unfold _on_set_active in H. cbv zeta in H.
  handler_cases H; subst s'; by repeat split.
Qed.

(** ** The branches of [reduce] *)

Lemma bump_client_seq_frame payload out :
  same_but_bookkeeping out (bump_client_seq payload out)
  /\ last_action (bump_client_seq payload out) = last_action out
  /\ last_client_seq (bump_client_seq payload out) =
       match client_seq_int payload with
       | Some n => Z.max (last_client_seq out) n
       | None => last_client_seq out
       end.
Proof.
  unfold bump_client_seq. destruct (client_seq_int payload) as [n |];
    [| by repeat split].
  destruct (Z.gtb_spec n (last_client_seq out)); simpl;
    (split; [by repeat split |]); (split; [done | lia]).
Qed.

Lemma reduce_cases s ev g env s' :
  reduce s ev g env = Ok s' ->
  exists out,
    s' = bump_client_seq (payload ev) out
    /\ ( (type ev = "INPUT_LETTER" /\ _on_input_letter s (payload ev) g = Ok out)
         \/ (type ev = "MOVE_NEXT" /\ out = _on_move s 1)
         \/ (type ev = "MOVE_PREV" /\ out = _on_move s (-1))
         \/ (type ev = "SET_ACTIVE_BAR" /\ _on_set_active s (payload ev) = Ok out)
         \/ (type ev = "BACKSPACE" /\ _on_backspace s g = Ok out)
         \/ (type ev = "RESET" /\ out = _on_reset s env)
         \/ (type ev = "TICK" /\ out = s)
         \/ ((type ev ∉ HANDLED_TYPES) /\ type ev <> "TICK"
             /\ out = with_last_action s (String.append "ignored:" (type ev))) ).
Proof.
  unfold reduce. intros H.
  destruct (String.eqb_spec (type ev) "INPUT_LETTER") as [E1 | N1].
  { handler_cases H; simplify_eq. eexists. split; [reflexivity |]. left. done. }
  destruct (String.eqb_spec (type ev) "MOVE_NEXT") as [E2 | N2].
  { handler_cases H; simplify_eq. eexists. split; [reflexivity |]. right. left. done. }
  destruct (String.eqb_spec (type ev) "MOVE_PREV") as [E3 | N3].
  { handler_cases H; simplify_eq. eexists. split; [reflexivity |]. do 2 right. left. done. }
  destruct (String.eqb_spec (type ev) "SET_ACTIVE_BAR") as [E4 | N4].
  { handler_cases H; simplify_eq. eexists. split; [reflexivity |]. do 3 right. left. done. }
  destruct (String.eqb_spec (type ev) "BACKSPACE") as [E5 | N5].
  { handler_cases H; simplify_eq. eexists. split; [reflexivity |]. do 4 right. left. done. }
  destruct (String.eqb_spec (type ev) "RESET") as [E6 | N6].
  { handler_cases H; simplify_eq. eexists. split; [reflexivity |]. do 5 right. left. done. }
  destruct (String.eqb_spec (type ev) "TICK") as [E7 | N7].
  { handler_cases H; simplify_eq. eexists. split; [reflexivity |]. do 6 right. left. done. }
  handler_cases H; simplify_eq. eexists. split; [reflexivity |]. do 7 right.
  split; [| done]. unfold HANDLED_TYPES. intros Hin.
  repeat (apply elem_of_cons in Hin as [Hin | Hin]; [done |]).
  by apply elem_of_nil in Hin.
Qed.

Lemma reduce_unhandled s t payload g env :
  t ∉ HANDLED_TYPES ->
  reduce s {| type := t; payload := payload |} g env =
    Ok (bump_client_seq payload
          (if String.eqb t "TICK" then s
           else with_last_action s (String.append "ignored:" t))).
Proof.
  intros Hn. unfold reduce. simpl.
  assert (Hne : forall x, x ∈ HANDLED_TYPES -> String.eqb t x = false).
  { intros x Hx. destruct (String.eqb_spec t x) as [-> | ]; done. }
  rewrite !Hne by (unfold HANDLED_TYPES; in_list).
  by destruct (String.eqb t "TICK").
Qed.

Lemma reduce_seq_bookkeeping s ev g env s' :
  reduce s ev g env = Ok s' ->
  last_client_seq s' =
    match client_seq_int (payload ev) with
    | Some n =>
        Z.max (if String.eqb (type ev) "RESET" then 0 else last_client_seq s) n
    | None => if String.eqb (type ev) "RESET" then 0 else last_client_seq s
    end.
Proof.
  intros H. apply reduce_cases in H as (out & -> & Hcase).
  destruct (bump_client_seq_frame (payload ev) out) as (_ & _ & ->).
  assert (Hout : last_client_seq out =
                 if String.eqb (type ev) "RESET" then 0 else last_client_seq s).
  { destruct Hcase as [[E H] | [[E ->] | [[E ->] | [[E H] | [[E H] | [[E ->] | [[E ->] | (E & E' & ->)]]]]]]];
      try rewrite E; simpl; try done.
    - by apply on_input_letter_meta in H as (_ & _ & _ & _ & ?).
    - by destruct (on_move_meta s 1) as (_ & _ & _ & _ & ?).
    - by destruct (on_move_meta s (-1)) as (_ & _ & _ & _ & ?).
    - by apply on_set_active_meta in H as (_ & _ & _ & _ & ?).
    - by apply on_backspace_meta in H as (_ & _ & _ & _ & ?).
    - destruct (String.eqb_spec (type ev) "RESET") as [Er |]; [| done].
      exfalso. apply E. rewrite Er. unfold HANDLED_TYPES. in_list. }
  by rewrite Hout.
Qed.

(** ** Runs *)

Lemma reduce_all_reachable p g s evs :
  wf_grid g -> reachable p g s ->
  forallb (fun e : GridEvent * Env => negb (str_fails e.1)) evs = true ->
  exists s', reduce_all s evs g = Ok s' /\ reachable p g s'.
Proof.
  intros Hwf. revert s.
  induction evs as [| [ev env] evs IH]; intros s Hr Hpr; simpl.
  - eauto.
  - simpl in Hpr. apply andb_true_iff in Hpr as [Hev%negb_true_iff Hpr].
    destruct (reachable_inv g p s Hwf Hr) as [Hinv _].
    destruct (reduce_inv g Hwf s ev env Hinv Hev) as (s1 & E & _).
    rewrite E, bind_Ok. apply IH; [by eapply reach_step | done].
Qed.

Lemma play_from_reachable p s events :
  reachable p build_grid_spec s -> reachable p build_grid_spec (play_from s events).
Proof.
  revert s. induction events as [| ev events IH]; intros s Hr; [done |].
  cbn [play_from].
  destruct (reduce s ev build_grid_spec later_env) as [s' |] eqn:E; [| done].
  apply IH. by eapply reach_step.
Qed.

Lemma play_reachable events : reachable demo_puzzle build_grid_spec (play events).
Proof.
  unfold play.
  destruct (init_state_spec build_grid_spec demo_puzzle demo_env
              build_grid_spec_wf eq_refl) as (s0 & E0 & _).
  rewrite E0. apply play_from_reachable. by eapply reach_init.
Qed.

(** ** Reductions spelled out *)

Lemma cursor_valid_of_inv g s :
  wf_grid g -> state_inv g s -> hidden_bars_nonempty s -> cursor_valid s.
Proof.
  intros Hwf Hinv Hne. destruct (scope (active s)) eqn:Hsc.
  - destruct (grid_cursor_on_cell g Hwf s Hinv Hsc) as (arr & Ha & Hr).
    exists arr. unfold active_bar. rewrite Hsc. split; [done | lia].
  - destruct Hinv as [_ _ _ (arr & Ha & Hr)]. exists arr. split; [done |].
    unfold active_bar in Ha. rewrite Hsc in Ha. specialize (Hne _ _ Ha).
    assert (py_len arr <> 0) by (by rewrite py_len_nil).
    pose proof (py_len_nonneg arr). lia.
Qed.

Lemma payload_letter_of payload ch :
  dict_get payload "letter" = Some (PyStr ch) ->
  payload_letter payload = strip (upper ch).
Proof. intros H. unfold payload_letter, dict_get_or. by rewrite H. Qed.

Lemma reduce_input_letter s payload g env :
  reduce s (event "INPUT_LETTER" payload) g env =
    out ← _on_input_letter s payload g; Ok (bump_client_seq payload out).
Proof. reflexivity. Qed.

Lemma reduce_backspace s payload g env :
  reduce s (event "BACKSPACE" payload) g env =
    out ← _on_backspace s g; Ok (bump_client_seq payload out).
Proof. reflexivity. Qed.


Lemma bump_fields payload out :
  grid_cells (bump_client_seq payload out) = grid_cells out
  /\ hidden_cells (bump_client_seq payload out) = hidden_cells out
  /\ active (bump_client_seq payload out) = active out
  /\ state_id (bump_client_seq payload out) = state_id out.
Proof.
  destruct (bump_client_seq_frame payload out) as ((_ & ? & ? & ? & ? & _) & _).
  done.
Qed.

Lemma single_char_leb (c : ascii) :
  String.leb "A" (String c EmptyString) && String.leb (String c EmptyString) "Z"
  = true <-> (65 <= N_of_ascii c <= 90)%N.
Proof.
  unfold String.leb. simpl. unfold Ascii.compare.
  change (N_of_ascii "A") with 65%N. change (N_of_ascii "Z") with 90%N.
  destruct (N.compare_spec 65 (N_of_ascii c));
    destruct (N.compare_spec (N_of_ascii c) 90); simpl; split; try done; lia.
Qed.

Lemma not_a_letter_iff (l : string) :
  not_a_letter l = false <-> single_capital l.
Proof.
  unfold not_a_letter, single_capital. split.
  - intros [H1 H2]%orb_false_elim.
    apply negb_false_iff in H1, H2. apply Z.eqb_eq in H1.
    destruct l as [| c [| c' l']]; cbn [String.length] in H1; try lia.
    exists c. split; [done |]. by apply single_char_leb.
  - intros (c & -> & Hc). apply single_char_leb in Hc. rewrite Hc. done.
Qed.

Lemma on_move_index_nonempty s step arr :
  active_bar s = Some arr -> 1 <= py_len arr ->
  index (active (_on_move s step))
  = _clamp (index (active s) + step) 0 (py_len arr - 1).
Proof.
  intros Ha Hl. rewrite on_move_index, active_cells_bar, Ha.
  destruct arr; [unfold py_len in Hl; simpl in Hl; lia | done].
Qed.

Lemma written_grid g s s' b i v :
  wf_grid g -> grid_shape g (grid_cells s) ->
  is_Some (cell_at (grid_cells s) b i) ->
  grid_cells s' = put_linked g (grid_cells s) b i v ->
  hidden_cells s' = hidden_cells s ->
  written g s s' ScopeGrid b i v.
Proof.
  intros Hwf Hg Hv Eg Eh. unfold written, state_cell. rewrite Eg.
  split; [| split].
  - rewrite cell_at_put_linked by done. by case_decide.
  - intros b2 i2 _ Hx. rewrite cell_at_put_linked by done.
    repeat case_decide; done.
  - intros sc' b' i' Hne Hnl. destruct sc'; [| by rewrite ?Eh].
    rewrite ?Eg, cell_at_put_linked by done.
    repeat case_decide; try done.
    + exfalso. apply Hne. congruence.
    + exfalso. by apply Hnl.
Qed.

Lemma written_hidden g s s' b i v :
  is_Some (cell_at (hidden_cells s) b i) ->
  hidden_cells s' = put (hidden_cells s) b i v ->
  grid_cells s' = grid_cells s ->
  written g s s' ScopeHidden b i v.
Proof.
  intros Hv Eh Eg. unfold written, state_cell. rewrite Eh.
  split; [| split].
  - rewrite cell_at_put by done. by case_decide.
  - done.
  - intros sc' b' i' Hne _. destruct sc'; [by rewrite ?Eg |].
    rewrite ?Eh, cell_at_put by done. case_decide; [| done].
    exfalso. apply Hne. congruence.
Qed.

Section postconditions.
Variable g : GridSpec.
Hypothesis Hwf : wf_grid g.


Lemma bump_same_but_bookkeeping payload s out :
  same_but_bookkeeping s out ->
  same_but_bookkeeping s (bump_client_seq payload out).
Proof.
  intros (? & ? & ? & ? & ? & ? & ?).
  destruct (bump_client_seq_frame payload out) as ((? & ? & ? & ? & ? & ? & ?) & _).
  repeat split; congruence.
Qed.

Lemma written_bump payload s out sc b i v :
  written g s out sc b i v -> written g s (bump_client_seq payload out) sc b i v.
Proof.
  destruct (bump_fields payload out) as (Eg & Eh & _).
  unfold written, state_cell. by rewrite Eg, Eh.
Qed.

Lemma on_backspace_spec s :
  state_inv g s ->
  exists out,
    _on_backspace s g = Ok out
    /\ scope (active out) = scope (active s)
    /\ bar_id (active out) = bar_id (active s)
    /\ direction (active out) = direction (active s)
    /\ (active_cell s = None -> same_but_bookkeeping s out)
    /\ forall ch,
         active_cell s = Some ch ->
         (ch <> "" ->
          index (active out) = index (active s)
          /\ written g s out (scope (active s)) (bar_id (active s))
                     (index (active s)) "")
         /\ (ch = "" -> 0 < index (active s) ->
             index (active out) = index (active s) - 1
             /\ written g s out (scope (active s)) (bar_id (active s))
                        (index (active s) - 1) "")
         /\ (ch = "" -> index (active s) = 0 -> same_but_bookkeeping s out).
Proof.
  intros Hinv. destruct (scope (active s)) eqn:Hsc.
  - destruct (grid_cursor_on_cell g Hwf s Hinv Hsc) as (arr & Ha & Hr).
    destruct (lookup_lt_is_Some_2 arr (Z.to_nat (index (active s)))) as [ch0 Hch].
    { unfold py_len in Hr. lia. }
    rewrite (on_backspace_grid g Hwf s arr ch0 (inv_grid _ _ Hinv) Hsc Ha Hr Hch).
    assert (Hac : active_cell s = Some ch0).
    { unfold active_cell. rewrite Hsc. apply cell_at_Some. eauto. }
    rewrite Hac.
    destruct (String.eqb_spec ch0 "") as [-> | Hne]; simpl negb; cbv iota.
    + destruct (Z.gtb_spec (index (active s)) 0).
      * eexists. split; [reflexivity |]. simpl. do 3 (split; [done |]).
        split; [done |]. intros ch [= <-]. split; [done |]. split; [| intros; lia].
        intros _ _. split; [done |]. apply written_grid; try done.
        -- by apply Hinv.
        -- apply cell_at_is_Some. exists arr. split; [done | lia].
      * eexists. split; [reflexivity |]. simpl. do 3 (split; [done |]).
        split; [done |]. intros ch [= <-]. split; [done |].
        split; [intros; lia | by intros _ _].
    + eexists. split; [reflexivity |]. simpl. do 3 (split; [done |]).
      split; [done |]. intros ch [= <-]. split; [| by split].
      intros _. split; [done |]. apply written_grid; try done.
      * by apply Hinv.
      * apply cell_at_is_Some. exists arr. split; [done | lia].
  - destruct (inv_cursor _ _ Hinv) as (arr & Ha & Hr).
    unfold active_bar in Ha. rewrite Hsc in Ha.
    destruct (decide (arr = [])) as [-> | Hnil].
    { rewrite on_backspace_hidden_empty by done.
      eexists. split; [reflexivity |]. simpl. do 3 (split; [done |]).
      split; [done |]. intros ch Hch. exfalso.
      unfold active_cell in Hch. rewrite Hsc in Hch.
      apply cell_at_Some in Hch as (arr' & Ha' & Hr' & _).
      rewrite Ha in Ha'. injection Ha' as <-. unfold py_len in Hr'. simpl in Hr'. lia. }
    assert (Hlen : 1 <= py_len arr).
    { pose proof (py_len_nonneg arr). assert (py_len arr <> 0) by (by rewrite py_len_nil). lia. }
    assert (Hr' : 0 <= index (active s) < py_len arr) by lia.
    destruct (lookup_lt_is_Some_2 arr (Z.to_nat (index (active s)))) as [ch0 Hch].
    { unfold py_len in Hr'. lia. }
    rewrite (on_backspace_hidden g s arr ch0 Hsc Ha Hr' Hch).
    assert (Hac : active_cell s = Some ch0).
    { unfold active_cell. rewrite Hsc. apply cell_at_Some. eauto. }
    rewrite Hac.
    destruct (String.eqb_spec ch0 "") as [-> | Hne]; simpl negb; cbv iota.
    + destruct (Z.gtb_spec (index (active s)) 0).
      * eexists. split; [reflexivity |]. simpl. do 3 (split; [done |]).
        split; [done |]. intros ch [= <-]. split; [done |]. split; [| intros; lia].
        intros _ _. split; [done |]. apply written_hidden; try done.
        apply cell_at_is_Some. exists arr. split; [done | lia].
      * eexists. split; [reflexivity |]. simpl. do 3 (split; [done |]).
        split; [done |]. intros ch [= <-]. split; [done |].
        split; [intros; lia | by intros _ _].
    + eexists. split; [reflexivity |]. simpl. do 3 (split; [done |]).
      split; [done |]. intros ch [= <-]. split; [| by split].
      intros _. split; [done |]. apply written_hidden; try done.
      apply cell_at_is_Some. exists arr. split; [done | lia].
Qed.

Lemma backspace_spec s payload env :
  state_inv g s ->
  exists s',
    reduce s (event "BACKSPACE" payload) g env = Ok s'
    /\ scope (active s') = scope (active s)
    /\ bar_id (active s') = bar_id (active s)
    /\ direction (active s') = direction (active s)
    /\ (active_cell s = None -> same_but_bookkeeping s s')
    /\ forall ch,
         active_cell s = Some ch ->
         (ch <> "" ->
          index (active s') = index (active s)
          /\ written g s s' (scope (active s)) (bar_id (active s))
                     (index (active s)) "")
         /\ (ch = "" -> 0 < index (active s) ->
             index (active s') = index (active s) - 1
             /\ written g s s' (scope (active s)) (bar_id (active s))
                        (index (active s) - 1) "")
         /\ (ch = "" -> index (active s) = 0 -> same_but_bookkeeping s s').
Proof.
  intros Hinv. rewrite reduce_backspace.
  destruct (on_backspace_spec s Hinv) as (out & -> & Es & Eb & Ed & Hnone & Hch).
  rewrite bind_Ok. eexists. split; [reflexivity |].
  destruct (bump_fields payload out) as (_ & _ & -> & _).
  do 3 (split; [done |]).
  split; [intros H; by apply bump_same_but_bookkeeping, Hnone |].
  intros ch Hc. destruct (Hch ch Hc) as (H1 & H2 & H3). split; [| split].
  - intros Hne. destruct (H1 Hne). split; [done | by apply written_bump].
  - intros He Hpos. destruct (H2 He Hpos). split; [done | by apply written_bump].
  - intros He Hz. by apply bump_same_but_bookkeeping, H3.
Qed.




End postconditions.

(** ** Replaying letters *)

Lemma on_move_board s t k :
  board s = board t -> board (_on_move s k) = board (_on_move t k).
Proof.
  unfold board. intros [= Eg Eh Ea].
  unfold _on_move, active_cells. rewrite Eg, Eh, Ea.
  repeat case_match; simpl; congruence.
Qed.

Lemma on_input_letter_board s t payload g :
  board s = board t ->
  match _on_input_letter s payload g, _on_input_letter t payload g with
  | Ok s', Ok t' => board s' = board t'
  | Raise _, Raise _ => True
  | _, _ => False
  end.
Proof.
  intros Hb. pose proof Hb as [= Eg Eh Ea].
  unfold _on_input_letter. cbv zeta. rewrite Eg, Eh, Ea.
  unfold mbind, result_bind.
  repeat case_match; simplify_eq; try done;
    try (apply on_move_board); unfold board; simpl; congruence.
Qed.

Lemma reduce_input_letter_ev s ev g env :
  type ev = "INPUT_LETTER" ->
  reduce s ev g env =
    out ← _on_input_letter s (payload ev) g; Ok (bump_client_seq (payload ev) out).
Proof. intros H. unfold reduce. by rewrite H. Qed.

Lemma bump_board payload out : board (bump_client_seq payload out) = board out.
Proof.
  destruct (bump_fields payload out) as (Eg & Eh & Ea & _).
  unfold board. by rewrite Eg, Eh, Ea.
Qed.

Lemma inputs_board g evs :
  forall s t evs' S,
    board s = board t ->
    Forall (fun e : GridEvent * Env => type e.1 = "INPUT_LETTER") evs ->
    map fst evs' = map fst evs ->
    reduce_all s evs g = Ok S ->
    exists T, reduce_all t evs' g = Ok T /\ board S = board T
              /\ state_id T = state_id t.
Proof.
  induction evs as [| [ev env] evs IH]; intros s t evs' S Hb Hty Hev Hrun.
  - destruct evs'; [| done]. simpl in *. injection Hrun as <-. eauto.
  - destruct evs' as [| [ev' env'] evs']; [done |].
    simpl in Hev. injection Hev as -> Hev.
    apply Forall_cons in Hty as [Hty Hrest]. simpl in Hty.
    simpl in Hrun. apply bind_is_Ok in Hrun as (s1 & Hstep & Hrun).
    rewrite reduce_input_letter_ev in Hstep by done.
    apply bind_is_Ok in Hstep as (out & Hout & [= <-]).
    pose proof (on_input_letter_board s t (payload ev) g Hb) as Hsim.
    rewrite Hout in Hsim.
    destruct (_on_input_letter t (payload ev) g) as [out' |] eqn:Hout'; [| done].
    simpl. rewrite reduce_input_letter_ev, Hout', !bind_Ok by done.
    destruct (IH (bump_client_seq (payload ev) out)
                 (bump_client_seq (payload ev) out') evs' S)
      as (T & HT & HbT & Hid); try done.
    { by rewrite !bump_board. }
    exists T. split; [done |]. split; [done |]. rewrite Hid.
    destruct (bump_fields (payload ev) out') as (_ & _ & _ & ->).
    by apply on_input_letter_meta in Hout' as (_ & ? & _).
Qed.

Lemma map_const_insert {A B} (c : B) (l : list A) (k : nat) (v : A) :
  map (fun _ => c) (<[k := v]> l) = map (fun _ => c) l.
Proof.
  revert k. induction l as [| x l IH]; intros [| k]; simpl; try done.
  by rewrite IH.
Qed.

Lemma dict_set_same {V} (d : list (string * V)) k v :
  dict_get d k = Some v -> dict_set d k v = d.
Proof.
  induction d as [| [k0 v0] d IH]; simpl; [done |].
  destruct (decide (k = k0)) as [-> | Hne]; [by intros [= ->] |].
  intros H. by rewrite IH.
Qed.

Lemma blank_all_put cells b i v : blank_all (put cells b i v) = blank_all cells.
Proof.
  unfold put. destruct (dict_get cells b) as [arr |] eqn:Hg; [| done].
  rewrite blank_all_dict_set, map_const_insert. apply dict_set_same.
  by rewrite dict_get_blank_all, Hg.
Qed.

Lemma blank_all_put_linked g cells b i v :
  blank_all (put_linked g cells b i v) = blank_all cells.
Proof.
  unfold put_linked. destruct (dict_get (cross_map g) (b, i)) as [[ob oi] |];
    by rewrite !blank_all_put.
Qed.

Lemma on_input_letter_shape g s payload out :
  wf_grid g -> state_inv g s ->
  _on_input_letter s payload g = Ok out ->
  blank_all (grid_cells out) = blank_all (grid_cells s)
  /\ blank_all (hidden_cells out) = blank_all (hidden_cells s).
Proof.
  intros Hwf Hinv Hok.
  pose proof (on_input_letter_Ok_prints _ _ _ _ Hok) as Hpr. revert Hok.
  destruct (not_a_letter (payload_letter payload)) eqn:Hl.
  { rewrite on_input_letter_ignored by done. by intros [= <-]. }
  destruct (scope (active s)) eqn:Hsc.
  - destruct (grid_cursor_on_cell g Hwf s Hinv Hsc) as (arr & Ha & Hr).
    rewrite (on_input_letter_grid g Hwf s payload arr);
      try done; [| by apply Hinv].
    intros [= <-].
    destruct (on_move_frame (with_last_action (with_grid_cells s
                (put_linked g (grid_cells s) (bar_id (active s))
                   (index (active s)) (payload_letter payload))) "input:grid") 1)
      as (_ & _ & -> & -> & _).
    simpl. by rewrite blank_all_put_linked.
  - destruct (inv_cursor _ _ Hinv) as (arr & Ha & Hr).
    unfold active_bar in Ha. rewrite Hsc in Ha.
    rewrite (on_input_letter_hidden g s payload arr) by (done || lia).
    destruct (index (active s) <? py_len arr); intros [= <-]; [| done].
    destruct (on_move_frame (with_last_action (with_hidden_cells s
                (put (hidden_cells s) (bar_id (active s))
                   (index (active s)) (payload_letter payload))) "input:hidden") 1)
      as (_ & _ & -> & -> & _).
    simpl. by rewrite blank_all_put.
Qed.

Lemma inputs_shape g p evs :
  wf_grid g ->
  forall s S,
    reachable p g s ->
    Forall (fun e : GridEvent * Env => type e.1 = "INPUT_LETTER") evs ->
    reduce_all s evs g = Ok S ->
    reachable p g S
    /\ blank_all (grid_cells S) = blank_all (grid_cells s)
    /\ blank_all (hidden_cells S) = blank_all (hidden_cells s).
Proof.
  intros Hwf. induction evs as [| [ev env] evs IH]; intros s S Hr Hty Hrun.
  - simpl in Hrun. injection Hrun as <-. done.
  - apply Forall_cons in Hty as [Hty Hrest]. simpl in Hty.
    simpl in Hrun. apply bind_is_Ok in Hrun as (s1 & Hstep & Hrun).
    assert (Hr1 : reachable p g s1) by (by eapply reach_step).
    destruct (IH s1 S Hr1 Hrest Hrun) as (HrS & Eg & Eh).
    split; [done |]. rewrite Eg, Eh.
    rewrite reduce_input_letter_ev in Hstep by done.
    apply bind_is_Ok in Hstep as (out & Hout & [= <-]).
    destruct (reachable_inv g p s Hwf Hr) as [Hinv _].
    destruct (on_input_letter_shape g s (payload ev) out Hwf Hinv Hout) as [E1 E2].
    destruct (bump_fields (payload ev) out) as (-> & -> & _). done.
Qed.

(** ** The boundary of the cursor range *)

(** [init_state] accepts a puzzle without hidden answers and gives it a
    hidden bar without cells; the cursor sent there sits at index 0 of an
    empty bar.  [load_puzzle] returns no such puzzle. *)
Lemma cursor_on_empty_hidden_bar :
  let p := {| meta := []; answers_hidden := None; filename := "x.json" |} in
  puzzle_hidden_ok p = false
  /\ (s0 ← init_state p build_grid_spec demo_env;
      s1 ← reduce s0 (event "SET_ACTIVE_BAR" [("scope", PyStr "hidden")])
                  build_grid_spec later_env;
      Ok (active s1, active_bar s1))
     = Ok ({| scope := ScopeHidden; bar_id := "hidden1"; index := 0;
              direction := Horizontal |}, Some []).
Proof. vm_compute. split; reflexivity. Qed.

(** ** What every reduction keeps *)

Lemma blank_all_idem cells : blank_all (blank_all cells) = blank_all cells.
Proof.
  unfold blank_all. rewrite map_map. apply map_ext. intros [k arr]. simpl.
  by rewrite map_map.
Qed.

Lemma on_set_active_cells s payload out :
  _on_set_active s payload = Ok out ->
  grid_cells out = grid_cells s /\ hidden_cells out = hidden_cells s.
Proof.
  intros H. unfold _on_set_active in H. cbv zeta in H.
  handler_cases H; subst out; done.
Qed.

Lemma on_backspace_shape g s out :
  wf_grid g -> state_inv g s ->
  _on_backspace s g = Ok out ->
  blank_all (grid_cells out) = blank_all (grid_cells s)
  /\ blank_all (hidden_cells out) = blank_all (hidden_cells s).
Proof.
  intros Hwf Hinv. destruct (scope (active s)) eqn:Hsc.
  - destruct (grid_cursor_on_cell g Hwf s Hinv Hsc) as (arr & Ha & Hr).
    destruct (lookup_lt_is_Some_2 arr (Z.to_nat (index (active s)))) as [ch Hch].
    { unfold py_len in Hr. lia. }
    rewrite (on_backspace_grid g Hwf s arr ch (inv_grid _ _ Hinv) Hsc Ha Hr Hch).
    repeat case_match; intros [= <-]; simpl; by rewrite ?blank_all_put_linked.
  - destruct (inv_cursor _ _ Hinv) as (arr & Ha & Hr).
    unfold active_bar in Ha. rewrite Hsc in Ha.
    destruct (decide (arr = [])) as [-> | Hnil].
    { rewrite on_backspace_hidden_empty by done. by intros [= <-]. }
    assert (Hlen : 1 <= py_len arr).
    { pose proof (py_len_nonneg arr).
      assert (py_len arr <> 0) by (by rewrite py_len_nil). lia. }
    assert (Hr' : 0 <= index (active s) < py_len arr) by lia.
    destruct (lookup_lt_is_Some_2 arr (Z.to_nat (index (active s)))) as [ch Hch].
    { unfold py_len in Hr'. lia. }
    rewrite (on_backspace_hidden g s arr ch Hsc Ha Hr' Hch).
    repeat case_match; intros [= <-]; simpl; by rewrite ?blank_all_put.
Qed.

Lemma reduce_shape g s ev env s' :
  wf_grid g -> state_inv g s ->
  reduce s ev g env = Ok s' ->
  blank_all (grid_cells s') = blank_all (grid_cells s)
  /\ blank_all (hidden_cells s') = blank_all (hidden_cells s)
  /\ puzzle_id s' = puzzle_id s
  /\ clue_order s' = clue_order s.
Proof.
  intros Hwf Hinv H. apply reduce_cases in H as (out & -> & Hcase).
  destruct (bump_client_seq_frame (payload ev) out)
    as ((-> & _ & -> & -> & _ & -> & _) & _).
  destruct Hcase as [[E H] | [[E ->] | [[E ->] | [[E H] | [[E H] | [[E ->] | [[E ->] | (E & E' & ->)]]]]]]].
  - destruct (on_input_letter_shape g s _ out Hwf Hinv H) as [-> ->].
    by apply on_input_letter_meta in H as (-> & _ & -> & _).
  - by destruct (on_move_frame s 1) as (-> & _ & -> & -> & -> & _).
  - by destruct (on_move_frame s (-1)) as (-> & _ & -> & -> & -> & _).
  - destruct (on_set_active_cells s _ out H) as [-> ->].
    by apply on_set_active_meta in H as (-> & _ & -> & _).
  - destruct (on_backspace_shape g s out Hwf Hinv H) as [-> ->].
    by apply on_backspace_meta in H as (-> & _ & -> & _).
  - destruct (on_reset_cells s env) as [-> ->].
    + destruct Hinv as [[Hk _] _ _ _]. rewrite Hk. apply GRID_ORDER_NoDup.
    + by destruct Hinv as [_ _ [Hnd _] _].
    + by rewrite !blank_all_idem.
  - done.
  - done.
Qed.

Lemma cells_hold_letters_put cells b i v :
  cells_hold_letters cells -> letter_or_empty v ->
  cells_hold_letters (put cells b i v).
Proof.
  intros Hc Hv b' arr. rewrite dict_get_put.
  destruct (dict_get cells b') as [arr0 |] eqn:E; [| done]. intros [= <-].
  pose proof (Hc b' arr0 E) as H0. destruct (decide (b' = b)); [| done].
  by apply Forall_insert.
Qed.

Lemma cells_hold_letters_put_linked g cells b i v :
  cells_hold_letters cells -> letter_or_empty v ->
  cells_hold_letters (put_linked g cells b i v).
Proof.
  intros Hc Hv. unfold put_linked.
  destruct (dict_get (cross_map g) (b, i)) as [[ob oi] |];
    by repeat apply cells_hold_letters_put.
Qed.

Lemma cells_hold_letters_blank cells :
  blank_all cells = cells -> cells_hold_letters cells.
Proof.
  intros <- b arr. rewrite dict_get_blank_all.
  destruct (dict_get cells b) as [arr0 |]; [| done]. intros [= <-].
  apply Forall_forall. intros x (y & -> & _)%list_elem_of_fmap. by left.
Qed.

Lemma not_a_letter_letter l : not_a_letter l = false -> letter_or_empty l.
Proof. intros H. right. by apply not_a_letter_iff. Qed.

Lemma reduce_letters g s ev env s' :
  wf_grid g -> state_inv g s ->
  cells_hold_letters (grid_cells s) -> cells_hold_letters (hidden_cells s) ->
  reduce s ev g env = Ok s' ->
  cells_hold_letters (grid_cells s') /\ cells_hold_letters (hidden_cells s').
Proof.
  intros Hwf Hinv Hg Hh H. apply reduce_cases in H as (out & -> & Hcase).
  destruct (bump_client_seq_frame (payload ev) out)
    as ((_ & _ & -> & -> & _) & _).
  assert (Hempty : letter_or_empty "") by (by left).
  destruct Hcase as [[E H] | [[E ->] | [[E ->] | [[E H] | [[E H] | [[E ->] | [[E ->] | (E & E' & ->)]]]]]]].
  - pose proof (on_input_letter_Ok_prints _ _ _ _ H) as Hpr.
    destruct (not_a_letter (payload_letter (payload ev))) eqn:Hl.
    { rewrite on_input_letter_ignored in H by done. by injection H as <-. }
    apply not_a_letter_letter in Hl as Hok.
    destruct (scope (active s)) eqn:Hsc.
    + destruct (grid_cursor_on_cell g Hwf s Hinv Hsc) as (arr & Ha & Hr).
      rewrite (on_input_letter_grid g Hwf s (payload ev) arr) in H;
        try done; [| by apply Hinv].
      injection H as <-.
      destruct (on_move_frame (with_last_action (with_grid_cells s
                  (put_linked g (grid_cells s) (bar_id (active s))
                     (index (active s)) (payload_letter (payload ev))))
                  "input:grid") 1)
        as (_ & _ & -> & -> & _).
      simpl. split; [by apply cells_hold_letters_put_linked | done].
    + destruct (inv_cursor _ _ Hinv) as (arr & Ha & Hr).
      unfold active_bar in Ha. rewrite Hsc in Ha.
      rewrite (on_input_letter_hidden g s (payload ev) arr) in H
        by (done || lia).
      destruct (index (active s) <? py_len arr); injection H as <-; [| done].
      destruct (on_move_frame (with_last_action (with_hidden_cells s
                  (put (hidden_cells s) (bar_id (active s))
                     (index (active s)) (payload_letter (payload ev))))
                  "input:hidden") 1)
        as (_ & _ & -> & -> & _).
      simpl. split; [done | by apply cells_hold_letters_put].
  - by destruct (on_move_frame s 1) as (_ & _ & -> & -> & _).
  - by destruct (on_move_frame s (-1)) as (_ & _ & -> & -> & _).
  - by destruct (on_set_active_cells s _ out H) as [-> ->].
  - destruct (scope (active s)) eqn:Hsc.
    + destruct (grid_cursor_on_cell g Hwf s Hinv Hsc) as (arr & Ha & Hr).
      destruct (lookup_lt_is_Some_2 arr (Z.to_nat (index (active s))))
        as [ch Hch].
      { unfold py_len in Hr. lia. }
      rewrite (on_backspace_grid g Hwf s arr ch (inv_grid _ _ Hinv) Hsc Ha Hr Hch)
        in H.
      repeat case_match; injection H as <-; simpl;
        (split; [by (done || apply cells_hold_letters_put_linked) | done]).
    + destruct (inv_cursor _ _ Hinv) as (arr & Ha & Hr).
      unfold active_bar in Ha. rewrite Hsc in Ha.
      destruct (decide (arr = [])) as [-> | Hnil].
      { rewrite on_backspace_hidden_empty in H by done. by injection H as <-. }
      assert (Hlen : 1 <= py_len arr).
      { pose proof (py_len_nonneg arr).
        assert (py_len arr <> 0) by (by rewrite py_len_nil). lia. }
      assert (Hr' : 0 <= index (active s) < py_len arr) by lia.
      destruct (lookup_lt_is_Some_2 arr (Z.to_nat (index (active s))))
        as [ch Hch].
      { unfold py_len in Hr'. lia. }
      rewrite (on_backspace_hidden g s arr ch Hsc Ha Hr' Hch) in H.
      repeat case_match; injection H as <-; simpl;
        (split; [done | by (done || apply cells_hold_letters_put)]).
  - destruct (on_reset_cells s env) as [-> ->].
    + destruct Hinv as [[Hk _] _ _ _]. rewrite Hk. apply GRID_ORDER_NoDup.
    + by destruct Hinv as [_ _ [Hnd _] _].
    + split; apply cells_hold_letters_blank, blank_all_idem.
  - done.
  - done.
Qed.

Lemma reachable_letters g p s :
  wf_grid g -> reachable p g s ->
  cells_hold_letters (grid_cells s) /\ cells_hold_letters (hidden_cells s).
Proof.
  intros Hwf Hr. induction Hr as [env s Hi | s ev env s' Hr IH Hstep].
  - destruct (init_state_spec g p env Hwf (init_state_Ok_prints _ _ _ _ Hi))
      as (s0 & E & _ & _ & Hbg & Hbh & _).
    rewrite Hi in E. injection E as <-.
    split; by apply cells_hold_letters_blank.
  - destruct (reachable_inv g p s Hwf Hr) as [Hinv _]. destruct IH as [Hg Hh].
    by eapply reduce_letters.
Qed.



(** * The properties of the specification *)

(** C1. In every state reachable from [init_state] by reductions, the two
    positions that the geometry's [cross_map] links hold the same letter
    (and both cells exist). *)
Theorem cross_links_in_sync (p : Puzzle) (s : GameState)
    (b : string) (i : Z) (b2 : string) (i2 : Z) :
  reachable p build_grid_spec s ->
  dict_get (cross_map build_grid_spec) (b, i) = Some (b2, i2) ->
  exists ch, cell_at (grid_cells s) b i = Some ch
             /\ cell_at (grid_cells s) b2 i2 = Some ch.
Proof.
  intros Hr Hx.
  destruct (reachable_inv _ _ _ build_grid_spec_wf Hr) as [[Hg Hs _ _] _].
  destruct (cross_partner_exists _ build_grid_spec_wf _ _ _ _ _ Hg Hx) as [ch Hch].
  exists ch. split; [| done]. by rewrite (Hs _ _ _ _ Hx).
Qed.

Lemma cross_links_in_sync_witness :
  reachable demo_puzzle build_grid_spec
    (play [event "MOVE_NEXT" []; event "INPUT_LETTER" [("letter", PyStr "z")]])
  /\ dict_get (cross_map build_grid_spec) ("h1", 1) = Some ("v1", 1)
  /\ exists ch,
       cell_at (grid_cells (play [event "MOVE_NEXT" [];
                                  event "INPUT_LETTER" [("letter", PyStr "z")]]))
               "h1" 1 = Some ch
       /\ cell_at (grid_cells (play [event "MOVE_NEXT" [];
                                     event "INPUT_LETTER" [("letter", PyStr "z")]]))
                  "v1" 1 = Some ch.
Proof.
  split; [apply play_reachable |]. split; [reflexivity |].
  apply (cross_links_in_sync demo_puzzle _ "h1" 1 "v1" 1);
    [apply play_reachable | reflexivity].
Defined.

(** C2, as the code has it.  Whenever [reduce] returns, an event other than
    [RESET] never lowers [last_client_seq]: the output is the maximum of the
    input value and [int(client_seq)] when the payload has a [client_seq]
    that [int] accepts, and the input value otherwise.  [RESET] restarts the
    counter: its output is [max(0, int(client_seq))], or [0] without such a
    [client_seq]. *)
Theorem last_client_seq_after_reduce (s : GameState) (ev : GridEvent)
    (g : GridSpec) (env : Env) (s' : GameState) :
  reduce s ev g env = Ok s' ->
  (type ev <> "RESET" ->
   last_client_seq s <= last_client_seq s'
   /\ last_client_seq s' =
        match client_seq_int (payload ev) with
        | Some n => Z.max (last_client_seq s) n
        | None => last_client_seq s
        end)
  /\ (type ev = "RESET" ->
      last_client_seq s' =
        match client_seq_int (payload ev) with
        | Some n => Z.max 0 n
        | None => 0
        end).
Proof.
  intros H. apply reduce_seq_bookkeeping in H. rewrite H. split.
  - intros Hne. destruct (String.eqb_spec (type ev) "RESET"); [done |].
    destruct (client_seq_int (payload ev)); split; (done || lia).
  - intros ->. done.
Qed.

Lemma last_client_seq_after_reduce_witness :
  reduce (play [event "TICK" [("client_seq", PyInt 5)]])
         (event "INPUT_LETTER" [("letter", PyStr "a"); ("client_seq", PyStr "9")])
         build_grid_spec later_env
  = Ok (play [event "TICK" [("client_seq", PyInt 5)];
              event "INPUT_LETTER" [("letter", PyStr "a");
                                    ("client_seq", PyStr "9")]])
  /\ last_client_seq
       (play [event "TICK" [("client_seq", PyInt 5)];
              event "INPUT_LETTER" [("letter", PyStr "a");
                                    ("client_seq", PyStr "9")]]) = 9.
Proof.
  split; [vm_compute; reflexivity |].
  destruct (last_client_seq_after_reduce
              (play [event "TICK" [("client_seq", PyInt 5)]])
              (event "INPUT_LETTER" [("letter", PyStr "a");
                                     ("client_seq", PyStr "9")])
              build_grid_spec later_env
              (play [event "TICK" [("client_seq", PyInt 5)];
                     event "INPUT_LETTER" [("letter", PyStr "a");
                                           ("client_seq", PyStr "9")]]))
    as [Hmono _]; [vm_compute; reflexivity |].
  destruct Hmono as [_ Heq]; [discriminate |].
  rewrite Heq. vm_compute. reflexivity.
Defined.

(** C2 as stated fails on [RESET]: from a reachable state whose
    [last_client_seq] is 5, a [RESET] without [client_seq] returns a state
    whose [last_client_seq] is 0. *)
Lemma reset_lowers_last_client_seq :
  reduce (play [event "TICK" [("client_seq", PyInt 5)]])
         (event "RESET" []) build_grid_spec later_env
  = Ok (play [event "TICK" [("client_seq", PyInt 5)]; event "RESET" []])
  /\ last_client_seq (play [event "TICK" [("client_seq", PyInt 5)]]) = 5
  /\ last_client_seq
       (play [event "TICK" [("client_seq", PyInt 5)]; event "RESET" []]) = 0
  /\ ~ (last_client_seq (play [event "TICK" [("client_seq", PyInt 5)]])
        <= last_client_seq
             (play [event "TICK" [("client_seq", PyInt 5)]; event "RESET" []])).
Proof. vm_compute. repeat split; try reflexivity. intros H. apply H. reflexivity. Qed.

(** C3, as the code has it.  In the geometry of [build_grid_spec], index 1
    of [h1] is cross-linked to index 1 of [v1] (both are the cell of row 1
    and column 1).  In a reachable state whose cursor is at index 1 of grid
    bar [h1], [INPUT_LETTER] with letter ["Z"] sets [grid_cells.h1[1]] and
    [grid_cells.v1[1]] to ["Z"]; [grid_cells.v1[0]] keeps its letter. *)
Theorem input_at_h1_1_links_v1_1 (p : Puzzle) (s : GameState)
    (payload : Payload) (env : Env) :
  reachable p build_grid_spec s ->
  scope (active s) = ScopeGrid -> bar_id (active s) = "h1" ->
  index (active s) = 1 ->
  dict_get payload "letter" = Some (PyStr "Z") ->
  dict_get (cross_map build_grid_spec) ("h1", 1) = Some ("v1", 1)
  /\ exists s',
       reduce s (event "INPUT_LETTER" payload) build_grid_spec env = Ok s'
       /\ cell_at (grid_cells s') "h1" 1 = Some "Z"
       /\ cell_at (grid_cells s') "v1" 1 = Some "Z"
       /\ cell_at (grid_cells s') "v1" 0 = cell_at (grid_cells s) "v1" 0.
Proof.
  intros Hr Hsc Hb Hi Hl. split; [reflexivity |].
  destruct (reachable_inv _ _ _ build_grid_spec_wf Hr) as [Hinv _].
  destruct (grid_cursor_on_cell _ build_grid_spec_wf s Hinv Hsc)
    as (arr & Ha & Hrange).
  assert (Hletter : payload_letter payload = "Z")
    by (by rewrite (payload_letter_of _ _ Hl)).
  assert (Hpr : letter_prints payload = true)
    by (unfold letter_prints, dict_get_or; by rewrite Hl).
  rewrite reduce_input_letter.
  rewrite (on_input_letter_grid _ build_grid_spec_wf s payload arr);
    try done; [| by apply Hinv | by rewrite Hletter].
  rewrite bind_Ok. eexists. split; [reflexivity |].
  destruct (bump_fields payload
              (_on_move (with_last_action (with_grid_cells s
                 (put_linked build_grid_spec (grid_cells s) (bar_id (active s))
                    (index (active s)) (payload_letter payload))) "input:grid") 1))
    as (-> & _).
  destruct (on_move_frame (with_last_action (with_grid_cells s
                 (put_linked build_grid_spec (grid_cells s) (bar_id (active s))
                    (index (active s)) (payload_letter payload))) "input:grid") 1)
    as (_ & _ & -> & _).
  simpl. rewrite Hb, Hi, Hletter.
  assert (Hv : is_Some (cell_at (grid_cells s) "h1" 1)).
  { apply cell_at_is_Some. exists arr. rewrite <- Hb, <- Hi. done. }
  rewrite !(cell_at_put_linked _ build_grid_spec_wf) by (done || apply Hinv).
  done.
Qed.

Lemma input_at_h1_1_links_v1_1_witness :
  reachable demo_puzzle build_grid_spec (play [event "MOVE_NEXT" []])
  /\ scope (active (play [event "MOVE_NEXT" []])) = ScopeGrid
  /\ bar_id (active (play [event "MOVE_NEXT" []])) = "h1"
  /\ index (active (play [event "MOVE_NEXT" []])) = 1
  /\ exists s',
       reduce (play [event "MOVE_NEXT" []])
              (event "INPUT_LETTER" [("letter", PyStr "Z")])
              build_grid_spec later_env = Ok s'
       /\ cell_at (grid_cells s') "h1" 1 = Some "Z"
       /\ cell_at (grid_cells s') "v1" 1 = Some "Z"
       /\ cell_at (grid_cells s') "v1" 0
          = cell_at (grid_cells (play [event "MOVE_NEXT" []])) "v1" 0.
Proof.
  split; [apply play_reachable |]. do 3 (split; [reflexivity |]).
  apply (input_at_h1_1_links_v1_1 demo_puzzle (play [event "MOVE_NEXT" []])
           [("letter", PyStr "Z")] later_env);
    [apply play_reachable | reflexivity ..].
Defined.

(** C3 as stated fails: with the cursor at index 1 of [h1],
    [INPUT_LETTER("Z")] leaves [grid_cells.v1[0]] empty; the letter goes to
    [h1[1]] and to its partner [v1[1]]. *)
Lemma scenario_B_leaves_v1_0_empty :
  active (play [event "MOVE_NEXT" []])
  = {| scope := ScopeGrid; bar_id := "h1"; index := 1; direction := Horizontal |}
  /\ reduce (play [event "MOVE_NEXT" []])
            (event "INPUT_LETTER" [("letter", PyStr "Z")])
            build_grid_spec later_env
     = Ok (play [event "MOVE_NEXT" []; event "INPUT_LETTER" [("letter", PyStr "Z")]])
  /\ cell_at (grid_cells (play [event "MOVE_NEXT" [];
                                event "INPUT_LETTER" [("letter", PyStr "Z")]]))
             "h1" 1 = Some "Z"
  /\ cell_at (grid_cells (play [event "MOVE_NEXT" [];
                                event "INPUT_LETTER" [("letter", PyStr "Z")]]))
             "v1" 0 = Some ""
  /\ cell_at (grid_cells (play [event "MOVE_NEXT" [];
                                event "INPUT_LETTER" [("letter", PyStr "Z")]]))
             "v1" 0 <> Some "Z".
Proof. vm_compute. repeat split; try reflexivity. discriminate. Qed.

(** C4. For a puzzle whose hidden answers are as [load_puzzle] leaves them,
    in every state reachable from [init_state] by reductions the cursor's
    [bar_id] names an existing bar of its scope and its [index] lies within
    [[0, len - 1]] of that bar. *)
Theorem active_cursor_valid (p : Puzzle) (s : GameState) :
  puzzle_hidden_ok p = true -> reachable p build_grid_spec s -> cursor_valid s.
Proof.
  intros Hp Hr. destruct (reachable_inv _ _ _ build_grid_spec_wf Hr) as [Hinv Hne].
  apply (cursor_valid_of_inv build_grid_spec); auto using build_grid_spec_wf.
Qed.

Lemma active_cursor_valid_witness :
  puzzle_hidden_ok demo_puzzle = true
  /\ reachable demo_puzzle build_grid_spec
       (play [event "SET_ACTIVE_BAR" [("scope", PyStr "hidden");
                                      ("bar_id", PyStr "hidden2");
                                      ("index", PyInt 99)]])
  /\ cursor_valid
       (play [event "SET_ACTIVE_BAR" [("scope", PyStr "hidden");
                                      ("bar_id", PyStr "hidden2");
                                      ("index", PyInt 99)]]).
Proof.
  split; [reflexivity |]. split; [apply play_reachable |].
  apply (active_cursor_valid demo_puzzle); [reflexivity | apply play_reachable].
Defined.

(** C8, as the code has it.  For [TICK] and for every event type [reduce]
    has no branch for, in any state, the reduction returns and leaves
    [grid_cells], [hidden_cells], [active], [state_id], [puzzle_id],
    [clue_order] and [start_time] unchanged; [last_client_seq] follows the
    seq bookkeeping.  An unrecognized type is recorded in [last_action] as
    ["ignored:<type>"]; [TICK] leaves [last_action] as it was. *)
Theorem tick_and_unknown_types_frame (s : GameState) (t : string)
    (payload : Payload) (g : GridSpec) (env : Env) :
  t ∉ HANDLED_TYPES ->
  exists s',
    reduce s (event t payload) g env = Ok s'
    /\ same_but_bookkeeping s s'
    /\ last_client_seq s' =
         match client_seq_int payload with
         | Some n => Z.max (last_client_seq s) n
         | None => last_client_seq s
         end
    /\ last_action s' =
         if String.eqb t "TICK" then last_action s
         else String.append "ignored:" t.
Proof.
  intros Hn. unfold event. rewrite reduce_unhandled by done.
  eexists. split; [reflexivity |].
  destruct (bump_client_seq_frame payload
              (if String.eqb t "TICK" then s
               else with_last_action s (String.append "ignored:" t)))
    as (Hsame & -> & ->).
  destruct (String.eqb t "TICK"); done.
Qed.

Lemma tick_and_unknown_types_frame_witness :
("PING" ∉ HANDLED_TYPES)
  /\ exists s',
       reduce (play [event "INPUT_LETTER" [("letter", PyStr "a")]])
              (event "PING" [("client_seq", PyInt 3)]) build_grid_spec later_env
       = Ok s'
       /\ same_but_bookkeeping
            (play [event "INPUT_LETTER" [("letter", PyStr "a")]]) s'
       /\ last_client_seq s' = 3
       /\ last_action s' = "ignored:PING".
Proof.
  split; [compute_done |].
  apply (tick_and_unknown_types_frame
           (play [event "INPUT_LETTER" [("letter", PyStr "a")]]) "PING"
           [("client_seq", PyInt 3)] build_grid_spec later_env).
  compute_done.
Defined.

(** C8 as stated fails on [TICK]: after a letter was typed, reducing [TICK]
    leaves [last_action] at ["move"], the tag of the cursor advance; the
    event is not recorded. *)
Lemma tick_leaves_last_action :
  reduce (play [event "INPUT_LETTER" [("letter", PyStr "a")]])
         (event "TICK" []) build_grid_spec later_env
  = Ok (play [event "INPUT_LETTER" [("letter", PyStr "a")]; event "TICK" []])
  /\ last_action (play [event "INPUT_LETTER" [("letter", PyStr "a")]]) = "move"
  /\ last_action (play [event "INPUT_LETTER" [("letter", PyStr "a")];
                        event "TICK" []]) = "move"
  /\ last_action (play [event "INPUT_LETTER" [("letter", PyStr "a")];
                        event "TICK" []]) <> "ignored:TICK".
Proof. vm_compute. repeat split; try reflexivity. discriminate. Qed.



(** C5 as stated fails on a payload whose letter [str] does not print:
    from the fresh state, [INPUT_LETTER] with the letter [10 ** 4300], an
    [int] of 4301 digits, raises [ValueError] and returns no state. *)
Lemma input_letter_raises_on_long_int :
  reachable demo_puzzle build_grid_spec (play [])
  /\ reduce (play []) (event "INPUT_LETTER" [("letter", PyInt (10 ^ 4300))])
            build_grid_spec later_env = Raise ValueError
  /\ ~ exists s',
        reduce (play []) (event "INPUT_LETTER" [("letter", PyInt (10 ^ 4300))])
               build_grid_spec later_env = Ok s'.
Proof.
  split; [apply play_reachable |].
  assert (E : reduce (play [])
                (event "INPUT_LETTER" [("letter", PyInt (10 ^ 4300))])
                build_grid_spec later_env = Raise ValueError)
    by (vm_compute; reflexivity).
  split; [exact E |]. intros [s' H]. rewrite E in H. discriminate.
Qed.

(** C6. In every reachable state [BACKSPACE] returns, keeps the cursor on
    its bar and scope, and: if the cell under the cursor holds a letter, it
    clears that cell (and, in grid scope, its cross-linked partner) and the
    index stays; if that cell is empty and the index is positive, the index
    goes back by one and the cell there is cleared (with its partner in grid
    scope); if that cell is empty and the index is 0, only [last_action] and
    [last_client_seq] may change.  In each case no other cell changes; in
    hidden scope there is no partner. *)
Theorem backspace_post (p : Puzzle) (s : GameState) (payload : Payload)
    (env : Env) :
  reachable p build_grid_spec s ->
  exists s',
    reduce s (event "BACKSPACE" payload) build_grid_spec env = Ok s'
    /\ scope (active s') = scope (active s)
    /\ bar_id (active s') = bar_id (active s)
    /\ direction (active s') = direction (active s)
    /\ forall ch,
         active_cell s = Some ch ->
         (ch <> "" ->
          index (active s') = index (active s)
          /\ written build_grid_spec s s' (scope (active s)) (bar_id (active s))
                     (index (active s)) "")
         /\ (ch = "" -> 0 < index (active s) ->
             index (active s') = index (active s) - 1
             /\ written build_grid_spec s s' (scope (active s))
                        (bar_id (active s)) (index (active s) - 1) "")
         /\ (ch = "" -> index (active s) = 0 -> same_but_bookkeeping s s').
Proof.
  intros Hr. destruct (reachable_inv _ _ _ build_grid_spec_wf Hr) as [Hinv _].
  destruct (backspace_spec _ build_grid_spec_wf s payload env Hinv)
    as (s' & E & Hs & Hb & Hd & _ & Hch).
  exists s'. done.
Qed.

Lemma backspace_post_witness :
  reachable demo_puzzle build_grid_spec
    (play [event "SET_ACTIVE_BAR" [("bar_id", PyStr "h1"); ("index", PyInt 3)];
           event "INPUT_LETTER" [("letter", PyStr "M")];
           event "MOVE_PREV" []])
  /\ active_cell
       (play [event "SET_ACTIVE_BAR" [("bar_id", PyStr "h1"); ("index", PyInt 3)];
              event "INPUT_LETTER" [("letter", PyStr "M")];
              event "MOVE_PREV" []]) = Some "M"
  /\ exists s',
       reduce (play [event "SET_ACTIVE_BAR" [("bar_id", PyStr "h1");
                                             ("index", PyInt 3)];
                     event "INPUT_LETTER" [("letter", PyStr "M")];
                     event "MOVE_PREV" []])
              (event "BACKSPACE" []) build_grid_spec later_env = Ok s'
       /\ index (active s') = 3
       /\ cell_at (grid_cells s') "h1" 3 = Some ""
       /\ cell_at (grid_cells s') "v2" 1 = Some "".
Proof.
  split; [apply play_reachable |]. split; [reflexivity |].
  destruct (backspace_post demo_puzzle
              (play [event "SET_ACTIVE_BAR" [("bar_id", PyStr "h1");
                                             ("index", PyInt 3)];
                     event "INPUT_LETTER" [("letter", PyStr "M")];
                     event "MOVE_PREV" []])
              [] later_env (play_reachable _))
    as (s' & E & _ & _ & _ & Hch).
  exists s'. split; [exact E |].
  destruct (Hch "M" eq_refl) as [[Hi (Hc & Hp & _)] _]; [discriminate |].
  split; [exact Hi |]. split; [exact Hc |].
  apply Hp; reflexivity.
Defined.



(** C7 as stated fails on a payload whose bar id [str] does not print:
    from the fresh state, [SET_ACTIVE_BAR] with the bar id [10 ** 4300], an
    [int] of 4301 digits, raises [ValueError] and returns no state. *)
Lemma set_active_raises_on_long_int :
  reachable demo_puzzle build_grid_spec (play [])
  /\ reduce (play []) (event "SET_ACTIVE_BAR" [("bar_id", PyInt (10 ^ 4300))])
            build_grid_spec later_env = Raise ValueError
  /\ ~ exists s',
        reduce (play []) (event "SET_ACTIVE_BAR" [("bar_id", PyInt (10 ^ 4300))])
               build_grid_spec later_env = Ok s'.
Proof.
  split; [apply play_reachable |].
  assert (E : reduce (play [])
                (event "SET_ACTIVE_BAR" [("bar_id", PyInt (10 ^ 4300))])
                build_grid_spec later_env = Raise ValueError)
    by (vm_compute; reflexivity).
  split; [exact E |]. intros [s' H]. rewrite E in H. discriminate.
Qed.

(** C9. Let [S] be the state that a list of [INPUT_LETTER] events produces
    from a freshly initialized state.  Reducing [RESET] on [S] and then the
    same events again returns a state with the [grid_cells] and
    [hidden_cells] of [S].  Its [state_id] is the identifier [uuid4] gave to
    the [RESET], that of [S] the one it gave to [init_state]: they differ
    when [uuid4] does not repeat itself, which is the hypothesis on the two
    draws. *)
Theorem reset_round_trip (p : Puzzle) (env0 : Env) (s0 : GameState)
    (evs : list (GridEvent * Env)) (S : GameState)
    (reset_payload : Payload) (envR : Env) (evs' : list (GridEvent * Env)) :
  init_state p build_grid_spec env0 = Ok s0 ->
  Forall (fun e : GridEvent * Env => type e.1 = "INPUT_LETTER") evs ->
  reduce_all s0 evs build_grid_spec = Ok S ->
  map fst evs' = map fst evs ->
  uuid4 envR <> uuid4 env0 ->
  exists R S',
    reduce S (event "RESET" reset_payload) build_grid_spec envR = Ok R
    /\ reduce_all R evs' build_grid_spec = Ok S'
    /\ grid_cells S' = grid_cells S
    /\ hidden_cells S' = hidden_cells S
    /\ state_id S = uuid4 env0
    /\ state_id S' = uuid4 envR
    /\ state_id S' <> state_id S.
Proof.
  intros Hinit Hty Hrun Hev Hfresh.
  destruct (init_state_spec build_grid_spec p env0 build_grid_spec_wf
              (init_state_Ok_prints _ _ _ _ Hinit))
    as (s0' & E0 & Hinv0 & _ & Hbg & Hbh & Ha0 & Hid0 & _).
  rewrite Hinit in E0. injection E0 as <-.
  assert (Hr0 : reachable p build_grid_spec s0) by (by eapply reach_init).
  destruct (inputs_shape build_grid_spec p evs build_grid_spec_wf s0 S Hr0 Hty Hrun)
    as (HrS & Eg & Eh).
  destruct (reachable_inv _ _ _ build_grid_spec_wf HrS) as [HinvS _].
  destruct (inputs_board build_grid_spec evs s0 s0 evs S eq_refl Hty eq_refl Hrun)
    as (S0 & HS0 & _ & HidS).
  rewrite Hrun in HS0. injection HS0 as <-.
  set (R := bump_client_seq reset_payload (_on_reset S envR)).
  assert (HbR : board s0 = board R).
  { unfold R. rewrite bump_board. unfold board.
    destruct (on_reset_cells S envR) as [-> ->].
    - destruct HinvS as [[Hk _] _ _ _]. rewrite Hk. apply GRID_ORDER_NoDup.
    - by destruct HinvS as [_ _ [Hnd _] _].
    - rewrite Eg, Eh, Hbg, Hbh, Ha0. done. }
  destruct (inputs_board build_grid_spec evs s0 R evs' S HbR Hty Hev Hrun)
    as (S' & HS' & Hb' & Hid').
  exists R, S'. split; [reflexivity |]. split; [done |].
  injection Hb' as Eg' Eh' _.
  assert (HidR : state_id R = uuid4 envR).
  { unfold R. by destruct (bump_fields reset_payload (_on_reset S envR))
      as (_ & _ & _ & ->). }
  repeat split; try congruence.
Qed.

Lemma reset_round_trip_witness :
  exists R S',
    reduce (play [event "INPUT_LETTER" [("letter", PyStr "s")];
                  event "INPUT_LETTER" [("letter", PyStr "e")]])
           (event "RESET" []) build_grid_spec later_env = Ok R
    /\ reduce_all R [(event "INPUT_LETTER" [("letter", PyStr "s")], later_env);
                     (event "INPUT_LETTER" [("letter", PyStr "e")], later_env)]
                  build_grid_spec = Ok S'
    /\ cell_at (grid_cells S') "h1" 1 = Some "E"
    /\ cell_at (grid_cells S') "v1" 1 = Some "E"
    /\ state_id S' <> state_id
                        (play [event "INPUT_LETTER" [("letter", PyStr "s")];
                               event "INPUT_LETTER" [("letter", PyStr "e")]]).
Proof.
  destruct (reset_round_trip demo_puzzle demo_env (play [])
              [(event "INPUT_LETTER" [("letter", PyStr "s")], later_env);
               (event "INPUT_LETTER" [("letter", PyStr "e")], later_env)]
              (play [event "INPUT_LETTER" [("letter", PyStr "s")];
                     event "INPUT_LETTER" [("letter", PyStr "e")]])
              [] later_env
              [(event "INPUT_LETTER" [("letter", PyStr "s")], later_env);
               (event "INPUT_LETTER" [("letter", PyStr "e")], later_env)])
    as (R & S' & HR & HS' & Eg & _ & _ & _ & Hne).
  - vm_compute. reflexivity.
  - repeat (apply Forall_cons; split; [reflexivity |]). apply Forall_nil_2.
  - vm_compute. reflexivity.
  - reflexivity.
  - discriminate.
  - exists R, S'. split; [exact HR |]. split; [exact HS' |].
    rewrite Eg. split; [reflexivity |]. split; [reflexivity | exact Hne].
Defined.



(** C10 as stated fails on a payload whose scope [str] does not print:
    after a letter was typed, [SET_ACTIVE_BAR] with the scope [- 10 ** 4300],
    an [int] of 4301 digits, raises [ValueError] and returns no state. *)
Lemma reduce_raises_on_long_int :
  reachable demo_puzzle build_grid_spec
    (play [event "INPUT_LETTER" [("letter", PyStr "q")]])
  /\ reduce (play [event "INPUT_LETTER" [("letter", PyStr "q")]])
            (event "SET_ACTIVE_BAR" [("scope", PyInt (- 10 ^ 4300))])
            build_grid_spec later_env = Raise ValueError
  /\ ~ exists s',
        reduce (play [event "INPUT_LETTER" [("letter", PyStr "q")]])
               (event "SET_ACTIVE_BAR" [("scope", PyInt (- 10 ^ 4300))])
               build_grid_spec later_env = Ok s'.
Proof.
  split; [apply play_reachable |].
  assert (E : reduce (play [event "INPUT_LETTER" [("letter", PyStr "q")]])
                (event "SET_ACTIVE_BAR" [("scope", PyInt (- 10 ^ 4300))])
                build_grid_spec later_env = Raise ValueError)
    by (vm_compute; reflexivity).
  split; [exact E |]. intros [s' H]. rewrite E in H. discriminate.
Qed.

(** * Further properties of the engine *)

(** ** Bars keep their shape *)

Lemma init_state_env p g env env' s :
  init_state p g env = Ok s ->
  exists s', init_state p g env' = Ok s'
             /\ grid_cells s' = grid_cells s /\ hidden_cells s' = hidden_cells s
             /\ puzzle_id s' = puzzle_id s /\ clue_order s' = clue_order s
             /\ active s' = active s.
Proof.
  unfold init_state. intros H.
  apply bind_is_Ok in H as (items & E1 & H). cbv zeta in H.
  apply bind_is_Ok in H as (hc & Eh & H).
  apply bind_is_Ok in H as (refs & E2 & H). cbv zeta in H.
  apply bind_is_Ok in H as (pid & Ep & H).
  rewrite E1, bind_Ok. cbv zeta. rewrite Eh, bind_Ok, E2, bind_Ok. cbv zeta.
  rewrite Ep, bind_Ok.
  injection H as <-. eexists. split; [reflexivity |]. done.
Qed.

Lemma reachable_shape g p s :
  wf_grid g -> reachable p g s ->
  forall env s0,
    init_state p g env = Ok s0 ->
    blank_all (grid_cells s) = grid_cells s0
    /\ blank_all (hidden_cells s) = hidden_cells s0
    /\ puzzle_id s = puzzle_id s0
    /\ clue_order s = clue_order s0.
Proof.
  intros Hwf Hr. induction Hr as [env1 s1 Hi | s1 ev env1 s' Hr IH Hstep];
    intros env s0 H0.
  - destruct (init_state_env p g env1 env s1 Hi) as (s0' & E & Eg & Eh & Ep & Ec & _).
    rewrite H0 in E. injection E as <-.
    destruct (init_state_spec g p env Hwf (init_state_Ok_prints _ _ _ _ H0))
      as (s2 & E2 & _ & _ & Hbg & Hbh & _).
    rewrite H0 in E2. injection E2 as <-.
    rewrite <- Eg, <- Eh, Hbg, Hbh. done.
  - destruct (reachable_inv g p s1 Hwf Hr) as [Hinv _].
    destruct (reduce_shape g s1 ev env1 s' Hwf Hinv Hstep) as (-> & -> & -> & ->).
    by apply IH with env.
Qed.

(** ** The hidden bars of a fresh state *)

Lemma py_str_int_inj i j : py_str (PyInt i) = py_str (PyInt j) -> i = j.
Proof.
  simpl. intros H. apply DecimalZ.to_int_inj.
  assert (Hnn : forall z, Z.to_int z <> Decimal.Pos Decimal.Nil
                          /\ Z.to_int z <> Decimal.Neg Decimal.Nil).
  { intros z. split; intros Hz.
    - assert (z = 0) as -> by (by rewrite <- (DecimalZ.of_to z), Hz). done.
    - assert (z = 0) as -> by (by rewrite <- (DecimalZ.of_to z), Hz). done. }
  destruct (Hnn i), (Hnn j).
  assert (Some (Z.to_int i) = Some (Z.to_int j)) as [= ->]; [| done].
  rewrite <- (NilZero.isi (Z.to_int i)), <- (NilZero.isi (Z.to_int j)) by done.
  by rewrite H.
Qed.

Lemma hidden_bar_id_inj i j : hidden_bar_id i = hidden_bar_id j -> i = j.
Proof. unfold hidden_bar_id. simpl. intros [= H]. by apply py_str_int_inj. Qed.

Lemma fold_dict_set_map {A V} (f : A -> string * V) (l : list A)
    (acc : list (string * V)) :
  fold_left (fun d x => dict_set d (f x).1 (f x).2) l acc
  = fold_left (fun d kv => dict_set d kv.1 kv.2) (map f l) acc.
Proof. revert acc. induction l as [| x l IH]; intros acc; simpl; [done | apply IH]. Qed.

Lemma fst_zip_seqZ {A} (m : Z) (l : list A) :
  map fst (zip (seqZ m (py_len l)) l) = seqZ m (py_len l).
Proof.
  revert m. induction l as [| x l IH]; intros m; [done |].
  rewrite seqZ_cons by (unfold py_len; simpl; lia).
  replace (Z.pred (py_len (x :: l))) with (py_len l) by (unfold py_len; simpl; lia).
  simpl. by rewrite IH.
Qed.

Lemma blank_hidden_cells_items (ws : list pyval) :
  blank_hidden_cells ws =
    map (fun iw : Z * pyval =>
           (hidden_bar_id iw.1,
            blank_cells (Z.of_nat (String.length (py_str iw.2)))))
        (zip (seqZ 1 (py_len ws)) ws).
Proof.
  unfold blank_hidden_cells.
  set (f := fun iw : Z * pyval =>
              (hidden_bar_id iw.1,
               blank_cells (Z.of_nat (String.length (py_str iw.2))))).
  transitivity (fold_left (fun d x => dict_set d (f x).1 (f x).2)
                          (zip (seqZ 1 (py_len ws)) ws) []).
  { generalize (zip (seqZ 1 (py_len ws)) ws).
    generalize (@nil (string * list string)).
    intros acc l. revert acc. induction l as [| [i w] l IH]; intros acc; simpl;
      [done | apply IH]. }
  rewrite fold_dict_set_map. apply (dict_fold_distinct _ []). simpl.
  unfold dict_keys. rewrite map_map. simpl.
  rewrite <- (map_map fst hidden_bar_id), fst_zip_seqZ.
  assert (Hinj : Inj (=) (=) hidden_bar_id)
    by (intros i j; apply hidden_bar_id_inj).
  apply (NoDup_fmap_2 hidden_bar_id), NoDup_seqZ.
Qed.

Lemma clue_order_of_blank_all gc hc :
  clue_order_of (blank_all gc) (blank_all hc) = clue_order_of gc hc.
Proof.
  unfold clue_order_of, blank_all. rewrite !map_map. f_equal;
    apply map_ext; intros [k arr]; simpl; unfold py_len; by rewrite length_map.
Qed.

Lemma init_state_clue_order g p env s0 :
  wf_grid g -> init_state p g env = Ok s0 ->
  clue_order s0 = clue_order_of (grid_cells s0) (hidden_cells s0).
Proof.
  intros Hwf H0.
  destruct (puzzle_prints_true p (init_state_Ok_prints _ _ _ _ H0)) as [Ehc Eid].
  revert H0. unfold init_state.
  set (len_of := fun b => dict_get_or (bar_lengths g) b 0).
  assert (Hlen : forall b, b ∈ GRID_ORDER ->
            dict_get (bar_lengths g) b = Some (len_of b) /\ 1 <= len_of b).
  { intros b Hb. destruct (wf_len g Hwf b Hb) as (n & Hn & Hpos).
    unfold len_of. by rewrite (dict_get_or_Some _ _ n). }
  rewrite (mapM_Ok _ (fun b => (b, blank_cells (len_of b)))).
  2:{ intros b Hb. destruct (Hlen b Hb) as [Hn _].
      by rewrite (dict_item_Some _ _ _ Hn), bind_Ok. }
  rewrite bind_Ok, Ehc, bind_Ok.
  rewrite (mapM_Ok _ (fun b => {| br_scope := ScopeGrid; br_bar_id := b;
                                  br_length := len_of b |})).
  2:{ intros b Hb. destruct (Hlen b Hb) as [Hn _].
      by rewrite (dict_item_Some _ _ _ Hn), bind_Ok. }
  rewrite bind_Ok, Eid, bind_Ok. cbv zeta.
  rewrite dict_of_items_distinct
    by (rewrite dict_keys_tabulate; apply GRID_ORDER_NoDup).
  set (gc := map (fun b => (b, blank_cells (len_of b))) GRID_ORDER).
  set (cg := map (fun b => {| br_scope := ScopeGrid; br_bar_id := b;
                              br_length := len_of b |}) GRID_ORDER).
  assert (Hcg : cg = map (fun '(bid, arr) =>
                            {| br_scope := ScopeGrid; br_bar_id := bid;
                               br_length := py_len arr |}) gc).
  { unfold cg, gc. rewrite map_map. apply map_ext_in. intros b Hb.
    apply list_elem_of_In in Hb. destruct (Hlen b Hb) as [_ Hpos].
    by rewrite py_len_blank_cells by lia. }
  clearbody gc cg. intros [= <-]. unfold clue_order_of. simpl. by rewrite Hcg.
Qed.

Lemma with_index_same a : with_index a (index a) = a.
Proof. by destruct a. Qed.

Lemma on_move_active s step :
  active (_on_move s step) = with_index (active s) (index (active (_on_move s step))).
Proof.
  destruct (on_move_frame s step) as (_ & _ & _ & _ & _ & _ & _ & Es & Eb & Ed).
  destruct (active (_on_move s step)) as [sc b i d]. simpl in *.
  unfold with_index. by rewrite Es, Eb, Ed.
Qed.

Lemma on_move_last_action s step :
  last_action (_on_move s step) =
    match active_cells s with
    | [] => "move:empty"
    | cells =>
        if _clamp (index (active s) + step) 0 (py_len cells - 1) =? index (active s)
        then "move:edge" else "move"
    end.
Proof.
  unfold _on_move. destruct (active_cells s); simpl; [done |].
  by case (Z.eqb_spec _ _).
Qed.

Lemma reduce_move s payload g env :
  reduce s (event "MOVE_NEXT" payload) g env
  = Ok (bump_client_seq payload (_on_move s 1))
  /\ reduce s (event "MOVE_PREV" payload) g env
     = Ok (bump_client_seq payload (_on_move s (-1))).
Proof. split; reflexivity. Qed.

Lemma reduce_reset s payload g env :
  reduce s (event "RESET" payload) g env
  = Ok (bump_client_seq payload (_on_reset s env)).
Proof. reflexivity. Qed.

Lemma move_spec g p s payload step :
  wf_grid g -> reachable p g s ->
  exists arr,
    active_bar s = Some arr
    /\ 0 <= index (active s) <= Z.max 0 (py_len arr - 1)
    /\ grid_cells (bump_client_seq payload (_on_move s step)) = grid_cells s
    /\ hidden_cells (bump_client_seq payload (_on_move s step)) = hidden_cells s
    /\ active (bump_client_seq payload (_on_move s step))
       = with_index (active s)
           (Z.max 0 (Z.min (py_len arr - 1)
                           (match arr with
                            | [] => index (active s)
                            | _ => index (active s) + step
                            end)))
    /\ last_action (bump_client_seq payload (_on_move s step))
       = match arr with
         | [] => "move:empty"
         | _ => if _clamp (index (active s) + step) 0 (py_len arr - 1)
                   =? index (active s)
                then "move:edge" else "move"
         end.
Proof.
  intros Hwf Hr. destruct (reachable_inv g p s Hwf Hr) as [Hinv _].
  destruct (inv_cursor _ _ Hinv) as (arr & Ha & Hrange).
  exists arr. split; [done |]. split; [done |].
  destruct (bump_fields payload (_on_move s step)) as (-> & -> & -> & _).
  destruct (bump_client_seq_frame payload (_on_move s step)) as (_ & -> & _).
  destruct (on_move_frame s step) as (_ & _ & -> & -> & _).
  split; [done |]. split; [done |].
  rewrite on_move_active, on_move_index, on_move_last_action, active_cells_bar, Ha.
  destruct arr as [| c arr]; [| done].
  split; [| done]. f_equal. unfold py_len in *. simpl in *. lia.
Qed.

Lemma on_move_twice_board s p1 k1 k2 :
  board (_on_move (bump_client_seq p1 (_on_move s k1)) k2)
  = board (_on_move (_on_move s k1) k2).
Proof. apply on_move_board, bump_board. Qed.

Lemma move_there_and_back g p s arr k :
  wf_grid g -> reachable p g s -> active_bar s = Some arr ->
  (k = 1 \/ k = -1) ->
  0 <= index (active s) + k <= py_len arr - 1 ->
  board (_on_move (_on_move s k) (- k)) = board s.
Proof.
  intros Hwf Hr Ha Hk Hrange.
  destruct (reachable_inv g p s Hwf Hr) as [Hinv _].
  destruct (inv_cursor _ _ Hinv) as (arr' & Ha' & Hr').
  rewrite Ha in Ha'. injection Ha' as <-.
  assert (Hlen : 1 <= py_len arr) by lia.
  destruct (on_move_frame (_on_move s k) (- k)) as (_ & _ & Eg & Eh & _).
  destruct (on_move_frame s k) as (_ & _ & Eg' & Eh' & _).
  unfold board. rewrite Eg, Eh, Eg', Eh'. f_equal.
  rewrite on_move_active.
  rewrite (on_move_index_nonempty (_on_move s k) (- k) arr)
    by (by rewrite ?on_move_active_bar).
  rewrite (on_move_index_nonempty s k arr) by done.
  rewrite (on_move_active s k). simpl.
  rewrite (on_move_index_nonempty s k arr) by done.
  unfold with_index. simpl.
  replace (_clamp (_clamp (index (active s) + k) 0 (py_len arr - 1) + - k) 0
             (py_len arr - 1)) with (index (active s))
    by (unfold _clamp; lia).
  by destruct (active s).
Qed.

(** X1. Bars never change shape: in every state reachable from
    [init_state], blanking every cell gives back the [grid_cells] and the
    [hidden_cells] of the initial state (the same bar ids, in the same
    order, with the same lengths); [puzzle_id] and [clue_order] are those of
    the initial state. *)
Theorem bars_keep_shape (g : GridSpec) (p : Puzzle) (env : Env)
    (s0 s : GameState) :
  wf_grid g -> init_state p g env = Ok s0 -> reachable p g s ->
  blank_all (grid_cells s) = grid_cells s0
  /\ blank_all (hidden_cells s) = hidden_cells s0
  /\ dict_keys (grid_cells s) = GRID_ORDER
  /\ dict_keys (hidden_cells s) = dict_keys (hidden_cells s0)
  /\ puzzle_id s = puzzle_id s0
  /\ clue_order s = clue_order s0.
Proof.
  intros Hwf H0 Hr.
  destruct (reachable_shape g p s Hwf Hr env s0 H0) as (Eg & Eh & Ep & Ec).
  destruct (reachable_inv g p s Hwf Hr) as [[[Hk _] _ _ _] _].
  rewrite <- Eh, dict_keys_blank_all. done.
Qed.

Lemma bars_keep_shape_witness :
  blank_all (grid_cells
               (play [event "INPUT_LETTER" [("letter", PyStr "x")];
                      event "SET_ACTIVE_BAR" [("scope", PyStr "hidden")];
                      event "INPUT_LETTER" [("letter", PyStr "y")];
                      event "BACKSPACE" []]))
  = grid_cells (play [])
  /\ blank_all (hidden_cells
                  (play [event "INPUT_LETTER" [("letter", PyStr "x")];
                         event "SET_ACTIVE_BAR" [("scope", PyStr "hidden")];
                         event "INPUT_LETTER" [("letter", PyStr "y")];
                         event "BACKSPACE" []]))
     = hidden_cells (play []).
Proof.
  destruct (bars_keep_shape build_grid_spec demo_puzzle demo_env (play [])
              (play [event "INPUT_LETTER" [("letter", PyStr "x")];
                     event "SET_ACTIVE_BAR" [("scope", PyStr "hidden")];
                     event "INPUT_LETTER" [("letter", PyStr "y")];
                     event "BACKSPACE" []]))
    as (Eg & Eh & _).
  - apply build_grid_spec_wf.
  - vm_compute. reflexivity.
  - apply play_reachable.
  - split; [exact Eg | exact Eh].
Defined.

(** X2. The hidden bars of a fresh state: [init_state] makes, for the
    [i]-th hidden answer (counting from 1), the bar [hidden<i>] with
    [len(str(answer))] empty cells, in the order of the answers and with no
    other hidden bar; a puzzle whose hidden answers are missing or empty
    gets the single bar [hidden1] without cells. *)
Theorem init_hidden_bars (g : GridSpec) (p : Puzzle) (env : Env)
    (s0 : GameState) :
  init_state p g env = Ok s0 ->
  (forall ws, answers_hidden p = Some ws -> ws <> [] ->
     hidden_cells s0 =
       map (fun iw : Z * pyval =>
              (hidden_bar_id iw.1,
               replicate (String.length (py_str iw.2)) ""))
           (zip (seqZ 1 (py_len ws)) ws))
  /\ (answers_hidden p = None \/ answers_hidden p = Some [] ->
      hidden_cells s0 = [("hidden1", [])]).
Proof.
  intros H0.
  assert (Hh : hidden_cells s0 = blank_hidden_cells (hidden_answers_of p)).
  { unfold init_state in H0. apply bind_is_Ok in H0 as (items & _ & H0).
    cbv zeta in H0. apply bind_is_Ok in H0 as (hc & Ehc & H0).
    apply bind_is_Ok in H0 as (refs & _ & H0). cbv zeta in H0.
    apply bind_is_Ok in H0 as (pid & _ & H0).
    apply init_hidden_cells_Ok in Ehc as [_ ->]. by injection H0 as <-. }
  rewrite Hh, blank_hidden_cells_items. split.
  - intros ws Hws Hne. unfold hidden_answers_of. rewrite Hws.
    destruct ws as [| w ws]; [done |]. apply map_ext. intros [i w0]. simpl.
    unfold blank_cells. by rewrite Nat2Z.id.
  - intros [Hn | Hn]; unfold hidden_answers_of; rewrite Hn; reflexivity.
Qed.

Lemma init_hidden_bars_witness :
  hidden_cells (play []) = [("hidden1", [""; ""; ""]); ("hidden2", [""; ""; ""])].
Proof.
  destruct (init_hidden_bars build_grid_spec demo_puzzle demo_env (play []))
    as [H _]; [vm_compute; reflexivity |].
  rewrite (H [PyStr "CAT"; PyStr "ACT"]); [reflexivity | reflexivity | discriminate].
Defined.

(** X3. [clue_order] agrees with the bars: in every reachable state it
    lists the grid bars of [grid_cells] in order, then the hidden bars of
    [hidden_cells] in order, each entry carrying its scope, its bar id and
    the current length of that bar. *)
Theorem clue_order_matches_bars (g : GridSpec) (p : Puzzle) (s : GameState) :
  wf_grid g -> reachable p g s ->
  clue_order s = clue_order_of (grid_cells s) (hidden_cells s).
Proof.
  intros Hwf Hr.
  assert (Hinit : exists env s0, init_state p g env = Ok s0).
  { clear -Hr. induction Hr; eauto. }
  destruct Hinit as (env & s0 & H0).
  destruct (reachable_shape g p s Hwf Hr env s0 H0) as (Eg & Eh & _ & ->).
  rewrite (init_state_clue_order g p env s0 Hwf H0), <- Eg, <- Eh.
  apply clue_order_of_blank_all.
Qed.

Lemma clue_order_matches_bars_witness :
  clue_order (play [event "SET_ACTIVE_BAR" [("bar_id", PyStr "v2")];
                    event "INPUT_LETTER" [("letter", PyStr "k")]])
  = clue_order_of
      (grid_cells (play [event "SET_ACTIVE_BAR" [("bar_id", PyStr "v2")];
                         event "INPUT_LETTER" [("letter", PyStr "k")]]))
      (hidden_cells (play [event "SET_ACTIVE_BAR" [("bar_id", PyStr "v2")];
                           event "INPUT_LETTER" [("letter", PyStr "k")]])).
Proof.
  apply (clue_order_matches_bars build_grid_spec demo_puzzle);
    [apply build_grid_spec_wf | apply play_reachable].
Defined.

(** X4. [MOVE_NEXT] and [MOVE_PREV] in a reachable state: both return,
    change no cell, and keep the cursor on its scope, bar and direction; the
    index becomes [index + 1] capped at the last index of the bar, resp.
    [index - 1] floored at 0.  [last_action] is ["move"] when the index
    changed, ["move:edge"] when it did not, and ["move:empty"] on a bar
    without cells. *)
Theorem move_post (g : GridSpec) (p : Puzzle) (s : GameState)
    (payload : Payload) (env : Env) :
  wf_grid g -> reachable p g s ->
  exists arr next prev,
    active_bar s = Some arr
    /\ reduce s (event "MOVE_NEXT" payload) g env = Ok next
    /\ reduce s (event "MOVE_PREV" payload) g env = Ok prev
    /\ grid_cells next = grid_cells s /\ hidden_cells next = hidden_cells s
    /\ grid_cells prev = grid_cells s /\ hidden_cells prev = hidden_cells s
    /\ active next
       = with_index (active s)
           (Z.max 0 (Z.min (py_len arr - 1) (index (active s) + 1)))
    /\ active prev = with_index (active s) (Z.max 0 (index (active s) - 1))
    /\ last_action next
       = match arr with
         | [] => "move:empty"
         | _ => if index (active next) =? index (active s)
                then "move:edge" else "move"
         end
    /\ last_action prev
       = match arr with
         | [] => "move:empty"
         | _ => if index (active prev) =? index (active s)
                then "move:edge" else "move"
         end.
Proof.
  intros Hwf Hr.
  destruct (move_spec g p s payload 1 Hwf Hr)
    as (arr & Ha & Hrange & Eg & Eh & Ea & El).
  destruct (move_spec g p s payload (-1) Hwf Hr)
    as (arr' & Ha' & _ & Eg' & Eh' & Ea' & El').
  rewrite Ha in Ha'. injection Ha' as <-.
  destruct (reduce_move s payload g env) as [-> ->].
  exists arr. eexists. eexists. split; [done |].
  split; [reflexivity |]. split; [reflexivity |].
  do 4 (split; [done |]).
  rewrite Ea, Ea', El, El'. destruct arr as [| c arr].
  - unfold py_len in *. simpl in *.
    repeat split; try done; f_equal; lia.
  - assert (1 <= py_len (c :: arr)) by (unfold py_len; simpl; lia).
    unfold _clamp. simpl index.
    replace (Z.max 0 (Z.min (py_len (c :: arr) - 1) (index (active s) + -1)))
      with (Z.max 0 (index (active s) - 1)) by lia.
    done.
Qed.

Lemma move_post_witness :
  exists next,
    reduce (play [event "SET_ACTIVE_BAR" [("bar_id", PyStr "h2"); ("index", PyInt 6)]])
           (event "MOVE_NEXT" []) build_grid_spec later_env = Ok next
    /\ index (active next) = 6
    /\ last_action next = "move:edge".
Proof.
  destruct (move_post build_grid_spec demo_puzzle
              (play [event "SET_ACTIVE_BAR" [("bar_id", PyStr "h2");
                                             ("index", PyInt 6)]])
              [] later_env build_grid_spec_wf (play_reachable _))
    as (arr & next & prev & Ha & En & _ & _ & _ & _ & _ & Ea & _ & El & _).
  exists next. split; [exact En |].
  vm_compute in Ha. injection Ha as <-.
  rewrite El, Ea. split; reflexivity.
Defined.

(** X5. Moving there and back: in a reachable state whose cursor is not on
    the last cell of its bar, [MOVE_NEXT] followed by [MOVE_PREV] returns to
    a state with the same cells and the same cursor; likewise [MOVE_PREV]
    followed by [MOVE_NEXT] when the cursor is not on the first cell. *)
Theorem move_round_trip (g : GridSpec) (p : Puzzle) (s : GameState)
    (arr : list string) (pl1 pl2 : Payload) (env1 env2 : Env) :
  wf_grid g -> reachable p g s -> active_bar s = Some arr ->
  (index (active s) + 1 <= py_len arr - 1 ->
   exists s2,
     reduce_all s [(event "MOVE_NEXT" pl1, env1); (event "MOVE_PREV" pl2, env2)] g
     = Ok s2
     /\ board s2 = board s)
  /\ (1 <= index (active s) ->
      exists s2,
        reduce_all s [(event "MOVE_PREV" pl1, env1); (event "MOVE_NEXT" pl2, env2)] g
        = Ok s2
        /\ board s2 = board s).
Proof.
  intros Hwf Hr Ha.
  destruct (reachable_inv g p s Hwf Hr) as [Hinv _].
  destruct (inv_cursor _ _ Hinv) as (arr' & Ha' & Hr').
  rewrite Ha in Ha'. injection Ha' as <-.
  split; intros Hpos; cbn [reduce_all].
  - destruct (reduce_move s pl1 g env1) as [-> _]. rewrite bind_Ok.
    destruct (reduce_move (bump_client_seq pl1 (_on_move s 1)) pl2 g env2) as [_ ->].
    rewrite bind_Ok. eexists. split; [reflexivity |].
    rewrite bump_board, on_move_twice_board.
    apply (move_there_and_back g p s arr 1); auto. lia.
  - destruct (reduce_move s pl1 g env1) as [_ ->]. rewrite bind_Ok.
    destruct (reduce_move (bump_client_seq pl1 (_on_move s (-1))) pl2 g env2) as [-> _].
    rewrite bind_Ok. eexists. split; [reflexivity |].
    rewrite bump_board, on_move_twice_board.
    apply (move_there_and_back g p s arr (-1)); auto. lia.
Qed.

Lemma move_round_trip_witness :
  exists s2,
    reduce_all (play [event "INPUT_LETTER" [("letter", PyStr "a")]])
               [(event "MOVE_PREV" [], later_env); (event "MOVE_NEXT" [], later_env)]
               build_grid_spec = Ok s2
    /\ board s2 = board (play [event "INPUT_LETTER" [("letter", PyStr "a")]]).
Proof.
  destruct (move_round_trip build_grid_spec demo_puzzle
              (play [event "INPUT_LETTER" [("letter", PyStr "a")]])
              ["A"; ""; ""; ""; ""; ""; ""] [] [] later_env later_env
              build_grid_spec_wf (play_reachable _)) as [_ H];
    [reflexivity |].
  apply H. vm_compute. discriminate.
Defined.

(** ** Completion *)

Lemma dict_get_of_elem {V} (d : list (string * V)) k v :
  NoDup (dict_keys d) -> (k, v) ∈ d -> dict_get d k = Some v.
Proof.
  unfold dict_keys. induction d as [| [k0 v0] d IH]; simpl.
  - intros _ Hin. by apply elem_of_nil in Hin.
  - intros [Hk Hnd]%NoDup_cons [[= -> ->] | Hin]%elem_of_cons.
    + by destruct (decide (k0 = k0)).
    + destruct (decide (k = k0)) as [-> | Hne]; [| by apply IH].
      exfalso. apply Hk. apply list_elem_of_In, in_map_iff.
      exists (k0, v). split; [done | by apply list_elem_of_In].
Qed.

Lemma forallb_cells (cells : list (string * list string)) :
  forallb (fun '(bid, arr) => forallb (fun ch => negb (String.eqb ch "")) arr)
          cells = true
  <-> forall b arr, (b, arr) ∈ cells -> "" ∉ arr.
Proof.
  rewrite forallb_forall. split.
  - intros H b arr Hin Hempty. apply list_elem_of_In in Hin, Hempty.
    specialize (H _ Hin). simpl in H. rewrite forallb_forall in H.
    specialize (H _ Hempty). done.
  - intros H [b arr] Hin. apply forallb_forall. intros ch Hch.
    destruct (String.eqb_spec ch "") as [-> | Hne]; [| done].
    exfalso. apply (H b arr); by apply list_elem_of_In.
Qed.

Lemma cells_without_empty (cells : list (string * list string)) :
  NoDup (dict_keys cells) ->
  (forall b arr, (b, arr) ∈ cells -> "" ∉ arr)
  <-> forall b i, cell_at cells b i <> Some "".
Proof.
  intros Hnd. split.
  - intros H b i (arr & Hg & _ & Hl)%cell_at_Some.
    apply (H b arr); [by apply dict_get_elem_of | by eapply list_elem_of_lookup_2].
  - intros H b arr Hin [k Hk]%list_elem_of_lookup_1.
    apply (H b (Z.of_nat k)). apply cell_at_Some. exists arr.
    split; [by apply dict_get_of_elem |].
    rewrite Nat2Z.id. split; [| done].
    apply lookup_lt_Some in Hk. unfold py_len. lia.
Qed.

Lemma is_complete_cells s :
  NoDup (dict_keys (grid_cells s)) -> NoDup (dict_keys (hidden_cells s)) ->
  is_complete s = true <-> forall sc b i, state_cell s sc b i <> Some "".
Proof.
  intros Hg Hh. unfold is_complete. rewrite andb_true_iff, !forallb_cells.
  rewrite (cells_without_empty _ Hg), (cells_without_empty _ Hh).
  split.
  - intros [H1 H2] [] b i; simpl; auto.
  - intros H. split; intros b i; [apply (H ScopeGrid) | apply (H ScopeHidden)].
Qed.

Lemma reachable_NoDup g p s :
  wf_grid g -> reachable p g s ->
  NoDup (dict_keys (grid_cells s)) /\ NoDup (dict_keys (hidden_cells s)).
Proof.
  intros Hwf Hr. destruct (reachable_inv g p s Hwf Hr) as [[[Hk _] _ [Hnd _] _] _].
  split; [| done]. rewrite Hk. apply GRID_ORDER_NoDup.
Qed.

Lemma blank_first_cell g s :
  wf_grid g -> grid_shape g (grid_cells s) ->
  blank_all (grid_cells s) = grid_cells s -> is_complete s = false.
Proof.
  intros Hwf Hs Hb.
  assert (Hh1 : "h1" ∈ GRID_ORDER) by (apply elem_of_cons; by left).
  destruct (grid_shape_bar g Hwf _ "h1" Hs Hh1) as (arr & Ha & Hl).
  destruct (is_complete s) eqn:Hc; [| done]. exfalso.
  apply andb_true_iff in Hc as [Hc _]. rewrite forallb_cells in Hc.
  apply (Hc "h1" arr); [by apply dict_get_elem_of |].
  destruct (lookup_lt_is_Some_2 arr 0) as [ch Hch].
  { unfold py_len in Hl. lia. }
  assert (cell_at (grid_cells s) "h1" 0 = Some ch) as Hcell.
  { apply cell_at_Some. exists arr. split; [done |]. split; [lia | done]. }
  rewrite (blank_cell_empty _ _ _ _ Hb Hcell) in Hch.
  by eapply list_elem_of_lookup_2.
Qed.

(** X6. [RESET] in a reachable state returns to the board of a fresh
    [init_state]: the same bars with every cell empty, the cursor at index 0
    of grid bar [h1], and the initial [puzzle_id] and [clue_order]; the
    state gets the identifier and the clock reading of the reset, and
    [last_action] is ["reset"]. *)
Theorem reset_post (g : GridSpec) (p : Puzzle) (s : GameState)
    (payload : Payload) (env env0 : Env) (s0 : GameState) :
  wf_grid g -> reachable p g s -> init_state p g env0 = Ok s0 ->
  exists s',
    reduce s (event "RESET" payload) g env = Ok s'
    /\ grid_cells s' = grid_cells s0 /\ hidden_cells s' = hidden_cells s0
    /\ active s' = active s0
    /\ puzzle_id s' = puzzle_id s0 /\ clue_order s' = clue_order s0
    /\ (forall sc b i ch, state_cell s' sc b i = Some ch -> ch = "")
    /\ state_id s' = uuid4 env /\ start_time s' = time_time env
    /\ last_action s' = "reset".
Proof.
  intros Hwf Hr H0. rewrite reduce_reset. eexists. split; [reflexivity |].
  destruct (reachable_shape g p s Hwf Hr env0 s0 H0) as (Eg & Eh & Ep & Ec).
  destruct (reachable_NoDup g p s Hwf Hr) as [Hng Hnh].
  destruct (on_reset_cells s env Hng Hnh) as [Rg Rh].
  destruct (bump_client_seq_frame payload (_on_reset s env))
    as ((-> & -> & -> & -> & -> & -> & ->) & -> & _).
  rewrite Rg, Rh, Eg, Eh. simpl.
  destruct (init_state_spec g p env0 Hwf (init_state_Ok_prints _ _ _ _ H0))
    as (s1 & E1 & _ & _ & Hbg & Hbh & Ha & _).
  rewrite H0 in E1. injection E1 as <-.
  repeat split; try done.
  destruct (bump_fields payload (_on_reset s env)) as (Bg & Bh & _).
  intros [] b i ch Hc; unfold state_cell in Hc;
    rewrite ?Bg, ?Bh, ?Rg, ?Rh, ?Eg, ?Eh in Hc;
    [exact (blank_cell_empty _ _ _ _ Hbg Hc) | exact (blank_cell_empty _ _ _ _ Hbh Hc)].
Qed.

Lemma reset_post_witness :
  exists s',
    reduce (play [event "INPUT_LETTER" [("letter", PyStr "q")];
                  event "SET_ACTIVE_BAR" [("scope", PyStr "hidden")]])
           (event "RESET" []) build_grid_spec demo_env = Ok s'
    /\ board s' = board (play []).
Proof.
  destruct (reset_post build_grid_spec demo_puzzle
              (play [event "INPUT_LETTER" [("letter", PyStr "q")];
                     event "SET_ACTIVE_BAR" [("scope", PyStr "hidden")]])
              [] demo_env demo_env (play []) build_grid_spec_wf (play_reachable _))
    as (s' & E & Eg & Eh & Ea & _); [vm_compute; reflexivity |].
  exists s'. split; [exact E |]. unfold board. by rewrite Eg, Eh, Ea.
Defined.

(** X7. [is_complete] in a state whose dictionaries have no repeated key
    (as every Python dict): it is true exactly when no cell of any grid bar
    or hidden bar is empty. *)
Theorem is_complete_iff (s : GameState) :
  NoDup (dict_keys (grid_cells s)) -> NoDup (dict_keys (hidden_cells s)) ->
  is_complete s = true <-> forall sc b i, state_cell s sc b i <> Some "".
Proof. apply is_complete_cells. Qed.

Lemma is_complete_iff_witness :
  is_complete (play demo_fill_all) = true
  /\ is_complete (play (demo_fill_all ++ [event "BACKSPACE" []])) = false
  /\ forall sc b i, state_cell (play demo_fill_all) sc b i <> Some "".
Proof.
  split; [vm_compute; reflexivity |]. split; [vm_compute; reflexivity |].
  apply (is_complete_iff (play demo_fill_all)); vm_compute;
    try reflexivity; compute_done.
Defined.

Lemma is_complete_ext s s' :
  grid_cells s' = grid_cells s -> hidden_cells s' = hidden_cells s ->
  is_complete s' = is_complete s.
Proof. unfold is_complete. by intros -> ->. Qed.

Lemma single_capital_nonempty l : single_capital l -> l <> "".
Proof. by intros (c & -> & _). Qed.

Lemma on_input_letter_full g s payload out :
  wf_grid g -> state_inv g s ->
  _on_input_letter s payload g = Ok out ->
  (forall sc b i, state_cell s sc b i <> Some "") ->
  forall sc b i, state_cell out sc b i <> Some "".
Proof.
  intros Hwf Hinv Hout Hfull.
  pose proof (on_input_letter_Ok_prints _ _ _ _ Hout) as Hpr.
  destruct (not_a_letter (payload_letter payload)) eqn:Hl.
  { rewrite on_input_letter_ignored in Hout by done. by injection Hout as <-. }
  assert (Hne : payload_letter payload <> "")
    by (by apply single_capital_nonempty, not_a_letter_iff).
  destruct (scope (active s)) eqn:Hsc.
  - destruct (grid_cursor_on_cell g Hwf s Hinv Hsc) as (arr & Ha & Hr).
    rewrite (on_input_letter_grid g Hwf s payload arr) in Hout;
      try done; [| by apply Hinv].
    injection Hout as <-.
    set (X := with_last_action (with_grid_cells s _) "input:grid").
    destruct (on_move_frame X 1) as (_ & _ & Eg & Eh & _).
    intros [] b i; unfold state_cell; rewrite ?Eg, ?Eh; simpl;
      [| apply (Hfull ScopeHidden)].
    rewrite (cell_at_put_linked g Hwf); [| by apply Hinv |].
    + repeat case_decide; try congruence. apply (Hfull ScopeGrid).
    + apply cell_at_is_Some. eauto.
  - destruct (inv_cursor _ _ Hinv) as (arr & Ha & Hr).
    unfold active_bar in Ha. rewrite Hsc in Ha.
    rewrite (on_input_letter_hidden g s payload arr) in Hout by (done || lia).
    destruct (Z.ltb_spec (index (active s)) (py_len arr));
      injection Hout as <-; [| done].
    set (X := with_last_action (with_hidden_cells s _) "input:hidden").
    destruct (on_move_frame X 1) as (_ & _ & Eg & Eh & _).
    intros [] b i; unfold state_cell; rewrite ?Eg, ?Eh; simpl;
      [apply (Hfull ScopeGrid) |].
    rewrite cell_at_put.
    + case_decide; [congruence | apply (Hfull ScopeHidden)].
    + apply cell_at_is_Some. exists arr. split; [done | lia].
Qed.

(** X8. A fresh game and a reset game are never complete: [is_complete] is
    false on the state [init_state] returns and on the state [RESET] returns
    from any reachable state. *)
Theorem fresh_states_incomplete (g : GridSpec) (p : Puzzle) :
  wf_grid g ->
  (forall env s0, init_state p g env = Ok s0 -> is_complete s0 = false)
  /\ (forall s payload env s',
        reachable p g s ->
        reduce s (event "RESET" payload) g env = Ok s' ->
        is_complete s' = false).
Proof.
  intros Hwf. split.
  - intros env s0 H0.
    destruct (init_state_spec g p env Hwf (init_state_Ok_prints _ _ _ _ H0))
      as (s1 & E1 & Hinv & _ & Hbg & _).
    rewrite H0 in E1. injection E1 as <-.
    apply (blank_first_cell g); [done | apply Hinv | done].
  - intros s payload env s' Hr Hred.
    assert (Hr' : reachable p g s') by (by eapply reach_step).
    destruct (reachable_inv g p s' Hwf Hr') as [Hinv' _].
    apply (blank_first_cell g); [done | apply Hinv' |].
    rewrite reduce_reset in Hred. injection Hred as <-.
    destruct (bump_fields payload (_on_reset s env)) as (-> & _).
    destruct (reachable_NoDup g p s Hwf Hr) as [Hng Hnh].
    destruct (on_reset_cells s env Hng Hnh) as [-> _].
    apply blank_all_idem.
Qed.

Lemma fresh_states_incomplete_witness :
  is_complete (play demo_fill_all) = true
  /\ is_complete (play (demo_fill_all ++ [event "RESET" []])) = false.
Proof.
  split; [vm_compute; reflexivity |].
  destruct (fresh_states_incomplete build_grid_spec demo_puzzle build_grid_spec_wf)
    as [_ H].
  apply (H (play demo_fill_all) [] later_env); [apply play_reachable |].
  vm_compute. reflexivity.
Defined.

(** X9. [BACKSPACE] on a complete board, for a puzzle with its hidden
    answers as [load_puzzle] leaves them: the reduction returns a state that
    is no longer complete. *)
Theorem backspace_uncompletes (g : GridSpec) (p : Puzzle) (s : GameState)
    (payload : Payload) (env : Env) :
  wf_grid g -> puzzle_hidden_ok p = true -> reachable p g s ->
  is_complete s = true ->
  exists s', reduce s (event "BACKSPACE" payload) g env = Ok s'
             /\ is_complete s' = false.
Proof.
  intros Hwf Hp Hr Hc.
  destruct (reachable_inv g p s Hwf Hr) as [Hinv Hne].
  destruct (reachable_NoDup g p s Hwf Hr) as [Hng Hnh].
  destruct (backspace_spec g Hwf s payload env Hinv)
    as (s' & E & _ & _ & _ & _ & Hch).
  exists s'. split; [done |].
  assert (Hr' : reachable p g s') by (by eapply reach_step).
  destruct (reachable_NoDup g p s' Hwf Hr') as [Hng' Hnh'].
  destruct (cursor_valid_of_inv g s Hwf Hinv (Hne Hp)) as (arr & Ha & Hrange).
  destruct (lookup_lt_is_Some_2 arr (Z.to_nat (index (active s)))) as [ch Hl].
  { unfold py_len in Hrange. lia. }
  assert (Hac : active_cell s = Some ch).
  { unfold active_cell, active_bar in *. destruct (scope (active s));
      apply cell_at_Some; exists arr; (split; [done |]); (split; [lia | done]). }
  assert (Hfull := proj1 (is_complete_cells s Hng Hnh) Hc).
  assert (Hnz : ch <> "").
  { intros ->. apply (Hfull (scope (active s)) (bar_id (active s)) (index (active s))).
    unfold active_cell in Hac. unfold state_cell. by destruct (scope (active s)). }
  destruct (Hch ch Hac) as [Hclear _]. destruct (Hclear Hnz) as [_ (Hw & _)].
  destruct (is_complete s') eqn:Hc'; [| done]. exfalso.
  by apply (proj1 (is_complete_cells s' Hng' Hnh') Hc' _ _ _ Hw).
Qed.

Lemma backspace_uncompletes_witness :
  is_complete (play demo_fill_all) = true
  /\ exists s',
       reduce (play demo_fill_all) (event "BACKSPACE" [])
              build_grid_spec later_env = Ok s'
       /\ is_complete s' = false.
Proof.
  split; [vm_compute; reflexivity |].
  apply (backspace_uncompletes build_grid_spec demo_puzzle);
    [apply build_grid_spec_wf | reflexivity | apply play_reachable |
     vm_compute; reflexivity].
Defined.

(** X10. Only [BACKSPACE] and [RESET] empty cells: from a complete
    reachable state, an event of any other type (a typed letter, a move, a
    change of bar, [TICK], an unknown type) returns a complete state. *)
Theorem completion_persists (g : GridSpec) (p : Puzzle) (s : GameState)
    (ev : GridEvent) (env : Env) (s' : GameState) :
  wf_grid g -> reachable p g s -> is_complete s = true ->
  type ev <> "BACKSPACE" -> type ev <> "RESET" ->
  reduce s ev g env = Ok s' ->
  is_complete s' = true.
Proof.
  intros Hwf Hr Hc Hnb Hnr Hred.
  assert (Hr' : reachable p g s') by (by eapply reach_step).
  destruct (reachable_inv g p s Hwf Hr) as [Hinv _].
  destruct (reachable_NoDup g p s Hwf Hr) as [Hng Hnh].
  destruct (reachable_NoDup g p s' Hwf Hr') as [Hng' Hnh'].
  apply reduce_cases in Hred as (out & -> & Hcase).
  destruct (bump_fields (payload ev) out) as (Bg & Bh & _).
  rewrite (is_complete_ext out _ Bg Bh).
  destruct Hcase as [[E H] | [[E ->] | [[E ->] | [[E H] | [[E H] | [[E ->] | [[E ->] | (E & E' & ->)]]]]]]];
    try congruence; try exact Hc.
  - rewrite Bg in Hng'. rewrite Bh in Hnh'.
    apply (is_complete_cells out Hng' Hnh').
    apply (on_input_letter_full g s (payload ev) out Hwf Hinv H).
    by apply (is_complete_cells s Hng Hnh).
  - destruct (on_move_frame s 1) as (_ & _ & Eg & Eh & _).
    by rewrite (is_complete_ext s _ Eg Eh).
  - destruct (on_move_frame s (-1)) as (_ & _ & Eg & Eh & _).
    by rewrite (is_complete_ext s _ Eg Eh).
  - destruct (on_set_active_cells s _ out H) as [Eg Eh].
    by rewrite (is_complete_ext s _ Eg Eh).
Qed.

Lemma completion_persists_witness :
  is_complete (play (demo_fill_all
                     ++ [event "INPUT_LETTER" [("letter", PyStr "z")]])) = true.
Proof.
  apply (completion_persists build_grid_spec demo_puzzle (play demo_fill_all)
           (event "INPUT_LETTER" [("letter", PyStr "z")]) later_env);
    [apply build_grid_spec_wf | apply play_reachable | vm_compute; reflexivity
    | discriminate | discriminate | vm_compute; reflexivity].
Defined.

(** ** The intersection pool *)

Lemma intersections_are_linked b i :
  (b, i) ∈ intersections build_grid_spec ->
  is_Some (dict_get (cross_map build_grid_spec) (b, i)).
Proof.
  intros Hin.
  assert (H : forallb (fun k => dict_contains (cross_map build_grid_spec) k)
                      (intersections build_grid_spec) = true)
    by (vm_compute; reflexivity).
  rewrite forallb_forall in H. apply list_elem_of_In in Hin.
  by apply dict_contains_true, H.
Qed.

(** X11. The intersection pool of a reachable state, under the geometry of
    [build_grid_spec]: [derive_intersection_letters] returns, without
    raising, nine letters; the [k]-th is the cell of the [k]-th canonical
    intersection, read on its horizontal bar, and the cell of the vertical
    bar crossing there holds the same letter. *)
Theorem intersection_pool (p : Puzzle) (s : GameState) :
  reachable p build_grid_spec s ->
  exists letters,
    derive_intersection_letters s build_grid_spec = Ok letters
    /\ length letters = 9%nat
    /\ forall k b i,
         intersections build_grid_spec !! k = Some (b, i) ->
         exists b' i' ch,
           dict_get (cross_map build_grid_spec) (b, i) = Some (b', i')
           /\ letters !! k = Some ch
           /\ cell_at (grid_cells s) b i = Some ch
           /\ cell_at (grid_cells s) b' i' = Some ch.
Proof.
  intros Hr.
  destruct (reachable_inv _ _ _ build_grid_spec_wf Hr) as [[Hg Hs _ _] _].
  set (h := fun k : string * Z =>
              match cell_at (grid_cells s) k.1 k.2 with
              | Some ch => ch
              | None => ""
              end).
  assert (Hpos : forall b i, (b, i) ∈ intersections build_grid_spec ->
            exists b' i' ch,
              dict_get (cross_map build_grid_spec) (b, i) = Some (b', i')
              /\ cell_at (grid_cells s) b i = Some ch
              /\ cell_at (grid_cells s) b' i' = Some ch).
  { intros b i Hin. destruct (intersections_are_linked b i Hin) as [[b' i'] Hx].
    destruct (cross_partner_exists _ build_grid_spec_wf _ _ _ _ _ Hg Hx) as [ch Hch].
    exists b', i', ch. split; [done |]. split; [| done]. by rewrite (Hs _ _ _ _ Hx). }
  exists (map h (intersections build_grid_spec)). split; [| split].
  - unfold derive_intersection_letters. apply mapM_Ok. intros [b i] Hin.
    destruct (Hpos b i Hin) as (b' & i' & ch & _ & Hc & _).
    unfold h. simpl. rewrite Hc.
    apply cell_at_Some in Hc as (arr & Ha & Hrange & Hl).
    rewrite (dict_get_or_Some _ _ arr) by done.
    destruct (list_getitem_in_range arr i Hrange) as (ch' & Hl' & ->). congruence.
  - by rewrite length_map.
  - intros k b i Hk.
    destruct (Hpos b i (list_elem_of_lookup_2 _ _ _ Hk)) as (b' & i' & ch & Hx & Hc & Hc').
    exists b', i', ch. split; [done |]. split; [| done].
    rewrite (list_lookup_fmap h), Hk. simpl. unfold h. simpl. by rewrite Hc.
Qed.

Lemma intersection_pool_witness :
  derive_intersection_letters
    (play [event "SET_ACTIVE_BAR" [("bar_id", PyStr "v2"); ("index", PyInt 3)];
           event "INPUT_LETTER" [("letter", PyStr "m")]])
    build_grid_spec
  = Ok [""; ""; ""; ""; "M"; ""; ""; ""; ""].
Proof.
  destruct (intersection_pool demo_puzzle
              (play [event "SET_ACTIVE_BAR" [("bar_id", PyStr "v2");
                                             ("index", PyInt 3)];
                     event "INPUT_LETTER" [("letter", PyStr "m")]])
              (play_reachable _)) as (letters & E & _).
  rewrite E. vm_compute in E. injection E as <-. reflexivity.
Defined.

(** * The geometry *)

Lemma elem_of_range (n i : Z) : i ∈ range n <-> 0 <= i < n.
Proof. unfold range. rewrite elem_of_seqZ. lia. Qed.

Lemma elem_of_row_major (n r c : Z) :
  (r, c) ∈ row_major n <-> 0 <= r < n /\ 0 <= c < n.
Proof.
  unfold row_major. rewrite list_elem_of_In, in_flat_map. split.
  - intros (r' & Hr & Hc). apply list_elem_of_In in Hr, Hc.
    apply list_elem_of_fmap in Hc as (c' & [= -> ->] & Hc).
    by rewrite <- !elem_of_range.
  - intros [Hr Hc]. exists r. rewrite <- !list_elem_of_In. split.
    + by apply elem_of_range.
    + apply list_elem_of_fmap. exists c. split; [done |].
      by apply elem_of_range.
Qed.

Lemma forallb_elem_of {A} (f : A -> bool) (l : list A) (x : A) :
  forallb f l = true -> x ∈ l -> f x = true.
Proof.
  intros H Hx. rewrite forallb_forall in H. by apply H, list_elem_of_In.
Qed.

Lemma is_playable_in_range (g : GridSpec) (r c : Z) :
  0 <= r < size g -> 0 <= c < size g -> is_playable g (r, c) = mask_at g r c.
Proof.
  intros Hr Hc. unfold is_playable.
  destruct (Z.ltb_spec r 0); [lia |]. destruct (Z.ltb_spec c 0); [lia |].
  destruct (Z.geb_spec r (size g)); [lia |].
  destruct (Z.geb_spec c (size g)); [lia | done].
Qed.

Lemma is_playable_out_of_range (g : GridSpec) (r c : Z) :
  ~ (0 <= r < size g /\ 0 <= c < size g) -> is_playable g (r, c) = Ok false.
Proof.
  intros H. unfold is_playable.
  destruct (Z.ltb_spec r 0); [done |]. destruct (Z.ltb_spec c 0); [done |].
  destruct (Z.geb_spec r (size g)); [done |].
  destruct (Z.geb_spec c (size g)); [done | lia].
Qed.

Lemma bar_cell_Some (g : GridSpec) (b : string) (i : Z) (cell : Cell) :
  bar_cell g b i = Some cell <->
  exists cells, dict_get (bars g) b = Some cells /\ 0 <= i < py_len cells
                /\ cells !! Z.to_nat i = Some cell.
Proof.
  unfold bar_cell. split.
  - destruct (dict_get (bars g) b) as [cells |]; [| done].
    destruct (Z.leb_spec 0 i); [| done]. intros Hc. exists cells.
    split; [done |]. split; [| done].
    apply lookup_lt_Some in Hc. unfold py_len. lia.
  - intros (cells & -> & Hi & H). by destruct (Z.leb_spec 0 i); [| lia].
Qed.

Lemma bar_cell_all_positions (g : GridSpec) (b : string) (i : Z) (cell : Cell) :
  bar_cell g b i = Some cell -> (b, i) ∈ all_positions g.
Proof.
  intros (cells & Hb & Hi & _)%bar_cell_Some.
  unfold all_positions. rewrite list_elem_of_In, in_flat_map.
  exists (b, cells). rewrite <- !list_elem_of_In. split.
  - by apply dict_get_elem_of.
  - apply list_elem_of_fmap. exists i. split; [done |]. by apply elem_of_range.
Qed.

(** Three facts about the geometry of [build_grid_spec], each checked on
    every position or cell. *)
Lemma bar_cells_playable (b : string) (i : Z) (cell : Cell) :
  bar_cell build_grid_spec b i = Some cell ->
  is_playable build_grid_spec cell = Ok true
  /\ exists p0 rest,
      dict_get (cell_to_positions build_grid_spec) cell = Some (p0 :: rest)
      /\ bar_cell build_grid_spec p0.1 p0.2 = Some cell
      /\ dict_get (bar_lengths build_grid_spec) p0.1 = Some 7
      /\ 0 <= p0.2 < 7.
Proof.
  intros H. pose proof (bar_cell_all_positions _ _ _ _ H) as Hin.
  assert (Hall : forallb (fun p : BarPos =>
            match bar_cell build_grid_spec p.1 p.2 with
            | Some cell =>
                match is_playable build_grid_spec cell,
                      dict_get (cell_to_positions build_grid_spec) cell with
                | Ok true, Some (p0 :: _) =>
                    bool_decide (bar_cell build_grid_spec p0.1 p0.2 = Some cell)
                    && bool_decide (dict_get (bar_lengths build_grid_spec) p0.1
                                    = Some 7)
                    && (0 <=? p0.2) && (p0.2 <? 7)
                | _, _ => false
                end
            | None => false
            end) (all_positions build_grid_spec) = true)
    by (vm_compute; reflexivity).
  pose proof (forallb_elem_of _ _ _ Hall Hin) as Hp.
  set (G := build_grid_spec) in *. clearbody G.
  cbv beta in Hp; cbn [fst snd] in Hp.
  rewrite H in Hp.
  destruct (is_playable G cell) as [[] |]; try done.
  destruct (dict_get (cell_to_positions G) cell)
    as [[| p0 rest] |]; try done.
  apply andb_prop in Hp as [[[H1 H2]%andb_prop H3]%andb_prop H4].
  apply bool_decide_eq_true in H1, H2. split; [done |]. exists p0, rest.
  repeat split; try done; lia.
Qed.

Lemma playable_cells_on_bars (r c : Z) :
  is_playable build_grid_spec (r, c) = Ok false
  \/ is_playable build_grid_spec (r, c) = Ok true
     /\ exists b i, bar_cell build_grid_spec b i = Some (r, c).
Proof.
  destruct (decide (0 <= r < size build_grid_spec
                    /\ 0 <= c < size build_grid_spec)) as [Hin | Hout];
    [| left; by apply is_playable_out_of_range].
  apply elem_of_row_major in Hin.
  assert (Hall : forallb (fun cell : Cell =>
            match is_playable build_grid_spec cell with
            | Ok true =>
                match dict_get (cell_to_positions build_grid_spec) cell with
                | Some (p0 :: _) =>
                    bool_decide (bar_cell build_grid_spec p0.1 p0.2 = Some cell)
                | _ => false
                end
            | Ok false => true
            | Raise _ => false
            end) (row_major (size build_grid_spec)) = true)
    by (vm_compute; reflexivity).
  pose proof (forallb_elem_of _ _ _ Hall Hin) as Hp.
  set (G := build_grid_spec) in *. clearbody G.
  cbv beta in Hp; cbn [fst snd] in Hp.
  destruct (is_playable G (r, c)) as [[] |]; try done;
    [| by left].
  right. split; [done |].
  destruct (dict_get (cell_to_positions G) (r, c))
    as [[| p0 rest] |]; try done.
  apply bool_decide_eq_true in Hp. by exists p0.1, p0.2.
Qed.

Lemma cell_to_positions_on_bars (cell : Cell) (l : list BarPos) :
  dict_get (cell_to_positions build_grid_spec) cell = Some l ->
  exists p0 rest, l = p0 :: rest
                  /\ bar_cell build_grid_spec p0.1 p0.2 = Some cell.
Proof.
  intros H%dict_get_elem_of.
  assert (Hall : forallb (fun kv : Cell * list BarPos =>
            match kv.2 with
            | p0 :: _ =>
                bool_decide (bar_cell build_grid_spec p0.1 p0.2 = Some kv.1)
            | [] => false
            end) (cell_to_positions build_grid_spec) = true)
    by (vm_compute; reflexivity).
  pose proof (forallb_elem_of _ _ _ Hall H) as Hp.
  set (G := build_grid_spec) in *. clearbody G.
  cbv beta in Hp; cbn [fst snd] in Hp.
  destruct l as [| p0 rest]; [done |]. apply bool_decide_eq_true in Hp.
  by exists p0, rest.
Qed.

Lemma cross_map_sound (x y : BarPos) :
  dict_get (cross_map build_grid_spec) x = Some y ->
  x <> y /\ exists cell, bar_cell build_grid_spec x.1 x.2 = Some cell
                         /\ bar_cell build_grid_spec y.1 y.2 = Some cell.
Proof.
  intros H%dict_get_elem_of.
  assert (Hall : forallb (fun kv : BarPos * BarPos =>
            bool_decide (kv.1 <> kv.2)
            && match bar_cell build_grid_spec kv.1.1 kv.1.2 with
               | Some cell =>
                   bool_decide (bar_cell build_grid_spec kv.2.1 kv.2.2
                                = Some cell)
               | None => false
               end) (cross_map build_grid_spec) = true)
    by (vm_compute; reflexivity).
  pose proof (forallb_elem_of _ _ _ Hall H) as Hp.
  set (G := build_grid_spec) in *. clearbody G.
  cbv beta in Hp; cbn [fst snd] in Hp.
  apply andb_prop in Hp as [H1 H2]. apply bool_decide_eq_true in H1.
  split; [done |].
  destruct (bar_cell G x.1 x.2) as [cell |]; [| done].
  apply bool_decide_eq_true in H2. by exists cell.
Qed.

Lemma cross_map_complete (x y : BarPos) (cell : Cell) :
  x <> y ->
  bar_cell build_grid_spec x.1 x.2 = Some cell ->
  bar_cell build_grid_spec y.1 y.2 = Some cell ->
  dict_get (cross_map build_grid_spec) x = Some y.
Proof.
  intros Hne Hx Hy.
  assert (Hxin : x ∈ all_positions build_grid_spec).
  { destruct x. by eapply bar_cell_all_positions. }
  assert (Hyin : y ∈ all_positions build_grid_spec).
  { destruct y. by eapply bar_cell_all_positions. }
  assert (Hall : forallb (fun x : BarPos => forallb (fun y : BarPos =>
            bool_decide (x = y)
            || negb (bool_decide (bar_cell build_grid_spec x.1 x.2
                                  = bar_cell build_grid_spec y.1 y.2))
            || bool_decide (dict_get (cross_map build_grid_spec) x = Some y))
            (all_positions build_grid_spec))
            (all_positions build_grid_spec) = true)
    by (vm_compute; reflexivity).
  pose proof (forallb_elem_of _ _ _ Hall Hxin) as Hp.
  set (G := build_grid_spec) in *. clearbody G.
  cbv beta in Hp; cbn [fst snd] in Hp.
  pose proof (forallb_elem_of _ _ _ Hp Hyin) as Hq.
  cbv beta in Hq; cbn [fst snd] in Hq.
  rewrite Hx, Hy in Hq.
  rewrite (bool_decide_eq_false_2 (x = y)) in Hq by done.
  rewrite bool_decide_eq_true_2 in Hq by done. simpl in Hq.
  by apply bool_decide_eq_true in Hq.
Qed.

(** X12. [is_playable] on the geometry of [build_grid_spec]: it returns for
    every pair of integers, negative and too large ones included, and
    answers [True] exactly for the cells of the six bars, which are also
    exactly the keys of [cell_to_positions]. *)
Theorem playable_iff_on_a_bar (r c : Z) :
  exists v, is_playable build_grid_spec (r, c) = Ok v
    /\ (v = true <-> exists b i, bar_cell build_grid_spec b i = Some (r, c))
    /\ (v = dict_contains (cell_to_positions build_grid_spec) (r, c)).
Proof.
  destruct (playable_cells_on_bars r c) as [Hf | (Ht & b & i & Hb)].
  - exists false. split; [done |].
    assert (Hno : forall b i, bar_cell build_grid_spec b i <> Some (r, c)).
    { intros b i Hb. apply bar_cells_playable in Hb as [Hb _]. congruence. }
    split.
    + split; [done |]. intros (b & i & Hb). by destruct (Hno b i).
    + unfold dict_contains.
      destruct (dict_get (cell_to_positions build_grid_spec) (r, c))
        as [l |] eqn:El; [| done].
      apply cell_to_positions_on_bars in El as (p0 & rest & _ & Hp0).
      by destruct (Hno p0.1 p0.2).
  - exists true. split; [done |]. split.
    + split; [| done]. intros _. by exists b, i.
    + apply bar_cells_playable in Hb as (_ & p0 & rest & Hc & _).
      unfold dict_contains. by rewrite Hc.
Qed.

Lemma first_playable_from_spec (g : GridSpec) (cells : list Cell) :
  (forall cell, cell ∈ cells -> is_playable g cell = mask_at g cell.1 cell.2) ->
  match first_playable_from g cells with
  | Found cell =>
      exists pre post, cells = pre ++ cell :: post
        /\ is_playable g cell = Ok true
        /\ forall y, y ∈ pre -> is_playable g y = Ok false
  | Raised e =>
      exists pre cell post, cells = pre ++ cell :: post
        /\ is_playable g cell = Raise e
        /\ forall y, y ∈ pre -> is_playable g y = Ok false
  | NoPlayableCell => forall y, y ∈ cells -> is_playable g y = Ok false
  end.
Proof.
  induction cells as [| [r c] rest IH]; intros Hm; cbn [first_playable_from].
  - intros y Hy. by apply elem_of_nil in Hy.
  - pose proof (Hm (r, c) ltac:(left)) as Hrc. cbn [fst snd] in Hrc.
    assert (Hm' : forall cell, cell ∈ rest ->
                    is_playable g cell = mask_at g cell.1 cell.2).
    { intros cell Hc. apply Hm. by right. }
    specialize (IH Hm').
    destruct (mask_at g r c) as [[] | e].
    + exists [], rest. split; [done |]. split; [done |]. intros y Hy.
      by apply elem_of_nil in Hy.
    + assert (Hcons : forall pre y, (forall z, z ∈ pre -> is_playable g z = Ok false)
                -> y ∈ (r, c) :: pre -> is_playable g y = Ok false).
      { intros pre y Hpre [-> | Hy]%elem_of_cons; [done | by apply Hpre]. }
      destruct (first_playable_from g rest) as [cell | e |].
      * destruct IH as (pre & post & -> & Hc & Hpre).
        exists ((r, c) :: pre), post. split; [done |]. split; [done |].
        intros y. by apply Hcons.
      * destruct IH as (pre & cell & post & -> & Hc & Hpre).
        exists ((r, c) :: pre), cell, post. split; [done |]. split; [done |].
        intros y. by apply Hcons.
      * intros y. by apply Hcons.
    + exists [], (r, c), rest. split; [done |]. split; [done |]. intros y Hy.
      by apply elem_of_nil in Hy.
Qed.

(** X13. [first_playable_cell] on any geometry.  When it returns a cell,
    [is_playable] holds of it and of no cell before it in the row-major
    order of the two loops.  When it ends in [RuntimeError], [is_playable]
    is false of every pair of integers.  Otherwise it passes on the
    exception of a mask that is too short, raised at a cell before which
    no cell is playable. *)
Theorem first_playable_cell_spec (g : GridSpec) :
  match first_playable_cell g with
  | Found cell =>
      exists pre post, row_major (size g) = pre ++ cell :: post
        /\ is_playable g cell = Ok true
        /\ forall y, y ∈ pre -> is_playable g y = Ok false
  | Raised e =>
      exists pre cell post, row_major (size g) = pre ++ cell :: post
        /\ is_playable g cell = Raise e
        /\ forall y, y ∈ pre -> is_playable g y = Ok false
  | NoPlayableCell => forall r c, is_playable g (r, c) = Ok false
  end.
Proof.
  unfold first_playable_cell.
  pose proof (first_playable_from_spec g (row_major (size g))) as H.
  assert (Hm : forall cell, cell ∈ row_major (size g) ->
                 is_playable g cell = mask_at g cell.1 cell.2).
  { intros [r c] [Hr Hc]%elem_of_row_major. by apply is_playable_in_range. }
  specialize (H Hm).
  destruct (first_playable_from g (row_major (size g))); try done.
  intros r c.
  destruct (decide (0 <= r < size g /\ 0 <= c < size g)) as [Hin | Hout].
  - by apply H, elem_of_row_major.
  - by apply is_playable_out_of_range.
Qed.

(** X14. The cross links of [build_grid_spec] are the crossings of the
    bars: [cross_map] sends a position to another one exactly when the two
    are different positions of the same cell. *)
Theorem cross_map_links_shared_cells (b b' : string) (i i' : Z) :
  dict_get (cross_map build_grid_spec) (b, i) = Some (b', i') <->
  (b, i) <> (b', i')
  /\ exists cell, bar_cell build_grid_spec b i = Some cell
                  /\ bar_cell build_grid_spec b' i' = Some cell.
Proof.
  split.
  - intros H. by apply cross_map_sound in H.
  - intros (Hne & cell & Hx & Hy).
    by apply (cross_map_complete (b, i) (b', i') cell).
Qed.

(** * The cell lookups of the user interface *)

(** X15. The letter shown in a cell.  In every reachable state under the
    geometry of [build_grid_spec], [_cell_letter_from_state] returns for
    every pair of integers; the letter it returns is the one held at every
    bar position lying on that cell (both of them at a crossing), and it
    is empty for a cell on no bar. *)
Theorem cell_letter_shows_the_cell (p : Puzzle) (s : GameState) (r c : Z) :
  reachable p build_grid_spec s ->
  exists letter,
    _cell_letter_from_state s build_grid_spec (r, c) = Ok letter
    /\ (forall b i, bar_cell build_grid_spec b i = Some (r, c) ->
                    cell_at (grid_cells s) b i = Some letter)
    /\ ((forall b i, bar_cell build_grid_spec b i <> Some (r, c)) ->
        letter = "").
Proof.
  intros Hr. destruct (reachable_inv _ _ _ build_grid_spec_wf Hr) as [Hinv _].
  destruct Hinv as [[Hkeys Hlen] Hsync _ _].
  unfold _cell_letter_from_state, dict_get_or.
  destruct (dict_get (cell_to_positions build_grid_spec) (r, c))
    as [l |] eqn:El.
  - pose proof (cell_to_positions_on_bars _ _ El) as (p0 & rest & -> & Hp0).
    destruct (bar_cells_playable _ _ _ Hp0)
      as (_ & p0' & rest' & El' & _ & Hlen7 & Hi).
    rewrite El in El'. injection El' as <- <-.
    destruct p0 as [b0 i0]. cbn [fst snd] in *.
    assert (is_Some (dict_get (grid_cells s) b0)) as [arr Harr].
    { apply dict_get_keys. rewrite Hkeys.
      apply bar_cell_Some in Hp0 as (cells & Hc & _).
      apply dict_get_elem_of in Hc.
      assert (Hall : forallb (fun kv : string * list Cell =>
                bool_decide (kv.1 ∈ GRID_ORDER)) (bars build_grid_spec) = true)
        by (vm_compute; reflexivity).
      pose proof (forallb_elem_of _ _ _ Hall Hc) as Hb.
      by apply bool_decide_eq_true in Hb. }
    rewrite Harr. pose proof (Hlen _ _ Harr) as Hl. rewrite Hlen7 in Hl.
    injection Hl as Hl.
    destruct (list_getitem_in_range arr i0) as (x & Hx & Hget); [lia |].
    exists x. split; [done |].
    assert (H0 : cell_at (grid_cells s) b0 i0 = Some x).
    { unfold cell_at. rewrite Harr. by destruct (Z.leb_spec 0 i0); [| lia]. }
    split.
    + intros b i Hb.
      destruct (decide ((b0, i0) = (b, i))) as [[= <- <-] | Hne]; [done |].
      rewrite <- H0. symmetry. apply Hsync.
      by apply (cross_map_complete (b0, i0) (b, i) (r, c)).
    + intros Hno. by destruct (Hno b0 i0).
  - exists "". split; [done |]. split; [| done]. intros b i Hb.
    apply bar_cells_playable in Hb as (_ & p0 & rest & Hc & _). congruence.
Qed.

Lemma cell_letter_shows_the_cell_witness :
  _cell_letter_from_state
    (play [event "SET_ACTIVE_BAR" [("bar_id", PyStr "v2"); ("index", PyInt 3)];
           event "INPUT_LETTER" [("letter", PyStr "m")]])
    build_grid_spec (3, 3)
  = Ok "M".
Proof.
  destruct (cell_letter_shows_the_cell demo_puzzle
              (play [event "SET_ACTIVE_BAR" [("bar_id", PyStr "v2");
                                             ("index", PyInt 3)];
                     event "INPUT_LETTER" [("letter", PyStr "m")]])
              3 3 (play_reachable _)) as (letter & E & _).
  rewrite E. vm_compute in E. injection E as <-. reflexivity.
Defined.

Lemma uint_comma_free (d : Decimal.uint) (c : ascii) :
  In c (list_ascii_of_string (NilEmpty.string_of_uint d)) -> c <> ","%char.
Proof.
  induction d; simpl; try done; intros [<- | H]; try done; by apply IHd.
Qed.

Lemma py_str_int_comma_free (z : Z) (c : ascii) :
  In c (list_ascii_of_string (py_str (PyInt z))) -> c <> ","%char.
Proof.
  simpl. unfold NilZero.string_of_int, NilZero.string_of_uint.
  destruct (Z.to_int z) as [d | d]; simpl.
  - destruct d; try apply uint_comma_free. simpl. by intros [<- | []].
  - intros [<- | H]; [done |]. revert H.
    destruct d; try apply uint_comma_free. simpl. by intros [<- | []].
Qed.

Lemma append_nil_l (s : string) : String.append "" s = s.
Proof. reflexivity. Qed.

Lemma append_cons (c : ascii) (a s : string) :
  String.append (String c a) s = String c (String.append a s).
Proof. reflexivity. Qed.

Lemma split_at_comma (a a' b b' : string) :
  (forall c, In c (list_ascii_of_string a) -> c <> ","%char) ->
  (forall c, In c (list_ascii_of_string a') -> c <> ","%char) ->
  String.append a (String.append "," b) = String.append a' (String.append "," b') ->
  a = a' /\ b = b'.
Proof.
  revert a'. induction a as [| x a IH]; intros [| x' a'] Ha Ha' H;
    rewrite ?append_nil_l, ?append_cons, ?append_nil_l in H; simpl in Ha, Ha'.
  - by injection H as ->.
  - injection H as <- _. by destruct (Ha' ","%char); [left |].
  - injection H as -> _. by destruct (Ha ","%char); [left |].
  - injection H as -> H. destruct (IH a') as [-> ->]; auto.
Qed.

Lemma cell_id_injective (c1 c2 : Cell) : cell_id c1 = cell_id c2 -> c1 = c2.
Proof.
  destruct c1 as [r1 c1], c2 as [r2 c2]. unfold cell_id. cbn [fst snd].
  intros H. apply split_at_comma in H as [Hr Hc];
    try apply py_str_int_comma_free.
  apply py_str_int_inj in Hr, Hc. by subst.
Qed.

(** X16. [cell_id] names each cell once: two cells with the same id are
    the same cell, so the ids can serve as keys on the JavaScript side. *)
Theorem cell_id_inj (c1 c2 : Cell) : cell_id c1 = cell_id c2 -> c1 = c2.
Proof. apply cell_id_injective. Qed.

Lemma cell_id_inj_witness :
  cell_id (3, -5) = "3,-5" /\ (3, -5) = (3, -5).
Proof.
  split; [reflexivity |]. apply (cell_id_inj (3, -5) (3, -5)). reflexivity.
Defined.

(** * The puzzle loader *)

Lemma lstrip_head (s : string) :
  match lstrip s with
  | EmptyString => True
  | String c _ => py_isspace c = false
  end.
Proof.
  induction s as [| c s IH]; simpl; [done |].
  by destruct (py_isspace c) eqn:E.
Qed.

Lemma rstrip_head (s : string) :
  match s with
  | EmptyString => True
  | String c _ => py_isspace c = false
  end ->
  lstrip (rstrip s) = rstrip s.
Proof.
  destruct s as [| c s]; simpl; [done |]. intros Hc.
  destruct (rstrip s); rewrite ?Hc; simpl; by rewrite ?Hc.
Qed.

Lemma rstrip_cons (c : ascii) (s : string) :
  rstrip (String c s)
  = match rstrip s with
    | EmptyString => if py_isspace c then EmptyString else String c EmptyString
    | r => String c r
    end.
Proof. reflexivity. Qed.

Lemma rstrip_idem (s : string) : rstrip (rstrip s) = rstrip s.
Proof.
  induction s as [| c s IH]; simpl; [done |].
  destruct (rstrip s) as [| c' r] eqn:E.
  - destruct (py_isspace c) eqn:Ec; simpl; [done | by rewrite Ec].
  - by rewrite (rstrip_cons c (String c' r)), IH.
Qed.

Lemma strip_idem (s : string) : strip (strip s) = strip s.
Proof.
  unfold strip. rewrite (rstrip_head (lstrip s)) by apply lstrip_head.
  apply rstrip_idem.
Qed.

Lemma capital_facts (c : ascii) :
  puzzle_io.is_capital c = true ->
  upper_ascii c = c /\ py_isspace c = false /\ Ascii.eqb c " " = false.
Proof.
  destruct c as [[] [] [] [] [] [] [] []]; intros H; vm_compute in H;
    try discriminate; by vm_compute.
Qed.

Lemma all_capitals_cons (c : ascii) (s : string) :
  all_capitals (String c s) = true <->
  puzzle_io.is_capital c = true /\ all_capitals s = true.
Proof. unfold all_capitals. simpl. by rewrite andb_true_iff. Qed.

Lemma capitals_upper (s : string) : all_capitals s = true -> upper s = s.
Proof.
  induction s as [| c s IH]; [done |].
  intros [Hc Hs]%all_capitals_cons. simpl.
  destruct (N.eqb_spec (N_of_ascii c) 223) as [E | _].
  { unfold puzzle_io.is_capital in Hc. rewrite E in Hc. discriminate. }
  destruct (capital_facts c Hc) as (-> & _). by rewrite IH.
Qed.

Lemma capitals_rstrip (s : string) : all_capitals s = true -> rstrip s = s.
Proof.
  induction s as [| c s IH]; [done |].
  intros [Hc Hs]%all_capitals_cons. simpl. rewrite (IH Hs).
  destruct (capital_facts c Hc) as (_ & -> & _). by destruct s.
Qed.

Lemma capitals_strip (s : string) : all_capitals s = true -> strip s = s.
Proof.
  intros H. unfold strip.
  assert (lstrip s = s) as ->; [| by apply capitals_rstrip].
  destruct s as [| c s]; [done |]. apply all_capitals_cons in H as [Hc _].
  simpl. by destruct (capital_facts c Hc) as (_ & -> & _).
Qed.

Lemma capitals_without_spaces (s : string) :
  all_capitals s = true -> puzzle_io.without_spaces s = s.
Proof.
  induction s as [| c s IH]; [done |].
  intros [Hc Hs]%all_capitals_cons. simpl.
  destruct (capital_facts c Hc) as (_ & _ & ->). by rewrite IH.
Qed.

Lemma norm_letters_capitals (w : string) :
  all_capitals w = true ->
  puzzle_io._norm_letters (puzzle_io.JVal (PyStr w)) = w.
Proof.
  intros H. unfold puzzle_io._norm_letters. simpl.
  by rewrite (capitals_upper w H), (capitals_strip w H),
    (capitals_without_spaces w H).
Qed.

Lemma loaded_bind_inv {A B} (m : puzzle_io.loaded A)
    (f : A -> puzzle_io.loaded B) (b : B) :
  (m ≫= f) = puzzle_io.Loaded b ->
  exists a, m = puzzle_io.Loaded a /\ f a = puzzle_io.Loaded b.
Proof. destruct m as [a | e]; [eauto | discriminate]. Qed.

Lemma loaded_bind_Failed {A B} (m : puzzle_io.loaded A)
    (f : A -> puzzle_io.loaded B) (e : puzzle_io.load_exn) :
  (m ≫= f) = puzzle_io.Failed e ->
  m = puzzle_io.Failed e
  \/ exists a, m = puzzle_io.Loaded a /\ f a = puzzle_io.Failed e.
Proof.
  destruct m as [a | e']; [right; eauto |]. intros [= <-]. by left.
Qed.

Lemma loaded_bind_Loaded {A B} (a : A) (f : A -> puzzle_io.loaded B) :
  (puzzle_io.Loaded a ≫= f) = f a.
Proof. reflexivity. Qed.

Lemma mapM_Loaded {A B} (f : A -> puzzle_io.loaded B) (h : A -> B)
    (l : list A) :
  (forall x, x ∈ l -> f x = puzzle_io.Loaded (h x)) ->
  mapM f l = puzzle_io.Loaded (map h l).
Proof.
  induction l as [| x l IH]; intros Hf; simpl; [done |].
  rewrite (Hf x) by (apply elem_of_cons; by left). rewrite loaded_bind_Loaded.
  rewrite IH; [done |]. intros y Hy. apply Hf. apply elem_of_cons. by right.
Qed.

Lemma mapM_Loaded_inv {A B} (f : A -> puzzle_io.loaded B) (l : list A)
    (ys : list B) :
  mapM f l = puzzle_io.Loaded ys ->
  Forall2 (fun x y => f x = puzzle_io.Loaded y) l ys.
Proof.
  revert ys. induction l as [| x l IH]; intros ys; simpl.
  - intros [= <-]. constructor.
  - intros (y & Hy & H)%loaded_bind_inv.
    apply loaded_bind_inv in H as (k & Hk & [= <-]).
    constructor; [done | by apply IH].
Qed.

Lemma mapM_Loaded_elem {A B} (f : A -> puzzle_io.loaded B) (l : list A)
    (ys : list B) (x : A) :
  mapM f l = puzzle_io.Loaded ys -> x ∈ l ->
  exists y, f x = puzzle_io.Loaded y.
Proof.
  intros H%mapM_Loaded_inv Hx.
  induction H as [| x' y l ys Hxy _ IH]; [by apply elem_of_nil in Hx |].
  apply elem_of_cons in Hx as [-> | Hx]; [by exists y | by apply IH].
Qed.

Lemma mapM_Loaded_map {A B} (f : A -> puzzle_io.loaded B) (h : A -> B)
    (l : list A) (ys : list B) :
  (forall x y, x ∈ l -> f x = puzzle_io.Loaded y -> y = h x) ->
  mapM f l = puzzle_io.Loaded ys -> ys = map h l.
Proof.
  intros Hh H%mapM_Loaded_inv.
  induction H as [| x y l ys Hxy _ IH]; [done |]. simpl.
  rewrite (Hh x y) by (done || by left). f_equal. apply IH.
  intros x' y' Hx'. apply Hh. by right.
Qed.

Lemma mapM_Failed_inv {A B} (f : A -> puzzle_io.loaded B) (l : list A)
    (e : puzzle_io.load_exn) :
  mapM f l = puzzle_io.Failed e ->
  exists x, x ∈ l /\ f x = puzzle_io.Failed e.
Proof.
  induction l as [| x l IH]; simpl; [done |].
  intros [H | (y & Hy & H)]%loaded_bind_Failed.
  - exists x. split; [by left | done].
  - apply loaded_bind_Failed in H as [H | (k & _ & H)]; [| done].
    destruct (IH H) as (x' & Hx' & Hf). exists x'. split; [by right | done].
Qed.

Lemma raise_if_inv {A} (c : bool) (a a' : A) :
  puzzle_io.raise_if c a = puzzle_io.Loaded a' -> c = false /\ a' = a.
Proof. unfold puzzle_io.raise_if. destruct c; [done |]. by intros [= <-]. Qed.

Lemma raise_if_Failed {A} (c : bool) (a : A) (e : puzzle_io.load_exn) :
  puzzle_io.raise_if c a = puzzle_io.Failed e ->
  e = puzzle_io.PuzzleValidationError.
Proof. unfold puzzle_io.raise_if. destruct c; [| done]. by intros [= <-]. Qed.

Lemma validate_letters_only_inv (s : string) (u : unit) :
  puzzle_io._validate_letters_only s = puzzle_io.Loaded u ->
  all_capitals s = true.
Proof.
  unfold puzzle_io._validate_letters_only, all_capitals.
  by destruct (forallb _ _).
Qed.

Lemma validate_letters_only_Failed (s : string) (e : puzzle_io.load_exn) :
  puzzle_io._validate_letters_only s = puzzle_io.Failed e ->
  e = puzzle_io.PuzzleValidationError.
Proof.
  unfold puzzle_io._validate_letters_only.
  destruct (forallb _ _); [done |]. by intros [= <-].
Qed.

Lemma get_dict (fields : list (string * puzzle_io.json)) s k dflt :
  puzzle_io.get (puzzle_io.JDict fields s) k dflt
  = puzzle_io.Loaded (dict_get_or fields k dflt).
Proof. reflexivity. Qed.

Lemma loaded_fmap_Loaded {A B} (g : A -> B) (a : A) :
  g <$> puzzle_io.Loaded a = puzzle_io.Loaded (g a).
Proof. reflexivity. Qed.

Lemma get_Loaded_inv x k dflt y :
  puzzle_io.get x k dflt = puzzle_io.Loaded y ->
  exists fields s, x = puzzle_io.JDict fields s.
Proof. destruct x as [v | items s | fields s]; try done. eauto. Qed.

Lemma required_grid_NoDup : NoDup puzzle_io.required_grid.
Proof. compute_done. Qed.

Lemma dict_of_grid_and_hidden {V} (F : string -> V) (v : V) :
  dict_set (dict_of_items (map (fun b => (b, F b)) puzzle_io.required_grid))
           "hidden" v
  = map (fun b => (b, F b)) puzzle_io.required_grid ++ [("hidden", v)].
Proof.
  rewrite dict_of_items_distinct
    by (rewrite dict_keys_tabulate; apply required_grid_NoDup).
  apply dict_set_absent. rewrite dict_get_tabulate.
  destruct (decide ("hidden" ∈ puzzle_io.required_grid)) as [Hin |]; [| done].
  exfalso. revert Hin. compute_done.
Qed.

Lemma dict_get_or_is (x : list (string * puzzle_io.json)) (k : string) hw hws sh :
  dict_get_or x k (puzzle_io.JVal PyNone) = puzzle_io.JList (hw :: hws) sh ->
  dict_get x k = Some (puzzle_io.JList (hw :: hws) sh).
Proof. unfold dict_get_or. destruct (dict_get x k); [congruence | done]. Qed.

(** What a call of [load_puzzle] that returns has checked, and what it
    returns. *)
Lemma load_puzzle_Loaded_inv raw path grid P :
  puzzle_io.load_puzzle raw path grid = puzzle_io.Loaded P ->
  exists fields s afields sa cfields sc hiddens sh hcs shc,
    raw = puzzle_io.JDict fields s
    /\ strip (puzzle_io.json_str
                (dict_get_or fields "schema_version" (puzzle_io.JVal (PyStr ""))))
       = "puzzlefile.v2"
    /\ puzzle_io.or_empty_dict (dict_get_or fields "answers" puzzle_io.empty_dict)
       = puzzle_io.JDict afields sa
    /\ puzzle_io.or_empty_dict (dict_get_or fields "clues" puzzle_io.empty_dict)
       = puzzle_io.JDict cfields sc
    /\ (forall b, b ∈ puzzle_io.required_grid ->
          exists a,
            dict_get afields b = Some a
            /\ puzzle_io._norm_letters a <> ""
            /\ all_capitals (puzzle_io._norm_letters a) = true
            /\ dict_get (bar_lengths grid) b
               = Some (Z.of_nat (String.length (puzzle_io._norm_letters a)))
            /\ strip (puzzle_io.json_str
                        (dict_get_or cfields b (puzzle_io.JVal (PyStr ""))))
               <> "")
    /\ dict_get afields "hidden" = Some (puzzle_io.JList hiddens sh)
    /\ (length hiddens = 1 \/ length hiddens = 2)%nat
    /\ (forall h, h ∈ hiddens ->
          puzzle_io._norm_letters h <> ""
          /\ all_capitals (puzzle_io._norm_letters h) = true)
    /\ dict_get cfields "hidden" = Some (puzzle_io.JList hcs shc)
    /\ length hcs = length hiddens
    /\ P = {| puzzle_io.schema_version := "puzzlefile.v2";
              puzzle_io.meta :=
                puzzle_io.or_empty_dict
                  (dict_get_or fields "meta" puzzle_io.empty_dict);
              puzzle_io.answers :=
                map (fun b => (b, puzzle_io.Word
                                    (puzzle_io._norm_letters
                                       (dict_get_or afields b
                                          (puzzle_io.JVal (PyStr ""))))))
                    puzzle_io.required_grid
                ++ [("hidden",
                     puzzle_io.Words (map puzzle_io._norm_letters hiddens))];
              puzzle_io.clues :=
                map (fun b => (b, puzzle_io.Word
                                    (strip (puzzle_io.json_str
                                              (dict_get_or cfields b
                                                 (puzzle_io.JVal (PyStr "")))))))
                    puzzle_io.required_grid
                ++ [("hidden",
                     puzzle_io.Words
                       (map (fun x => strip (puzzle_io.json_str x)) hcs))];
              puzzle_io.filename := puzzle_io.basename path |}.
Proof.
  unfold puzzle_io.load_puzzle. intros H.
  apply loaded_bind_inv in H as (sv & Hsv & H).
  destruct (get_Loaded_inv _ _ _ _ Hsv) as (fields & s & ->).
  rewrite get_dict in Hsv. injection Hsv as <-. cbv zeta in H.
  rewrite !get_dict, !loaded_fmap_Loaded in H.
  apply loaded_bind_inv in H as ([] & Hschema & H).
  apply raise_if_inv in Hschema as [Hschema _].
  apply negb_false_iff, String.eqb_eq in Hschema.
  rewrite !loaded_bind_Loaded in H.
  set (ar := puzzle_io.or_empty_dict
               (dict_get_or fields "answers" puzzle_io.empty_dict)) in *.
  set (cr := puzzle_io.or_empty_dict
               (dict_get_or fields "clues" puzzle_io.empty_dict)) in *.
  apply loaded_bind_inv in H as (present & Hpresent & H).
  apply loaded_bind_inv in H as ([] & Hmissing & H).
  apply raise_if_inv in Hmissing as [Hmissing _].
  apply negb_false_iff in Hmissing.
  apply loaded_bind_inv in H as (checked & Hchecked & H).
  assert (exists afields sa, ar = puzzle_io.JDict afields sa)
    as (afields & sa &Ear).
  { destruct (mapM_Loaded_elem _ _ _ "h1" Hchecked) as (y & Hy);
      [compute_done |].
    apply loaded_bind_inv in Hy as (ans & Hans & _).
    destruct (puzzle_io.get ar "h1" (puzzle_io.JVal (PyStr ""))) eqn:Eg;
      [| done].
    by eapply get_Loaded_inv. }
  pose proof (eq_refl : ar = puzzle_io.or_empty_dict
                             (dict_get_or fields "answers" puzzle_io.empty_dict))
    as Har.
  clearbody ar. subst ar.
  apply (mapM_Loaded_map _ (dict_contains afields)) in Hpresent;
    [| by intros b y _ [= <-]].
  subst present.
  assert (Hin : forall b, b ∈ puzzle_io.required_grid ->
                  is_Some (dict_get afields b)).
  { intros b Hb. apply dict_contains_true.
    rewrite forallb_forall in Hmissing.
    apply (Hmissing (dict_contains afields b)), in_map, list_elem_of_In, Hb. }
  rewrite get_dict, loaded_bind_Loaded in H.
  destruct (dict_get_or afields "hidden" (puzzle_io.JVal PyNone))
    as [v | [| hw hws] sh | hf sh] eqn:Eh; try done.
  apply dict_get_or_is in Eh.
  apply loaded_bind_inv in H as ([] & Hlen & H).
  apply raise_if_inv in Hlen as [Hlen _]. apply negb_false_iff in Hlen.
  apply loaded_bind_inv in H as (hidden_norm & Hhidden & H).
  apply loaded_bind_inv in H as (clues_checked & Hclues & H).
  assert (exists cfields sc, cr = puzzle_io.JDict cfields sc)
    as (cfields & sc & Ecr).
  { destruct (mapM_Loaded_elem _ _ _ "h1" Hclues) as (y & Hy);
      [compute_done |].
    apply loaded_bind_inv in Hy as (clue & Hclue & _).
    destruct (puzzle_io.get cr "h1" (puzzle_io.JVal (PyStr ""))) eqn:Eg;
      [| done].
    by eapply get_Loaded_inv. }
  pose proof (eq_refl : cr = puzzle_io.or_empty_dict
                             (dict_get_or fields "clues" puzzle_io.empty_dict))
    as Hcr.
  clearbody cr. subst cr.
  rewrite get_dict, loaded_bind_Loaded in H.
  destruct (dict_get_or cfields "hidden" (puzzle_io.JVal PyNone))
    as [v | hcs shc | hf shc] eqn:Ehc; try done.
  assert (Ehc' : dict_get cfields "hidden" = Some (puzzle_io.JList hcs shc)).
  { revert Ehc. unfold dict_get_or.
    destruct (dict_get cfields "hidden"); [congruence | done]. }
  apply loaded_bind_inv in H as ([] & Hlenc & H).
  apply raise_if_inv in Hlenc as [Hlenc _].
  apply negb_false_iff, Z.eqb_eq in Hlenc.
  assert (Hhn : hidden_norm = map puzzle_io._norm_letters (hw :: hws)).
  { apply (mapM_Loaded_map _ puzzle_io._norm_letters) in Hhidden; [done |].
    intros x y _ Hy. cbv zeta in Hy.
    apply loaded_bind_inv in Hy as ([] & _ & Hy).
    apply loaded_bind_inv in Hy as ([] & _ & Hy). by injection Hy as <-. }
  apply loaded_bind_inv in H as (answers_grid & Hag & H).
  apply (mapM_Loaded_map _
           (fun b => (b, puzzle_io.Word
                           (puzzle_io._norm_letters
                              (dict_get_or afields b (puzzle_io.JVal (PyStr ""))))))) in Hag.
  2:{ intros b y Hb Hy. apply loaded_bind_inv in Hy as (a & Ha & [= <-]).
      simpl in Ha. unfold dict_get_or.
      destruct (dict_get afields b); [by injection Ha as -> | done]. }
  apply loaded_bind_inv in H as (clues_grid & Hcg & H).
  apply (mapM_Loaded_map _
           (fun b => (b, puzzle_io.Word
                           (strip (puzzle_io.json_str
                                     (dict_get_or cfields b
                                        (puzzle_io.JVal (PyStr ""))))))))
    in Hcg.
  2:{ intros b y Hb Hy. rewrite get_dict, loaded_bind_Loaded in Hy.
      by injection Hy as <-. }
  subst answers_grid clues_grid hidden_norm. injection H as <-.
  exists fields, s, afields, sa, cfields, sc, (hw :: hws), sh, hcs, shc.
  split; [done |]. split; [done |]. split; [done |]. split; [done |].
  split.
  { intros b Hb. destruct (Hin b Hb) as [a Ha]. exists a. split; [done |].
    destruct (mapM_Loaded_elem _ _ _ b Hchecked Hb) as ([] & Hy).
    rewrite get_dict, loaded_fmap_Loaded, loaded_bind_Loaded in Hy.
    rewrite (dict_get_or_Some _ _ a) in Hy by done.
    apply loaded_bind_inv in Hy as ([] & Hne & Hy).
    apply raise_if_inv in Hne as [Hne _]. apply String.eqb_neq in Hne.
    apply loaded_bind_inv in Hy as ([] & Hcap & Hy).
    apply validate_letters_only_inv in Hcap.
    apply loaded_bind_inv in Hy as (n & Hn & Hy).
    apply raise_if_inv in Hy as [Hy _]. apply negb_false_iff, Z.eqb_eq in Hy.
    unfold puzzle_io._get_required_grid_len in Hn.
    destruct (dict_get (bar_lengths grid) b) as [n' |] eqn:En; [| done].
    injection Hn as ->. subst n. split; [done |]. split; [done |].
    split; [done |].
    destruct (mapM_Loaded_elem _ _ _ b Hclues Hb) as ([] & Hc).
    rewrite get_dict, loaded_fmap_Loaded, loaded_bind_Loaded in Hc.
    apply raise_if_inv in Hc as [Hc _]. by apply String.eqb_neq in Hc. }
  split; [done |]. split.
  { unfold py_len in Hlen. apply orb_true_iff in Hlen as [H1 | H2].
    - left. apply Z.eqb_eq in H1. lia.
    - right. apply Z.eqb_eq in H2. lia. }
  split.
  { intros h Hh. destruct (mapM_Loaded_elem _ _ _ h Hhidden Hh) as (y & Hy).
    cbv zeta in Hy.
    apply loaded_bind_inv in Hy as ([] & Hne & Hy).
    apply raise_if_inv in Hne as [Hne _]. apply String.eqb_neq in Hne.
    apply loaded_bind_inv in Hy as ([] & Hcap & Hy).
    by apply validate_letters_only_inv in Hcap. }
  split; [done |]. split.
  { unfold py_len in Hlenc. rewrite length_map in Hlenc. lia. }
  by rewrite Hschema.
Qed.

Lemma raise_if_false {A} (a : A) :
  puzzle_io.raise_if false a = puzzle_io.Loaded a.
Proof. reflexivity. Qed.

Lemma forallb_id_map {A} (f : A -> bool) (l : list A) :
  (forall x, x ∈ l -> f x = true) -> forallb id (map f l) = true.
Proof.
  intros H. apply forallb_forall. intros y (x & <- & Hx)%in_map_iff.
  by apply H, list_elem_of_In.
Qed.

(** The converse: what passes the checks is loaded. *)
Lemma load_puzzle_Loaded_intro fields s afields sa cfields sc hiddens sh hcs shc
    path grid :
  strip (puzzle_io.json_str
           (dict_get_or fields "schema_version" (puzzle_io.JVal (PyStr ""))))
  = "puzzlefile.v2" ->
  puzzle_io.or_empty_dict (dict_get_or fields "answers" puzzle_io.empty_dict)
  = puzzle_io.JDict afields sa ->
  puzzle_io.or_empty_dict (dict_get_or fields "clues" puzzle_io.empty_dict)
  = puzzle_io.JDict cfields sc ->
  (forall b, b ∈ puzzle_io.required_grid ->
     exists a,
       dict_get afields b = Some a
       /\ puzzle_io._norm_letters a <> ""
       /\ all_capitals (puzzle_io._norm_letters a) = true
       /\ dict_get (bar_lengths grid) b
          = Some (Z.of_nat (String.length (puzzle_io._norm_letters a)))
       /\ strip (puzzle_io.json_str
                   (dict_get_or cfields b (puzzle_io.JVal (PyStr ""))))
          <> "") ->
  dict_get afields "hidden" = Some (puzzle_io.JList hiddens sh) ->
  (length hiddens = 1 \/ length hiddens = 2)%nat ->
  (forall h, h ∈ hiddens ->
     puzzle_io._norm_letters h <> ""
     /\ all_capitals (puzzle_io._norm_letters h) = true) ->
  dict_get cfields "hidden" = Some (puzzle_io.JList hcs shc) ->
  length hcs = length hiddens ->
  puzzle_io.load_puzzle (puzzle_io.JDict fields s) path grid
  = puzzle_io.Loaded
      {| puzzle_io.schema_version := "puzzlefile.v2";
         puzzle_io.meta :=
           puzzle_io.or_empty_dict
             (dict_get_or fields "meta" puzzle_io.empty_dict);
         puzzle_io.answers :=
           map (fun b => (b, puzzle_io.Word
                               (puzzle_io._norm_letters
                                  (dict_get_or afields b
                                     (puzzle_io.JVal (PyStr ""))))))
               puzzle_io.required_grid
           ++ [("hidden",
                puzzle_io.Words (map puzzle_io._norm_letters hiddens))];
         puzzle_io.clues :=
           map (fun b => (b, puzzle_io.Word
                               (strip (puzzle_io.json_str
                                         (dict_get_or cfields b
                                            (puzzle_io.JVal (PyStr "")))))))
               puzzle_io.required_grid
           ++ [("hidden",
                puzzle_io.Words
                  (map (fun x => strip (puzzle_io.json_str x)) hcs))];
         puzzle_io.filename := puzzle_io.basename path |}.
Proof.
  intros Hschema Ear Ecr Hgrid Eh Hlen Hhid Ehc Hlenc.
  unfold puzzle_io.load_puzzle.
  rewrite !get_dict, !loaded_fmap_Loaded, !loaded_bind_Loaded. cbv zeta.
  rewrite Hschema, String.eqb_refl. cbn [negb].
  rewrite raise_if_false, !loaded_bind_Loaded, Ear, Ecr.
  rewrite (mapM_Loaded _ (dict_contains afields)) by done.
  rewrite loaded_bind_Loaded, forallb_id_map.
  2:{ intros b Hb. destruct (Hgrid b Hb) as (a & Ha & _).
      apply dict_contains_true. by rewrite Ha. }
  cbn [negb]. rewrite raise_if_false, loaded_bind_Loaded.
  do 2 (rewrite (mapM_Loaded _ (fun _ => tt));
        [| intros b Hb;
           destruct (Hgrid b Hb) as (a & Ha & Hne & Hcap & Hn & Hc);
           rewrite get_dict, loaded_fmap_Loaded, loaded_bind_Loaded;
           first
             [ apply String.eqb_neq in Hc; by rewrite Hc
             | rewrite (dict_get_or_Some _ _ a) by done;
               apply String.eqb_neq in Hne;
               rewrite Hne, raise_if_false, loaded_bind_Loaded;
               unfold puzzle_io._validate_letters_only;
               unfold all_capitals in Hcap; rewrite Hcap, loaded_bind_Loaded;
               unfold puzzle_io._get_required_grid_len;
               rewrite Hn, loaded_bind_Loaded; by rewrite Z.eqb_refl ]]).
  rewrite (mapM_Loaded
             (fun bid => c ← puzzle_io.get (puzzle_io.JDict cfields sc) bid
                                           (puzzle_io.JVal (PyStr ""));
                         puzzle_io.Loaded
                           (bid, puzzle_io.Word (strip (puzzle_io.json_str c))))
             (fun b => (b, puzzle_io.Word
                             (strip (puzzle_io.json_str
                                       (dict_get_or cfields b
                                          (puzzle_io.JVal (PyStr ""))))))))
    by (intros b _; by rewrite get_dict, loaded_bind_Loaded).
  rewrite (mapM_Loaded _
             (fun b => (b, puzzle_io.Word
                             (puzzle_io._norm_letters
                                (dict_get_or afields b
                                   (puzzle_io.JVal (PyStr ""))))))).
  2:{ intros b Hb. destruct (Hgrid b Hb) as (a & Ha & _).
      unfold puzzle_io.item. rewrite Ha, loaded_bind_Loaded.
      by rewrite (dict_get_or_Some _ _ a). }
  rewrite ?get_dict, ?loaded_bind_Loaded.
  rewrite (dict_get_or_Some _ _ _ _ Eh).
  destruct hiddens as [| hw hws]; [simpl in Hlen; lia |].
  assert (Hl : ((py_len (hw :: hws) =? 1) || (py_len (hw :: hws) =? 2)) = true).
  { unfold py_len. apply orb_true_iff.
    destruct Hlen as [-> | ->]; [left | right]; done. }
  rewrite Hl. cbn [negb]. rewrite raise_if_false, ?loaded_bind_Loaded.
  rewrite (mapM_Loaded _ puzzle_io._norm_letters).
  2:{ intros h Hh. destruct (Hhid h Hh) as [Hne Hcap]. cbv zeta.
      apply String.eqb_neq in Hne. rewrite Hne, raise_if_false, loaded_bind_Loaded.
      unfold puzzle_io._validate_letters_only. unfold all_capitals in Hcap.
      by rewrite Hcap, loaded_bind_Loaded. }
  rewrite ?loaded_bind_Loaded.
  rewrite (dict_get_or_Some _ _ _ _ Ehc).
  assert (Hlc : (py_len hcs =? py_len (map puzzle_io._norm_letters (hw :: hws)))
                = true).
  { apply Z.eqb_eq. unfold py_len. rewrite length_map. lia. }
  rewrite Hlc. cbn [negb]. rewrite raise_if_false, ?loaded_bind_Loaded.
  rewrite (dict_of_grid_and_hidden
             (fun b => puzzle_io.Word
                         (puzzle_io._norm_letters
                            (dict_get_or afields b (puzzle_io.JVal (PyStr "")))))).
  by rewrite (dict_of_grid_and_hidden
                (fun b => puzzle_io.Word
                            (strip (puzzle_io.json_str
                                      (dict_get_or cfields b
                                         (puzzle_io.JVal (PyStr ""))))))).
Qed.

Lemma dict_get_grid_row {V} (F : string -> V) (v : V) (b : string) :
  b ∈ puzzle_io.required_grid ->
  dict_get (map (fun b => (b, F b)) puzzle_io.required_grid ++ [("hidden", v)]) b
  = Some (F b).
Proof.
  intros Hb. unfold puzzle_io.required_grid in Hb.
  repeat (apply elem_of_cons in Hb as [-> | Hb]); try reflexivity.
  by apply elem_of_nil in Hb.
Qed.

Lemma dict_get_grid_hidden {V} (F : string -> V) (v : V) :
  dict_get (map (fun b => (b, F b)) puzzle_io.required_grid ++ [("hidden", v)])
           "hidden"
  = Some v.
Proof. reflexivity. Qed.

(** X17. What [load_puzzle] returns, whenever it returns.  The schema
    version is [puzzlefile.v2] and the file name is the base name of the
    path.  [answers] and [clues] have the six grid bars and then [hidden]
    as keys.  Each grid answer is a non-empty word of capitals [A]..[Z]
    whose length is the length the geometry gives the bar, and each grid
    clue is a non-empty string without white space at either end.  The
    hidden answers are one or two non-empty words of capitals, with as
    many hidden clues, each without white space at either end. *)
Theorem loaded_puzzle_is_valid (raw : puzzle_io.json) (path : string)
    (grid : GridSpec) (P : puzzle_io.Puzzle) :
  puzzle_io.load_puzzle raw path grid = puzzle_io.Loaded P ->
  puzzle_io.schema_version P = "puzzlefile.v2"
  /\ puzzle_io.filename P = puzzle_io.basename path
  /\ dict_keys (puzzle_io.answers P) = GRID_ORDER ++ ["hidden"]
  /\ dict_keys (puzzle_io.clues P) = GRID_ORDER ++ ["hidden"]
  /\ (forall b, b ∈ GRID_ORDER ->
        exists w c,
          dict_get (puzzle_io.answers P) b = Some (puzzle_io.Word w)
          /\ w <> "" /\ all_capitals w = true
          /\ dict_get (bar_lengths grid) b = Some (Z.of_nat (String.length w))
          /\ dict_get (puzzle_io.clues P) b = Some (puzzle_io.Word c)
          /\ c <> "" /\ strip c = c)
  /\ exists ws cs,
       dict_get (puzzle_io.answers P) "hidden" = Some (puzzle_io.Words ws)
       /\ dict_get (puzzle_io.clues P) "hidden" = Some (puzzle_io.Words cs)
       /\ (length ws = 1 \/ length ws = 2)%nat
       /\ length cs = length ws
       /\ (forall w, w ∈ ws -> w <> "" /\ all_capitals w = true)
       /\ (forall c, c ∈ cs -> strip c = c).
Proof.
  intros H.
  apply load_puzzle_Loaded_inv in H
    as (fields & s & afields & sa & cfields & sc & hiddens & sh & hcs & shc
        & -> & Hschema & Ear & Ecr & Hgrid & Eh & Hlen & Hhid & Ehc & Hlenc & ->).
  cbn [puzzle_io.schema_version puzzle_io.filename puzzle_io.answers
       puzzle_io.clues].
  split; [done |]. split; [done |]. split; [reflexivity |].
  split; [reflexivity |]. split.
  - intros b Hb. change GRID_ORDER with puzzle_io.required_grid in Hb.
    destruct (Hgrid b Hb) as (a & Ha & Hne & Hcap & Hn & Hc).
    rewrite !dict_get_grid_row by done.
    rewrite (dict_get_or_Some _ _ a) by done.
    eexists _, _. split; [reflexivity |]. split; [done |]. split; [done |].
    split; [done |]. split; [reflexivity |]. split; [done |]. apply strip_idem.
  - eexists _, _. split; [apply dict_get_grid_hidden |].
    split; [apply dict_get_grid_hidden |]. split; [by rewrite length_map |].
    split; [by rewrite !length_map |]. split.
    + intros w (h & -> & Hh)%list_elem_of_fmap. by apply Hhid.
    + intros c (h & -> & Hh)%list_elem_of_fmap. apply strip_idem.
Qed.

Lemma loaded_puzzle_is_valid_witness :
  puzzle_io.load_puzzle demo_file "puzzles/demo.json" build_grid_spec
  = puzzle_io.Loaded demo_loaded
  /\ dict_keys (puzzle_io.answers demo_loaded) = GRID_ORDER ++ ["hidden"].
Proof.
  assert (E : puzzle_io.load_puzzle demo_file "puzzles/demo.json" build_grid_spec
              = puzzle_io.Loaded demo_loaded) by (vm_compute; reflexivity).
  split; [exact E |].
  exact (proj1 (proj2 (proj2 (loaded_puzzle_is_valid _ _ _ _ E)))).
Defined.

Lemma or_empty_dict_idem (x : puzzle_io.json) :
  puzzle_io.or_empty_dict (puzzle_io.or_empty_dict x) = puzzle_io.or_empty_dict x.
Proof.
  unfold puzzle_io.or_empty_dict. destruct (puzzle_io.truthy x) eqn:E.
  - by rewrite E.
  - reflexivity.
Qed.

(** X18. Loading is idempotent.  Write a puzzle that [load_puzzle]
    returned back to a file, with its canonical answers and clues, and
    load that file again under the same path: the same puzzle comes back.
    So normalising (upper case, no blanks, stripped clues) twice is
    normalising once, and a canonical file is always accepted. *)
Theorem load_puzzle_round_trip (raw : puzzle_io.json) (path : string)
    (grid : GridSpec) (P : puzzle_io.Puzzle) (reprs : string -> string) :
  puzzle_io.load_puzzle raw path grid = puzzle_io.Loaded P ->
  puzzle_io.load_puzzle (json_of_puzzle reprs P) path grid = puzzle_io.Loaded P.
Proof.
  intros H.
  apply load_puzzle_Loaded_inv in H
    as (fields & s & afields & sa & cfields & sc & hiddens & sh & hcs & shc
        & -> & Hschema & Ear & Ecr & Hgrid & Eh & Hlen & Hhid & Ehc & Hlenc & ->).
  unfold json_of_puzzle.
  cbn [puzzle_io.schema_version puzzle_io.meta puzzle_io.answers
       puzzle_io.clues].
  set (aw := fun b => puzzle_io._norm_letters
                        (dict_get_or afields b (puzzle_io.JVal (PyStr "")))).
  set (cw := fun b => strip (puzzle_io.json_str
                               (dict_get_or cfields b (puzzle_io.JVal (PyStr ""))))).
  set (ws := map puzzle_io._norm_letters hiddens).
  set (cs := map (fun x => strip (puzzle_io.json_str x)) hcs).
  rewrite !map_app, !map_map. cbn [map fst snd json_of_entry].
  set (af := map (fun b => (b, puzzle_io.JVal (PyStr (aw b))))
                 puzzle_io.required_grid
             ++ [("hidden",
                  puzzle_io.JList (map (fun s => puzzle_io.JVal (PyStr s)) ws)
                                  (reprs "answers.hidden"))]).
  set (cf := map (fun b => (b, puzzle_io.JVal (PyStr (cw b))))
                 puzzle_io.required_grid
             ++ [("hidden",
                  puzzle_io.JList (map (fun s => puzzle_io.JVal (PyStr s)) cs)
                                  (reprs "clues.hidden"))]).
  assert (Haw : forall b, b ∈ puzzle_io.required_grid ->
                  aw b <> "" /\ all_capitals (aw b) = true
                  /\ dict_get (bar_lengths grid) b
                     = Some (Z.of_nat (String.length (aw b)))
                  /\ cw b <> "").
  { intros b Hb. destruct (Hgrid b Hb) as (a & Ha & Hne & Hcap & Hn & Hc).
    unfold aw, cw. by rewrite (dict_get_or_Some _ _ a). }
  rewrite (load_puzzle_Loaded_intro _ _ af (reprs "answers") cf (reprs "clues")
             (map (fun s => puzzle_io.JVal (PyStr s)) ws) (reprs "answers.hidden")
             (map (fun s => puzzle_io.JVal (PyStr s)) cs) (reprs "clues.hidden")).
  - f_equal. f_equal.
    + cbn [dict_get_or dict_get]. apply or_empty_dict_idem.
    + f_equal.
      * apply map_ext_in. intros b Hb%list_elem_of_In. f_equal. f_equal.
        unfold af. rewrite (dict_get_or_Some _ _ (puzzle_io.JVal (PyStr (aw b))))
          by by apply (dict_get_grid_row (fun b => puzzle_io.JVal (PyStr (aw b)))).
        apply norm_letters_capitals. by apply Haw.
      * do 3 f_equal. rewrite map_map. unfold ws. rewrite map_map.
        apply map_ext_in. intros h Hh%list_elem_of_In.
        apply norm_letters_capitals. by apply Hhid.
    + f_equal.
      * apply map_ext_in. intros b Hb%list_elem_of_In. f_equal. f_equal.
        unfold cf. rewrite (dict_get_or_Some _ _ (puzzle_io.JVal (PyStr (cw b))))
          by by apply (dict_get_grid_row (fun b => puzzle_io.JVal (PyStr (cw b)))).
        cbn [puzzle_io.json_str py_str]. apply strip_idem.
      * do 3 f_equal. rewrite map_map. unfold cs. rewrite map_map.
        apply map_ext. intros h. cbn [puzzle_io.json_str py_str].
        apply strip_idem.
  - reflexivity.
  - reflexivity.
  - reflexivity.
  - intros b Hb. destruct (Haw b Hb) as (Hne & Hcap & Hn & Hc).
    exists (puzzle_io.JVal (PyStr (aw b))).
    split; [by apply (dict_get_grid_row (fun b => puzzle_io.JVal (PyStr (aw b)))) |].
    rewrite (norm_letters_capitals _ Hcap). split; [done |]. split; [done |].
    split; [done |].
    unfold cf. rewrite (dict_get_or_Some _ _ (puzzle_io.JVal (PyStr (cw b))))
      by by apply (dict_get_grid_row (fun b => puzzle_io.JVal (PyStr (cw b)))).
    cbn [puzzle_io.json_str py_str]. unfold cw. by rewrite strip_idem.
  - apply (dict_get_grid_hidden (fun b => puzzle_io.JVal (PyStr (aw b)))).
  - by rewrite length_map; unfold ws; rewrite length_map.
  - intros h (w & -> & (h0 & -> & Hh)%list_elem_of_fmap)%list_elem_of_fmap.
    destruct (Hhid h0 Hh) as [Hne Hcap].
    by rewrite (norm_letters_capitals _ Hcap).
  - apply (dict_get_grid_hidden (fun b => puzzle_io.JVal (PyStr (cw b)))).
  - unfold cs, ws. by rewrite !length_map.
Qed.

Lemma load_puzzle_round_trip_witness :
  puzzle_io.load_puzzle (json_of_puzzle (fun _ => "") demo_loaded)
                        "puzzles/demo.json" build_grid_spec
  = puzzle_io.Loaded demo_loaded.
Proof.
  apply (load_puzzle_round_trip demo_file). vm_compute. reflexivity.
Defined.

Lemma or_empty_dict_dict (x : puzzle_io.json) :
  dict_or_falsy x = true ->
  exists fields s, puzzle_io.or_empty_dict x = puzzle_io.JDict fields s.
Proof.
  unfold dict_or_falsy, puzzle_io.or_empty_dict, puzzle_io.empty_dict.
  destruct x as [v | items s | fields s].
  - intros ->%negb_true_iff. eauto.
  - intros ->%negb_true_iff. eauto.
  - intros _. destruct (puzzle_io.truthy _); eauto.
Qed.

Ltac validation_error H :=
  first [ by apply raise_if_Failed in H
        | by apply validate_letters_only_Failed in H
        | by injection H as <- ].

(** X19. The exceptions of [load_puzzle].  When the file holds a JSON
    object whose [answers] and [clues] are objects (or are missing, or are
    values that count as false), and the geometry has a length for each of
    the six grid bars, the only exception that leaves [load_puzzle] is
    [PuzzleValidationError], the one its caller catches. *)
Theorem load_puzzle_fails_by_validation
    (fields : list (string * puzzle_io.json)) (s path : string)
    (grid : GridSpec) (e : puzzle_io.load_exn) :
  dict_or_falsy (dict_get_or fields "answers" puzzle_io.empty_dict) = true ->
  dict_or_falsy (dict_get_or fields "clues" puzzle_io.empty_dict) = true ->
  (forall b, b ∈ GRID_ORDER -> is_Some (dict_get (bar_lengths grid) b)) ->
  puzzle_io.load_puzzle (puzzle_io.JDict fields s) path grid = puzzle_io.Failed e ->
  e = puzzle_io.PuzzleValidationError.
Proof.
  intros (afields & sa & Ear)%or_empty_dict_dict
         (cfields & sc & Ecr)%or_empty_dict_dict Hgrid H.
  unfold puzzle_io.load_puzzle in H.
  rewrite !get_dict, !loaded_fmap_Loaded, !loaded_bind_Loaded in H.
  cbv zeta in H. rewrite Ear, Ecr in H.
  apply loaded_bind_Failed in H as [H | ([] & _ & H)]; [validation_error H |].
  rewrite (mapM_Loaded _ (dict_contains afields)) in H by done.
  rewrite loaded_bind_Loaded in H.
  apply loaded_bind_Failed in H as [H | ([] & Hmiss & H)];
    [validation_error H |].
  apply raise_if_inv in Hmiss as [Hmiss _]. apply negb_false_iff in Hmiss.
  assert (Hin : forall b, b ∈ puzzle_io.required_grid ->
                  is_Some (dict_get afields b)).
  { intros b Hb. apply dict_contains_true.
    rewrite forallb_forall in Hmiss.
    apply (Hmiss (dict_contains afields b)), in_map, list_elem_of_In, Hb. }
  apply loaded_bind_Failed in H as [H | (checked & _ & H)].
  { apply mapM_Failed_inv in H as (b & Hb & H).
    rewrite get_dict, loaded_fmap_Loaded, loaded_bind_Loaded in H.
    apply loaded_bind_Failed in H as [H | ([] & _ & H)]; [validation_error H |].
    apply loaded_bind_Failed in H as [H | ([] & _ & H)]; [validation_error H |].
    destruct (Hgrid b Hb) as [n Hn].
    unfold puzzle_io._get_required_grid_len in H.
    rewrite Hn, loaded_bind_Loaded in H. validation_error H. }
  rewrite ?get_dict, ?loaded_bind_Loaded in H.
  destruct (dict_get_or afields "hidden" (puzzle_io.JVal PyNone))
    as [v | [| hw hws] sh | hf sh]; try validation_error H.
  apply loaded_bind_Failed in H as [H | ([] & _ & H)]; [validation_error H |].
  apply loaded_bind_Failed in H as [H | (hidden_norm & _ & H)].
  { apply mapM_Failed_inv in H as (h & _ & H). cbv zeta in H.
    apply loaded_bind_Failed in H as [H | ([] & _ & H)]; [validation_error H |].
    apply loaded_bind_Failed in H as [H | ([] & _ & H)]; [validation_error H |].
    done. }
  apply loaded_bind_Failed in H as [H | (clues_checked & _ & H)].
  { apply mapM_Failed_inv in H as (b & _ & H).
    rewrite get_dict, loaded_fmap_Loaded, loaded_bind_Loaded in H.
    validation_error H. }
  rewrite ?get_dict, ?loaded_bind_Loaded in H.
  destruct (dict_get_or cfields "hidden" (puzzle_io.JVal PyNone))
    as [v | hcs shc | hf shc]; try validation_error H.
  apply loaded_bind_Failed in H as [H | ([] & _ & H)]; [validation_error H |].
  apply loaded_bind_Failed in H as [H | (answers_grid & _ & H)].
  { apply mapM_Failed_inv in H as (b & Hb & H). destruct (Hin b Hb) as [a Ha].
    unfold puzzle_io.item in H. by rewrite Ha in H. }
  apply loaded_bind_Failed in H as [H | (clues_grid & _ & H)]; [| done].
  apply mapM_Failed_inv in H as (b & _ & H). by rewrite get_dict in H.
Qed.

Lemma load_puzzle_fails_by_validation_witness :
  puzzle_io.load_puzzle
    (puzzle_io.JDict [("schema_version", puzzle_io.JVal (PyStr "puzzlefile.v2"));
                      ("answers", puzzle_io.JVal PyNone)]
                     "{'schema_version': 'puzzlefile.v2', 'answers': None}")
    "puzzles/none.json" build_grid_spec
  = puzzle_io.Failed puzzle_io.PuzzleValidationError.
Proof.
  destruct (puzzle_io.load_puzzle _ "puzzles/none.json" build_grid_spec)
    as [P | e] eqn:E; [by vm_compute in E |].
  f_equal. revert E. apply load_puzzle_fails_by_validation.
  - reflexivity.
  - reflexivity.
  - intros b Hb. revert b Hb. apply Forall_forall. compute_done.
Defined.

Lemma init_state_with_lengths (g : GridSpec) (p : Puzzle) (env : Env) :
  (forall b, b ∈ GRID_ORDER -> is_Some (dict_get (bar_lengths g) b)) ->
  puzzle_prints p = true ->
  exists s0,
    init_state p g env = Ok s0
    /\ grid_cells s0
       = map (fun b => (b, blank_cells (dict_get_or (bar_lengths g) b 0)))
             GRID_ORDER
    /\ hidden_cells s0 = blank_hidden_cells (hidden_answers_of p).
Proof.
  intros Hlen [Ehc Eid]%puzzle_prints_true. unfold init_state.
  set (len_of := fun b => dict_get_or (bar_lengths g) b 0).
  assert (Hl : forall b, b ∈ GRID_ORDER ->
                 dict_get (bar_lengths g) b = Some (len_of b)).
  { intros b Hb. destruct (Hlen b Hb) as [n Hn]. unfold len_of.
    by rewrite (dict_get_or_Some _ _ n). }
  rewrite (mapM_Ok _ (fun b => (b, blank_cells (len_of b)))).
  2:{ intros b Hb. by rewrite (dict_item_Some _ _ _ (Hl b Hb)), bind_Ok. }
  rewrite bind_Ok, Ehc, bind_Ok.
  rewrite (mapM_Ok _ (fun b => {| br_scope := ScopeGrid; br_bar_id := b;
                                  br_length := len_of b |})).
  2:{ intros b Hb. by rewrite (dict_item_Some _ _ _ (Hl b Hb)), bind_Ok. }
  rewrite bind_Ok, Eid, bind_Ok. cbv zeta.
  rewrite dict_of_items_distinct
    by (rewrite dict_keys_tabulate; apply GRID_ORDER_NoDup).
  eexists. split; [reflexivity |]. by split.
Qed.

Lemma zip_map_r {A B C} (f : B -> C) (l : list A) (k : list B) :
  zip l (map f k) = map (fun ab => (ab.1, f ab.2)) (zip l k).
Proof.
  revert k. induction l as [| a l IH]; intros [| b k]; simpl; try done.
  by rewrite IH.
Qed.

(** X20. A loaded puzzle can be played.  When [load_puzzle] returns a
    puzzle whose [meta] is a JSON object, with an id that [str] prints (any
    value but an [int] of more than 4300 digits, which [json.load] does not
    return), [init_state] returns on it, under the same geometry: each grid
    bar has one empty cell per letter of its answer, and there is one hidden
    bar per hidden answer, in order, with one empty cell per letter of that
    answer; no hidden bar is empty. *)
Theorem loaded_puzzle_starts (raw : puzzle_io.json) (path : string)
    (grid : GridSpec) (P : puzzle_io.Puzzle) (p : Puzzle) (env : Env) :
  puzzle_io.load_puzzle raw path grid = puzzle_io.Loaded P ->
  engine_puzzle P = Some p ->
  str_raises (dict_get_or (meta p) "id" (PyStr (filename p))) = false ->
  exists s0 ws,
    puzzle_hidden_ok p = true
    /\ init_state p grid env = Ok s0
    /\ (forall b, b ∈ GRID_ORDER ->
          exists w,
            dict_get (puzzle_io.answers P) b = Some (puzzle_io.Word w)
            /\ dict_get (grid_cells s0) b
               = Some (replicate (String.length w) ""))
    /\ dict_get (puzzle_io.answers P) "hidden" = Some (puzzle_io.Words ws)
    /\ hidden_cells s0
       = map (fun iw : Z * string =>
                (hidden_bar_id iw.1, replicate (String.length iw.2) ""))
             (zip (seqZ 1 (py_len ws)) ws).
Proof.
  intros H Hp Hid.
  apply load_puzzle_Loaded_inv in H
    as (fields & s & afields & sa & cfields & sc & hiddens & sh & hcs & shc
        & -> & Hschema & Ear & Ecr & Hgrid & Eh & Hlen & Hhid & Ehc & Hlenc & ->).
  set (ws := map puzzle_io._norm_letters hiddens).
  unfold engine_puzzle in Hp.
  cbn [puzzle_io.schema_version puzzle_io.meta puzzle_io.answers
       puzzle_io.clues puzzle_io.filename] in Hp |- *.
  destruct (puzzle_io.or_empty_dict
              (dict_get_or fields "meta" puzzle_io.empty_dict))
    as [| | mfields ms]; try done.
  rewrite dict_get_grid_hidden in Hp |- *. injection Hp as <-. fold ws in Hid |- *.
  set (p := {| meta := map (fun kv => (kv.1, pyval_of_json kv.2)) mfields;
               answers_hidden := Some (map PyStr ws);
               filename := puzzle_io.basename path |}) in *.
  assert (Hws : ws <> []).
  { unfold ws. destruct hiddens; [simpl in Hlen; lia | done]. }
  assert (Hha : hidden_answers_of p = map PyStr ws).
  { unfold hidden_answers_of. simpl. by destruct ws. }
  assert (Hpr : puzzle_prints p = true).
  { unfold puzzle_prints. rewrite Hha, Hid, andb_true_r.
    apply forallb_forall. by intros y (w0 & <- & _)%in_map_iff. }
  destruct (init_state_with_lengths grid p env) as (s0 & E0 & Egc & Ehc0);
    [| done |].
  { intros b Hb. destruct (Hgrid b Hb) as (a & _ & _ & _ & Hn & _). eauto. }
  exists s0, ws. split.
  { unfold puzzle_hidden_ok.
    change (answers_hidden p) with (Some (map PyStr ws)).
    destruct (map PyStr ws) as [| x xs] eqn:Ews; [by destruct ws |].
    rewrite <- Ews. apply forallb_forall.
    intros y (w0 & <- & Hw0)%in_map_iff. cbn [py_str].
    apply list_elem_of_In in Hw0.
    apply list_elem_of_fmap in Hw0 as (h & -> & Hh).
    destruct (Hhid h Hh) as [Hne _]. apply String.eqb_neq in Hne.
    by rewrite Hne. }
  split; [done |]. split.
  { intros b Hb. change GRID_ORDER with puzzle_io.required_grid in Hb.
    destruct (Hgrid b Hb) as (a & Ha & _ & _ & Hn & _).
    rewrite dict_get_grid_row by done. rewrite (dict_get_or_Some _ _ a) by done.
    eexists. split; [reflexivity |].
    rewrite Egc, dict_get_tabulate.
    destruct (decide (b ∈ GRID_ORDER)) as [_ | Hnb]; [| by destruct Hnb].
    rewrite (dict_get_or_Some _ _ _ _ Hn). unfold blank_cells.
    by rewrite Nat2Z.id. }
  split; [done |].
  rewrite Ehc0, Hha, blank_hidden_cells_items.
  unfold py_len. rewrite length_map, zip_map_r, map_map.
  apply map_ext. intros [i w]. simpl. unfold blank_cells. by rewrite Nat2Z.id.
Qed.

Lemma loaded_puzzle_starts_witness :
  exists s0,
    engine_puzzle demo_loaded = Some demo_puzzle
    /\ init_state demo_puzzle build_grid_spec demo_env = Ok s0
    /\ hidden_cells s0 = [("hidden1", [""; ""; ""]); ("hidden2", [""; ""; ""])].
Proof.
  destruct (loaded_puzzle_starts demo_file "puzzles/demo.json" build_grid_spec
              demo_loaded demo_puzzle demo_env)
    as (s0 & ws & _ & H0 & _ & Hws & Hh).
  - vm_compute. reflexivity.
  - reflexivity.
  - reflexivity.
  - exists s0. split; [reflexivity |]. split; [done |].
    rewrite Hh. vm_compute in Hws. injection Hws as <-. reflexivity.
Defined.

(** * The letters on the board *)

(** X21. Cells hold letters.  In every reachable state, under a
    well-formed geometry, each cell of each grid bar and hidden bar holds
    the empty string or exactly one capital letter [A]..[Z], whatever the
    payloads of the events were. *)
Theorem cells_are_letters (g : GridSpec) (p : Puzzle) (s : GameState)
    (sc : BarScope) (b : string) (i : Z) (ch : string) :
  wf_grid g -> reachable p g s ->
  state_cell s sc b i = Some ch ->
  ch = "" \/ single_capital ch.
Proof.
  intros Hwf Hr Hc. destruct (reachable_letters g p s Hwf Hr) as [Hg Hh].
  assert (Hcells : forall cells, cells_hold_letters cells ->
                     cell_at cells b i = Some ch -> letter_or_empty ch).
  { intros cells Hok (arr & Ha & _ & Hl)%cell_at_Some.
    pose proof (Hok b arr Ha) as Hall. rewrite Forall_forall in Hall.
    by apply Hall, list_elem_of_lookup_2 with (Z.to_nat i). }
  destruct sc; simpl in Hc; [exact (Hcells _ Hg Hc) | exact (Hcells _ Hh Hc)].
Qed.

Lemma cells_are_letters_witness :
  state_cell (play [event "INPUT_LETTER" [("letter", PyStr " q ")];
                    event "INPUT_LETTER" [("letter", PyStr "7")]])
             ScopeGrid "h1" 0 = Some "Q"
  /\ ("Q" = "" \/ single_capital "Q").
Proof.
  split; [vm_compute; reflexivity |].
  apply (cells_are_letters build_grid_spec demo_puzzle
           (play [event "INPUT_LETTER" [("letter", PyStr " q ")];
                  event "INPUT_LETTER" [("letter", PyStr "7")]])
           ScopeGrid "h1" 0 "Q").
  - apply build_grid_spec_wf.
  - apply play_reachable.
  - vm_compute. reflexivity.
Defined.

(** * The checks of the application *)

Lemma replace_no_h (new t : string) :
  (forall c, In c (list_ascii_of_string t) -> c <> "h"%char) ->
  replace_from 0 "hidden" new t = t.
Proof.
  induction t as [| c t IH]; intros H; [done |].
  cbn [replace_from].
  assert (Hp : String.prefix "hidden" (String c t) = false).
  { cbn [String.prefix]. destruct (ascii_dec "h" c) as [<- | _]; [| done].
    by destruct (H "h"%char); [left |]. }
  rewrite Hp, IH; [done |]. intros c' Hc'. apply H. by right.
Qed.

Lemma replace_hidden_bar_id (k : Z) :
  replace (hidden_bar_id k) "hidden" "" = py_str (PyInt k).
Proof.
  unfold replace, hidden_bar_id.
  transitivity (replace_from 0 "hidden" "" (py_str (PyInt k)));
    [by destruct (py_str (PyInt k)) |].
  apply replace_no_h. intros c [-> | Hc]%py_str_int_chars; [done |].
  intros ->. change (N_of_ascii "h") with 104%N in Hc. lia.
Qed.

Lemma loaded_hidden_count raw path grid P (aw : string -> string) ws :
  puzzle_io.load_puzzle raw path grid = puzzle_io.Loaded P ->
  puzzle_io.answers P
  = map (fun b => (b, puzzle_io.Word (aw b))) puzzle_io.required_grid
    ++ [("hidden", puzzle_io.Words ws)] ->
  (length ws = 1 \/ length ws = 2)%nat.
Proof.
  intros H Hans.
  apply load_puzzle_Loaded_inv in H
    as (fields & s1 & afields & sa & cfields & sc & hiddens & sh & hcs & shc
        & _ & _ & _ & _ & _ & _ & Hlen & _ & _ & _ & ->).
  cbn [puzzle_io.answers] in Hans.
  apply app_inj_tail in Hans as [_ [= <-]]. by rewrite length_map.
Qed.

Lemma hidden_answer_lookup (P : puzzle_io.Puzzle) (ws : list string) (k : Z) :
  dict_get (puzzle_io.answers P) "hidden" = Some (puzzle_io.Words ws) ->
  _get_hidden_answer P (hidden_bar_id k)
  = if INT_MAX_STR_DIGITS <? count_digits (py_str (PyInt k))
    then default "" (ws !! 0%nat)
    else if (1 <=? k) && (k <=? py_len ws)
         then default "" (ws !! Z.to_nat (k - 1))
         else "".
Proof.
  intros Hws. unfold _get_hidden_answer.
  rewrite (dict_get_or_Some _ _ _ _ Hws), replace_hidden_bar_id,
    int_of_str_decimal.
  destruct (INT_MAX_STR_DIGITS <? count_digits (py_str (PyInt k))).
  - cbv zeta. pose proof (py_len_nonneg ws).
    destruct ws as [| w ws]; [done |].
    destruct (Z.ltb_spec 0 (py_len (w :: ws))); [done |].
    unfold py_len in *. simpl in *. lia.
  - cbv zeta.
    destruct (Z.leb_spec 0 (k - 1)), (Z.ltb_spec (k - 1) (py_len ws)),
      (Z.leb_spec 1 k), (Z.leb_spec k (py_len ws)); try lia; simpl; done.
Qed.

(** X22. The hidden answer of a hidden bar.  The application finds the
    answer of a hidden bar by parsing the number back out of its id: for
    the id [hidden<k>] that the engine makes, [_get_hidden_answer] returns
    the [k]-th hidden answer (counting from 1) when there is one, and the
    empty string for every other integer [k] that [int] reads back.  A
    number of more than 4300 digits it does not read back: [int] raises,
    the index falls back to 0 and the first hidden answer is returned. *)
Theorem hidden_answer_of_bar (P : puzzle_io.Puzzle) (ws : list string) (k : Z) :
  dict_get (puzzle_io.answers P) "hidden" = Some (puzzle_io.Words ws) ->
  _get_hidden_answer P (hidden_bar_id k)
  = if INT_MAX_STR_DIGITS <? count_digits (py_str (PyInt k))
    then default "" (ws !! 0%nat)
    else if (1 <=? k) && (k <=? py_len ws)
         then default "" (ws !! Z.to_nat (k - 1))
         else "".
Proof. apply hidden_answer_lookup. Qed.

Lemma hidden_answer_of_bar_witness :
  _get_hidden_answer demo_loaded "hidden2" = "ACT".
Proof.
  exact (hidden_answer_of_bar demo_loaded ["CAT"; "ACT"] 2 eq_refl).
Defined.

Lemma grid_marks_spec (s : GameState) (bid ans : string) (arr : list string) :
  dict_get (grid_cells s) bid = Some arr ->
  forall (cells : list Cell) (m : Z) (acc : list (string * string)),
    0 <= m -> m + py_len cells <= py_len arr -> NoDup cells ->
    exists final,
      grid_marks s bid ans (zip (seqZ m (py_len cells)) cells) acc = Ok final
      /\ (forall (j : nat) cell ch,
            cells !! j = Some cell ->
            arr !! (Z.to_nat m + j)%nat = Some ch ->
            dict_get final (cell_id cell)
            = Some (mark_of (upper ch) (expected_letter ans (m + Z.of_nat j))))
      /\ (forall k, (forall cell, cell ∈ cells -> cell_id cell <> k) ->
            dict_get final k = dict_get acc k).
Proof.
  intros Harr. induction cells as [| cell cells IH]; intros m acc Hm Hlen Hnd.
  - exists acc. split; [done |]. split; [| done]. intros j cell ch Hj. done.
  - assert (Hl : py_len (cell :: cells) = 1 + py_len cells)
      by (unfold py_len; simpl; lia).
    pose proof (py_len_nonneg cells) as Hnn.
    rewrite seqZ_cons by lia.
    replace (Z.pred (py_len (cell :: cells))) with (py_len cells) by lia.
    replace (Z.succ m) with (m + 1) by lia.
    cbn [zip zip_with grid_marks]. rewrite (dict_get_or_Some _ _ arr) by done.
    destruct (list_getitem_in_range arr m) as (ch0 & Hch0 & ->); [lia |].
    rewrite bind_Ok. cbv zeta.
    apply NoDup_cons in Hnd as [Hnotin Hnd].
    destruct (IH (m + 1)
                 (dict_set acc (cell_id cell)
                    (mark_of (upper ch0) (expected_letter ans m))))
      as (final & -> & H1 & H2); [lia | lia | done |].
    exists final. split; [done |]. split.
    + intros [| j] cell' ch Hj Hch.
      * injection Hj as <-. rewrite Nat.add_0_r, Hch0 in Hch.
        injection Hch as <-. rewrite H2.
        -- rewrite dict_get_set_eq. do 3 f_equal. lia.
        -- intros c Hc E. apply cell_id_injective in E. by subst.
      * simpl in Hj. rewrite (H1 j cell' ch Hj).
        -- do 3 f_equal. lia.
        -- rewrite <- Hch. f_equal. lia.
    + intros k Hk. rewrite H2.
      * apply dict_get_set_ne. intros ->. apply (Hk cell); [by left | done].
      * intros c Hc. apply Hk. by right.
Qed.

Section check_bars_facts.
Variable list_repr : list string -> string.
Variables (P : puzzle_io.Puzzle) (s : GameState) (g : GridSpec).

Lemma check_bars_spec (bids : list string) :
  NoDup bids ->
  (forall b, b ∈ bids ->
     grid_answer list_repr P b <> ""
     /\ exists cells arr,
          dict_get (bars g) b = Some cells /\ NoDup cells
          /\ dict_get (grid_cells s) b = Some arr
          /\ py_len cells <= py_len arr) ->
  forall acc,
  exists final,
    check_bars list_repr P s g bids acc = Ok final
    /\ (forall pre b post i cell ch,
          bids = pre ++ b :: post ->
          bar_cell g b i = Some cell ->
          cell_at (grid_cells s) b i = Some ch ->
          (forall b' j, b' ∈ post -> bar_cell g b' j <> Some cell) ->
          dict_get final (cell_id cell)
          = Some (mark_of (upper ch)
                          (expected_letter (grid_answer list_repr P b) i)))
    /\ (forall k,
          (forall b i cell, b ∈ bids -> bar_cell g b i = Some cell ->
                            cell_id cell <> k) ->
          dict_get final k = dict_get acc k).
Proof.
  induction bids as [| b0 bids IH]; intros Hnd Hok acc.
  - exists acc. split; [done |]. split; [| done].
    intros pre b post i cell ch E. by destruct pre.
  - apply NoDup_cons in Hnd as [Hnotin Hnd].
    destruct (Hok b0) as (Hans & cells & arr & Hcells & Hndc & Harr & Hlen);
      [by left |].
    cbn [check_bars]. apply String.eqb_neq in Hans as Hans'. rewrite Hans'.
    rewrite (dict_get_or_Some _ _ cells) by done.
    destruct (grid_marks_spec s b0 (grid_answer list_repr P b0) arr Harr
                cells 0 acc) as (acc1 & E1 & H1 & H2); [lia | lia | done |].
    unfold enumerate, range. rewrite E1, bind_Ok.
    destruct (IH Hnd) with (acc := acc1) as (final & -> & Ha & Hb).
    { intros b Hb. apply Hok. by right. }
    exists final. split; [done |]. split.
    + intros pre b post i cell ch E Hcell Hch Hpost.
      destruct pre as [| b1 pre]; simpl in E; injection E as -> ->.
      * rewrite Hb.
        -- apply bar_cell_Some in Hcell as (cells' & Hc' & Hi & Hl).
           rewrite Hcells in Hc'. injection Hc' as <-.
           apply cell_at_Some in Hch as (arr' & Ha' & Hi' & Hl').
           rewrite Harr in Ha'. injection Ha' as <-.
           rewrite (H1 (Z.to_nat i) cell ch Hl) by done.
           do 3 f_equal. lia.
        -- intros b' j cell' Hb' Hc' E. apply cell_id_injective in E. subst.
           by apply (Hpost b' j).
      * by apply (Ha pre b post).
    + intros k Hk. rewrite Hb.
      * apply H2. intros cell Hc.
        apply list_elem_of_lookup in Hc as [j Hj].
        apply (Hk b0 (Z.of_nat j) cell); [by left |].
        apply bar_cell_Some. exists cells. split; [done |].
        rewrite Nat2Z.id. split; [| done].
        apply lookup_lt_Some in Hj. unfold py_len. lia.
      * intros b i cell Hb'. apply Hk. by right.
Qed.
End check_bars_facts.

Lemma upper_letter_or_empty (ch : string) : letter_or_empty ch -> upper ch = ch.
Proof.
  intros [-> | (c & -> & Hc)]; [done |]. simpl.
  destruct (N.eqb_spec (N_of_ascii c) 223); [lia |]. f_equal.
  unfold upper_ascii.
  destruct (N.leb_spec 97 (N_of_ascii c)); [lia |].
  destruct (N.leb_spec 224 (N_of_ascii c)); [lia | done].
Qed.

Lemma all_capitals_get (w : string) (n : nat) (c : ascii) :
  all_capitals w = true -> String.get n w = Some c ->
  puzzle_io.is_capital c = true.
Proof.
  revert n. induction w as [| c0 w IH]; intros n; [done |].
  intros [Hc Hw]%all_capitals_cons. destruct n as [| n]; simpl.
  - by intros [= <-].
  - by apply IH.
Qed.

Lemma string_get_lt (w : string) (n : nat) (c : ascii) :
  String.get n w = Some c -> (n < String.length w)%nat.
Proof.
  revert n. induction w as [| c0 w IH]; intros n; [done |].
  destruct n as [| n]; simpl; [lia |]. intros H%IH. lia.
Qed.

Lemma string_get_ge (w : string) (n : nat) :
  String.get n w = None -> (String.length w <= n)%nat.
Proof.
  revert n. induction w as [| c0 w IH]; intros n; simpl; [lia |].
  destruct n as [| n]; [done |]. intros H%IH. lia.
Qed.

Lemma expected_letter_capitals (w : string) (i : Z) :
  all_capitals w = true -> 0 <= i -> expected_letter w i = letter_at w i.
Proof.
  intros Hw Hi. unfold expected_letter, letter_at.
  destruct (Z.leb_spec 0 i); [| lia].
  destruct (String.get (Z.to_nat i) w) as [c |] eqn:Eg.
  - assert (Hu : upper (String c "") = String c "").
    { apply capitals_upper, all_capitals_cons.
      split; [apply (all_capitals_get w _ c Hw Eg) | done]. }
    rewrite Hu. apply string_get_lt in Eg.
    destruct (Z.ltb_spec i (Z.of_nat (String.length w))); [done | lia].
  - by destruct (i <? Z.of_nat (String.length w)).
Qed.

Lemma dict_get_map_values {A B} (F : string -> A -> B) (d : list (string * A))
    (k : string) :
  dict_get (map (fun kv => (kv.1, F kv.1 kv.2)) d) k = F k <$> dict_get d k.
Proof.
  induction d as [| [k0 v0] d IH]; simpl; [done |].
  by destruct (decide (k = k0)) as [-> |].
Qed.

Lemma hidden_marks_fold (P : puzzle_io.Puzzle)
    (hc : list (string * list string)) :
  NoDup (dict_keys hc) ->
  (forall hid, hid ∈ dict_keys hc -> _get_hidden_answer P hid <> "") ->
  fold_left (fun acc '(hid, arr) =>
               let ans := _get_hidden_answer P hid in
               if String.eqb ans "" then acc
               else dict_set acc hid (hidden_marks ans arr))
            hc []
  = map (fun kv => (kv.1, hidden_marks (_get_hidden_answer P kv.1) kv.2)) hc.
Proof.
  intros Hnd Hans.
  set (F := fun kv : string * list string =>
              (kv.1, hidden_marks (_get_hidden_answer P kv.1) kv.2)).
  transitivity (fold_left (fun d x => dict_set d (F x).1 (F x).2) hc []).
  { assert (Hgen : forall l acc, (forall hid, hid ∈ dict_keys l ->
                                    _get_hidden_answer P hid <> "") ->
              fold_left (fun acc '(hid, arr) =>
                           let ans := _get_hidden_answer P hid in
                           if String.eqb ans "" then acc
                           else dict_set acc hid (hidden_marks ans arr)) l acc
              = fold_left (fun d x => dict_set d (F x).1 (F x).2) l acc).
    { induction l as [| [hid arr] l IH]; intros acc Hl; [done |]. simpl.
      assert (Hh : _get_hidden_answer P hid <> "") by (apply Hl; by left).
      apply String.eqb_neq in Hh. rewrite Hh. apply IH.
      intros h Hin. apply Hl. by right. }
    by apply Hgen. }
  rewrite fold_dict_set_map. apply (dict_fold_distinct _ []). simpl.
  unfold dict_keys. rewrite map_map. exact Hnd.
Qed.

(** What is known of a game played on a loaded puzzle. *)
Lemma loaded_game_facts raw path P p s :
  puzzle_io.load_puzzle raw path build_grid_spec = puzzle_io.Loaded P ->
  engine_puzzle P = Some p ->
  reachable p build_grid_spec s ->
  exists (aw : string -> string) (ws : list string),
    puzzle_io.answers P
    = map (fun b => (b, puzzle_io.Word (aw b))) puzzle_io.required_grid
      ++ [("hidden", puzzle_io.Words ws)]
    /\ (forall b, b ∈ GRID_ORDER ->
          aw b <> "" /\ all_capitals (aw b) = true
          /\ String.length (aw b) = 7%nat)
    /\ (forall w, w ∈ ws -> w <> "" /\ all_capitals w = true)
    /\ state_inv build_grid_spec s
    /\ cells_hold_letters (grid_cells s)
    /\ cells_hold_letters (hidden_cells s)
    /\ blank_all (hidden_cells s)
       = map (fun iw : Z * string =>
                (hidden_bar_id iw.1, replicate (String.length iw.2) ""))
             (zip (seqZ 1 (py_len ws)) ws).
Proof.
  intros H Hp Hr.
  apply load_puzzle_Loaded_inv in H
    as (fields & s1 & afields & sa & cfields & sc & hiddens & sh & hcs & shc
        & -> & Hschema & Ear & Ecr & Hgrid & Eh & Hlen & Hhid & Ehc & Hlenc & ->).
  set (aw := fun b => puzzle_io._norm_letters
                        (dict_get_or afields b (puzzle_io.JVal (PyStr "")))).
  set (ws := map puzzle_io._norm_letters hiddens).
  exists aw, ws. split; [done |].
  destruct (reachable_inv _ _ _ build_grid_spec_wf Hr) as [Hinv _].
  destruct (reachable_letters _ _ _ build_grid_spec_wf Hr) as [Hlg Hlh].
  split.
  { intros b Hb. change GRID_ORDER with puzzle_io.required_grid in Hb.
    destruct (Hgrid b Hb) as (a & Ha & Hne & Hcap & Hn & _).
    unfold aw. rewrite (dict_get_or_Some _ _ a) by done.
    split; [done |]. split; [done |].
    assert (H7 : dict_get (bar_lengths build_grid_spec) b = Some 7).
    { clear -Hb. revert b Hb. apply Forall_forall. compute_done. }
    rewrite H7 in Hn. injection Hn as Hn. lia. }
  split.
  { intros w (h & -> & Hh)%list_elem_of_fmap. by apply Hhid. }
  split; [done |]. split; [done |]. split; [done |].
  unfold engine_puzzle in Hp. cbn [puzzle_io.meta puzzle_io.answers
                                   puzzle_io.filename] in Hp.
  destruct (puzzle_io.or_empty_dict
              (dict_get_or fields "meta" puzzle_io.empty_dict))
    as [| | mfields ms]; try done.
  rewrite dict_get_grid_hidden in Hp. injection Hp as <-. fold ws in Hr |- *.
  set (p := {| meta := map (fun kv => (kv.1, pyval_of_json kv.2)) mfields;
               answers_hidden := Some (map PyStr ws);
               filename := puzzle_io.basename path |}) in *.
  assert (Hws : ws <> []).
  { unfold ws. destruct hiddens; [simpl in Hlen; lia | done]. }
  assert (Hha : hidden_answers_of p = map PyStr ws).
  { unfold hidden_answers_of. simpl. by destruct ws. }
  destruct (init_state_spec build_grid_spec p demo_env build_grid_spec_wf
              (reachable_prints _ _ _ Hr))
    as (s0 & E0 & _).
  destruct (reachable_shape _ _ _ build_grid_spec_wf Hr demo_env s0 E0)
    as (_ & -> & _).
  destruct (init_state_with_lengths build_grid_spec p demo_env)
    as (s0' & E0' & _ & Eh0).
  { intros b Hb. revert b Hb. apply Forall_forall. compute_done. }
  { apply (reachable_prints _ _ _ Hr). }
  rewrite E0 in E0'. injection E0' as <-.
  rewrite Eh0, Hha, blank_hidden_cells_items.
  unfold py_len. rewrite length_map, zip_map_r, map_map.
  apply map_ext. intros [i w]. simpl. unfold blank_cells. by rewrite Nat2Z.id.
Qed.

Lemma bar_cell_in_order (b : string) (i : Z) (cell : Cell) :
  bar_cell build_grid_spec b i = Some cell ->
  b ∈ GRID_ORDER
  /\ exists cells, dict_get (bars build_grid_spec) b = Some cells
                   /\ NoDup cells /\ py_len cells = 7 /\ 0 <= i < 7.
Proof.
  intros (cells & Hc & Hi & _)%bar_cell_Some.
  pose proof (dict_get_elem_of _ _ _ Hc) as Hin.
  assert (Hall : forallb (fun kv : string * list Cell =>
            bool_decide (kv.1 ∈ GRID_ORDER) && bool_decide (NoDup kv.2)
            && (py_len kv.2 =? 7)) (bars build_grid_spec) = true)
    by (vm_compute; reflexivity).
  pose proof (forallb_elem_of _ _ _ Hall Hin) as Hb. cbv beta in Hb.
  cbn [fst snd] in Hb.
  apply andb_prop in Hb as [[H1 H2]%andb_prop H3].
  apply bool_decide_eq_true in H1, H2. apply Z.eqb_eq in H3.
  split; [done |]. exists cells. repeat split; try done; lia.
Qed.

Lemma later_bars_miss (b : string) (i : Z) (cell : Cell) :
  bar_cell build_grid_spec b i = Some cell ->
  b ∈ ["v1"; "v2"; "v3"] \/ dict_get (cross_map build_grid_spec) (b, i) = None ->
  exists pre post,
    ["h1"; "h2"; "h3"; "v1"; "v2"; "v3"] = pre ++ b :: post
    /\ forall b' j, b' ∈ post -> bar_cell build_grid_spec b' j <> Some cell.
Proof.
  intros Hc Hcase.
  assert (Hx : forall b' j, bar_cell build_grid_spec b' j = Some cell ->
                 b' <> b ->
                 dict_get (cross_map build_grid_spec) (b, i) = Some (b', j)).
  { intros b' j Hc' Hne.
    apply (cross_map_complete (b, i) (b', j) cell); [congruence | done | done]. }
  destruct Hcase as [Hv | Hnone].
  - assert (Hh : forall b' j, bar_cell build_grid_spec b' j = Some cell ->
                   b' <> b -> b' ∈ ["h1"; "h2"; "h3"]).
    { intros b' j Hc' Hne. pose proof (Hx b' j Hc' Hne) as Hd.
      apply dict_get_elem_of in Hd.
      assert (Hall : forallb (fun kv : BarPos * BarPos =>
                bool_decide (kv.1.1 ∈ ["v1"; "v2"; "v3"] ->
                             kv.2.1 ∈ ["h1"; "h2"; "h3"]))
                (cross_map build_grid_spec) = true)
        by (vm_compute; reflexivity).
      pose proof (forallb_elem_of _ _ _ Hall Hd) as Hb. cbv beta in Hb.
      cbn [fst snd] in Hb. apply bool_decide_eq_true in Hb. by apply Hb. }
    assert (Hpost : forall post b' j,
              Forall (fun x => x <> b /\ x ∉ ["h1"; "h2"; "h3"]) post ->
              b' ∈ post -> bar_cell build_grid_spec b' j <> Some cell).
    { intros post b' j Hall Hb' Hc'. rewrite Forall_forall in Hall.
      destruct (Hall b' Hb') as [Hne Hnh]. by apply Hnh, (Hh b' j). }
    repeat (apply elem_of_cons in Hv as [-> | Hv]);
      [ exists ["h1"; "h2"; "h3"], ["v2"; "v3"]
      | exists ["h1"; "h2"; "h3"; "v1"], ["v3"]
      | exists ["h1"; "h2"; "h3"; "v1"; "v2"], []
      | by apply elem_of_nil in Hv ];
      (split; [reflexivity |]); intros b' j; apply Hpost; compute_done.
  - destruct (bar_cell_in_order b i cell Hc) as [Hb _].
    apply list_elem_of_split in Hb as (pre & post & E).
    exists pre, post. split; [exact E |]. intros b' j Hb' Hc'.
    assert (Hne : b' <> b).
    { intros ->. pose proof GRID_ORDER_NoDup as Hnd. rewrite E in Hnd.
      apply NoDup_app in Hnd as (_ & _ & Hnd).
      by apply NoDup_cons in Hnd as [Hnotin _]. }
    by rewrite (Hx b' j Hc' Hne) in Hnone.
Qed.

Lemma grid_answer_loaded list_repr (P : puzzle_io.Puzzle)
    (aw : string -> string) (ws : list string) (b : string) :
  puzzle_io.answers P
  = map (fun b => (b, puzzle_io.Word (aw b))) puzzle_io.required_grid
    ++ [("hidden", puzzle_io.Words ws)] ->
  b ∈ GRID_ORDER ->
  dict_get (puzzle_io.answers P) b = Some (puzzle_io.Word (aw b))
  /\ grid_answer list_repr P b = aw b.
Proof.
  intros E Hb. unfold grid_answer. rewrite E.
  by rewrite (dict_get_grid_row (fun b => puzzle_io.Word (aw b))).
Qed.

Lemma hidden_keys_of_blank (hc : list (string * list string)) (ws : list string) :
  blank_all hc
  = map (fun iw : Z * string =>
           (hidden_bar_id iw.1, replicate (String.length iw.2) ""))
        (zip (seqZ 1 (py_len ws)) ws) ->
  dict_keys hc = map hidden_bar_id (seqZ 1 (py_len ws))
  /\ forall (k : nat) w,
       ws !! k = Some w ->
       exists arr, dict_get hc (hidden_bar_id (Z.of_nat k + 1)) = Some arr
                   /\ length arr = String.length w.
Proof.
  intros E.
  assert (Hk : dict_keys hc = map hidden_bar_id (seqZ 1 (py_len ws))).
  { rewrite <- dict_keys_blank_all, E. unfold dict_keys. rewrite map_map. simpl.
    rewrite <- (map_map fst hidden_bar_id). f_equal.
    revert E. generalize 1. clear. intros m _. revert m.
    induction ws as [| w ws IH]; intros m; [done |].
    rewrite seqZ_cons by (unfold py_len; simpl; lia).
    replace (Z.pred (py_len (w :: ws))) with (py_len ws)
      by (unfold py_len; simpl; lia).
    simpl. by rewrite IH. }
  split; [done |]. intros k w Hw.
  assert (Hnd : NoDup (dict_keys (blank_all hc))).
  { rewrite dict_keys_blank_all, Hk.
    assert (Hinj : Inj (=) (=) hidden_bar_id)
      by (intros i j; apply hidden_bar_id_inj).
    apply (NoDup_fmap_2 hidden_bar_id), NoDup_seqZ. }
  assert (Hin : (hidden_bar_id (Z.of_nat k + 1),
                 replicate (String.length w) "") ∈ blank_all hc).
  { rewrite E. apply list_elem_of_fmap. exists (Z.of_nat k + 1, w).
    split; [done |]. apply list_elem_of_lookup. exists k.
    apply lookup_zip_with_Some. exists (Z.of_nat k + 1), w.
    split; [done |]. split; [| done].
    apply lookup_seqZ. split; [lia |].
    apply lookup_lt_Some in Hw. unfold py_len. lia. }
  pose proof (dict_get_of_elem _ _ _ Hnd Hin) as Hg.
  rewrite dict_get_blank_all in Hg.
  destruct (dict_get hc (hidden_bar_id (Z.of_nat k + 1))) as [arr |]; [| done].
  exists arr. split; [done |]. simpl in Hg. injection Hg as Hg.
  apply (f_equal length) in Hg. by rewrite length_map, length_replicate in Hg.
Qed.

Lemma marks_of_letters (w : string) (arr : list string) :
  all_capitals w = true -> Forall letter_or_empty arr ->
  hidden_marks w arr
  = map (fun jc : Z * string => mark_of jc.2 (letter_at w jc.1)) (enumerate arr).
Proof.
  intros Hw Harr. unfold hidden_marks. apply map_ext_in.
  intros [j ch] Hin%list_elem_of_In. cbn [fst snd].
  unfold enumerate, range in Hin.
  apply list_elem_of_lookup in Hin as [n Hn].
  apply lookup_zip_with_Some in Hn as (j' & ch' & [= <- <-] & Hj & Hch).
  apply lookup_seqZ in Hj as [-> _].
  rewrite Forall_forall in Harr.
  rewrite upper_letter_or_empty
    by (by apply Harr, list_elem_of_lookup_2 with n).
  by rewrite expected_letter_capitals by (done || lia).
Qed.

Lemma check_puzzle_spec (list_repr : list string -> string)
    (raw : puzzle_io.json) (path : string) (P : puzzle_io.Puzzle) (p : Puzzle)
    (s : GameState) :
  puzzle_io.load_puzzle raw path build_grid_spec = puzzle_io.Loaded P ->
  engine_puzzle P = Some p ->
  reachable p build_grid_spec s ->
  exists marks ws,
    _check_puzzle list_repr P s build_grid_spec = Ok marks
    /\ (forall b i cell,
          bar_cell build_grid_spec b i = Some cell ->
          b ∈ ["v1"; "v2"; "v3"]
          \/ dict_get (cross_map build_grid_spec) (b, i) = None ->
          exists w ch,
            dict_get (puzzle_io.answers P) b = Some (puzzle_io.Word w)
            /\ cell_at (grid_cells s) b i = Some ch
            /\ dict_get (mk_grid marks) (cell_id cell)
               = Some (mark_of ch (letter_at w i)))
    /\ (forall cid,
          (forall b i cell, bar_cell build_grid_spec b i = Some cell ->
                            cell_id cell <> cid) ->
          dict_get (mk_grid marks) cid = None)
    /\ dict_get (puzzle_io.answers P) "hidden" = Some (puzzle_io.Words ws)
    /\ dict_keys (mk_hidden marks) = dict_keys (hidden_cells s)
    /\ (forall (k : nat) w,
          ws !! k = Some w ->
          exists arr,
            dict_get (hidden_cells s) (hidden_bar_id (Z.of_nat k + 1)) = Some arr
            /\ length arr = String.length w
            /\ dict_get (mk_hidden marks) (hidden_bar_id (Z.of_nat k + 1))
               = Some (map (fun jc : Z * string =>
                              mark_of jc.2 (letter_at w jc.1))
                           (enumerate arr))).
Proof.
  intros Hload Hp Hr.
  destruct (loaded_game_facts raw path P p s Hload Hp Hr)
    as (aw & ws & Hans & Haw & Hws & Hinv & Hlg & Hlh & Hblank).
  destruct (hidden_keys_of_blank _ _ Hblank) as [Hkeys Hbars].
  assert (Hhid : dict_get (puzzle_io.answers P) "hidden"
                 = Some (puzzle_io.Words ws)).
  { rewrite Hans.
    apply (dict_get_grid_hidden (fun b => puzzle_io.Word (aw b))). }
  assert (Hanswer : forall (k : nat) w, ws !! k = Some w ->
            _get_hidden_answer P (hidden_bar_id (Z.of_nat k + 1)) = w).
  { intros k w Hw. rewrite (hidden_answer_lookup P ws _ Hhid).
    apply lookup_lt_Some in Hw as Hlt.
    assert (Hk : k = 0%nat \/ k = 1%nat)
      by (destruct (loaded_hidden_count raw path _ P aw ws Hload Hans); lia).
    assert (Hd : (INT_MAX_STR_DIGITS
                  <? count_digits (py_str (PyInt (Z.of_nat k + 1)))) = false)
      by (destruct Hk as [-> | ->]; vm_compute; reflexivity).
    rewrite Hd.
    destruct (Z.leb_spec 1 (Z.of_nat k + 1)); [| lia].
    destruct (Z.leb_spec (Z.of_nat k + 1) (py_len ws));
      [| unfold py_len in *; lia].
    simpl. replace (Z.to_nat (Z.of_nat k + 1 - 1)) with k by lia.
    by rewrite Hw. }
  destruct Hinv as [[Hgk Hgl] Hsync [Hnd _] _].
  pose proof GRID_ORDER_NoDup as Hndg.
  destruct (check_bars_spec list_repr P s build_grid_spec
              ["h1"; "h2"; "h3"; "v1"; "v2"; "v3"] Hndg) with (acc := @nil (string * string))
    as (mg & Emg & Ha & Hb).
  { intros b Hb. destruct (grid_answer_loaded list_repr P aw ws b Hans Hb) as [_ ->].
    destruct (Haw b Hb) as (Hne & _). split; [done |].
    assert (is_Some (dict_get (grid_cells s) b)) as [arr Harr]
      by (apply dict_get_keys; by rewrite Hgk).
    assert (Hbars7 : Forall (fun b => exists cells,
                dict_get (bars build_grid_spec) b = Some cells
                /\ NoDup cells /\ py_len cells = 7
                /\ dict_get (bar_lengths build_grid_spec) b = Some 7) GRID_ORDER).
    { repeat constructor; eexists; (split; [reflexivity |]);
        (split; [compute_done |]); split; reflexivity. }
    rewrite Forall_forall in Hbars7.
    destruct (Hbars7 b Hb) as (cells & Hc & Hndc & H7 & Hl7).
    exists cells, arr. split; [done |]. split; [done |]. split; [done |].
    pose proof (Hgl b arr Harr) as Hl. rewrite Hl7 in Hl. injection Hl as Hl. lia. }
  unfold _check_puzzle. rewrite Emg, bind_Ok. cbv zeta.
  rewrite hidden_marks_fold.
  2:{ by destruct (reachable_NoDup _ _ _ build_grid_spec_wf Hr). }
  2:{ intros hid Hin. rewrite Hkeys in Hin.
      apply list_elem_of_fmap in Hin as (k & -> & Hk).
      apply elem_of_seqZ in Hk.
      destruct (lookup_lt_is_Some_2 ws (Z.to_nat (k - 1))) as [w Hw].
      { unfold py_len in Hk. lia. }
      pose proof (Hanswer _ w Hw) as Hkw.
      replace (Z.of_nat (Z.to_nat (k - 1)) + 1) with k in Hkw by lia.
      rewrite Hkw. by apply Hws, list_elem_of_lookup_2 with (Z.to_nat (k - 1)). }
  eexists _, ws. split; [reflexivity |]. cbn [mk_grid mk_hidden].
  split.
  { intros b i cell Hcell Hcase.
    destruct (bar_cell_in_order b i cell Hcell) as (Hbo & cells & Hc & _ & H7 & Hi).
    destruct (grid_answer_loaded list_repr P aw ws b Hans Hbo) as [Hgw Hga].
    destruct (Haw b Hbo) as (_ & Hcap & _).
    assert (is_Some (dict_get (grid_cells s) b)) as [arr Harr]
      by (apply dict_get_keys; by rewrite Hgk).
    assert (Hl7 : dict_get (bar_lengths build_grid_spec) b = Some 7).
    { clear -Hbo. revert b Hbo. apply Forall_forall. compute_done. }
    pose proof (Hgl b arr Harr) as Hl. rewrite Hl7 in Hl. injection Hl as Hl.
    destruct (lookup_lt_is_Some_2 arr (Z.to_nat i)) as [ch Hch].
    { unfold py_len in Hl. lia. }
    assert (Hcell_at : cell_at (grid_cells s) b i = Some ch).
    { apply cell_at_Some. exists arr. split; [done |]. split; [lia | done]. }
    exists (aw b), ch. split; [done |]. split; [done |].
    destruct (later_bars_miss b i cell Hcell Hcase) as (pre & post & E & Hpost).
    rewrite (Ha pre b post i cell ch E Hcell Hcell_at Hpost), Hga.
    pose proof (Hlg b arr Harr) as Hall. rewrite Forall_forall in Hall.
    rewrite upper_letter_or_empty
      by (by apply Hall, list_elem_of_lookup_2 with (Z.to_nat i)).
    by rewrite expected_letter_capitals by (done || lia). }
  split.
  { intros cid Hno. rewrite Hb; [done |].
    intros b i cell _ Hcell. by apply (Hno b i). }
  split; [done |]. split.
  { unfold dict_keys. by rewrite map_map. }
  intros k w Hw. destruct (Hbars k w Hw) as (arr & Harr & Hlen).
  exists arr. split; [done |]. split; [done |].
  rewrite (dict_get_map_values
             (fun hid arr => hidden_marks (_get_hidden_answer P hid) arr)).
  rewrite Harr. simpl. rewrite (Hanswer k w Hw). f_equal.
  apply marks_of_letters.
  - by apply Hws, list_elem_of_lookup_2 with k.
  - by apply (Hlh _ _ Harr).
Qed.

(** X23. The marks of Check Puzzle.  Take a puzzle that [load_puzzle]
    returned under the geometry of [build_grid_spec] and any state
    reachable on it.  [_check_puzzle] returns.  Each cell on a bar gets a
    mark, and there is no other mark: the mark is ["correct"] when the cell
    holds the letter of the answer at that position and ["wrong"]
    otherwise, the answer being that of the vertical bar for a cell on
    one, and that of its horizontal bar for the other cells.  Each hidden
    bar gets one mark per cell, computed from the hidden answer with the
    number of the bar. *)
Theorem check_puzzle_marks (list_repr : list string -> string)
    (raw : puzzle_io.json) (path : string) (P : puzzle_io.Puzzle) (p : Puzzle)
    (s : GameState) :
  puzzle_io.load_puzzle raw path build_grid_spec = puzzle_io.Loaded P ->
  engine_puzzle P = Some p ->
  reachable p build_grid_spec s ->
  exists marks ws,
    _check_puzzle list_repr P s build_grid_spec = Ok marks
    /\ (forall b i cell,
          bar_cell build_grid_spec b i = Some cell ->
          b ∈ ["v1"; "v2"; "v3"]
          \/ dict_get (cross_map build_grid_spec) (b, i) = None ->
          exists w ch,
            dict_get (puzzle_io.answers P) b = Some (puzzle_io.Word w)
            /\ cell_at (grid_cells s) b i = Some ch
            /\ dict_get (mk_grid marks) (cell_id cell)
               = Some (mark_of ch (letter_at w i)))
    /\ (forall cid,
          (forall b i cell, bar_cell build_grid_spec b i = Some cell ->
                            cell_id cell <> cid) ->
          dict_get (mk_grid marks) cid = None)
    /\ dict_get (puzzle_io.answers P) "hidden" = Some (puzzle_io.Words ws)
    /\ dict_keys (mk_hidden marks) = dict_keys (hidden_cells s)
    /\ (forall (k : nat) w,
          ws !! k = Some w ->
          exists arr,
            dict_get (hidden_cells s) (hidden_bar_id (Z.of_nat k + 1)) = Some arr
            /\ length arr = String.length w
            /\ dict_get (mk_hidden marks) (hidden_bar_id (Z.of_nat k + 1))
               = Some (map (fun jc : Z * string =>
                              mark_of jc.2 (letter_at w jc.1))
                           (enumerate arr))).
Proof. apply check_puzzle_spec. Qed.

Lemma check_puzzle_marks_witness :
  exists marks,
    _check_puzzle (fun _ => "") demo_loaded
      (play (fill_bar "grid" "v1" 7 ++ fill_bar "hidden" "hidden2" 3))
      build_grid_spec = Ok marks
    /\ dict_get (mk_grid marks) "1,1" = Some "correct"
    /\ dict_get (mk_grid marks) "0,1" = Some "wrong"
    /\ dict_get (mk_grid marks) "0,0" = None
    /\ dict_get (mk_hidden marks) "hidden2" = Some ["correct"; "wrong"; "wrong"].
Proof.
  destruct (check_puzzle_marks (fun _ => "") demo_file "puzzles/demo.json"
              demo_loaded demo_puzzle
              (play (fill_bar "grid" "v1" 7 ++ fill_bar "hidden" "hidden2" 3)))
    as (marks & ws & E & _).
  - vm_compute. reflexivity.
  - reflexivity.
  - apply play_reachable.
  - exists marks. split; [exact E |]. vm_compute in E. injection E as <-.
    repeat split; reflexivity.
Defined.

(** X24. The marks of Check Word.  For a loaded puzzle and a reachable
    state as in X23, [_check_word] returns and always replaces the marks
    of the session.  With the cursor on a grid bar, the new marks are
    those of the cells of that bar, each compared with the letter of the
    answer of that bar, and no hidden marks.  With the cursor on a hidden
    bar, they are the marks of that bar alone, compared with the hidden
    answer that has the number of the bar. *)
Theorem check_word_marks (list_repr : list string -> string)
    (raw : puzzle_io.json) (path : string) (P : puzzle_io.Puzzle) (p : Puzzle)
    (s : GameState) (old : Marks) :
  puzzle_io.load_puzzle raw path build_grid_spec = puzzle_io.Loaded P ->
  engine_puzzle P = Some p ->
  reachable p build_grid_spec s ->
  exists marks arr,
    _check_word list_repr P s build_grid_spec old = Ok marks
    /\ active_bar s = Some arr
    /\ match scope (active s) with
       | ScopeGrid =>
           mk_hidden marks = []
           /\ exists w,
                dict_get (puzzle_io.answers P) (bar_id (active s))
                = Some (puzzle_io.Word w)
                /\ (forall i cell,
                      bar_cell build_grid_spec (bar_id (active s)) i = Some cell ->
                      exists ch,
                        arr !! Z.to_nat i = Some ch
                        /\ dict_get (mk_grid marks) (cell_id cell)
                           = Some (mark_of ch (letter_at w i)))
                /\ (forall r c,
                      (forall i, bar_cell build_grid_spec (bar_id (active s)) i
                                 <> Some (r, c)) ->
                      dict_get (mk_grid marks) (cell_id (r, c)) = None)
       | ScopeHidden =>
           mk_grid marks = []
           /\ exists (k : nat) w ws,
                dict_get (puzzle_io.answers P) "hidden"
                = Some (puzzle_io.Words ws)
                /\ ws !! k = Some w
                /\ bar_id (active s) = hidden_bar_id (Z.of_nat k + 1)
                /\ mk_hidden marks
                   = [(bar_id (active s),
                       map (fun jc : Z * string =>
                              mark_of jc.2 (letter_at w jc.1))
                           (enumerate arr))]
       end.
Proof.
  intros Hload Hp Hr.
  destruct (loaded_game_facts raw path P p s Hload Hp Hr)
    as (aw & ws & Hans & Haw & Hws & Hinv & Hlg & Hlh & Hblank).
  destruct (hidden_keys_of_blank _ _ Hblank) as [Hkeys Hbars].
  assert (Hhid : dict_get (puzzle_io.answers P) "hidden"
                 = Some (puzzle_io.Words ws)).
  { rewrite Hans.
    apply (dict_get_grid_hidden (fun b => puzzle_io.Word (aw b))). }
  destruct Hinv as [[Hgk Hgl] Hsync [Hnd _] (arr & Harr & Hcur)].
  exists (match scope (active s) with
          | ScopeGrid =>
              {| mk_grid :=
                   match grid_marks s (bar_id (active s))
                           (aw (bar_id (active s)))
                           (enumerate (dict_get_or (bars build_grid_spec)
                                         (bar_id (active s)) [])) [] with
                   | Ok m => m
                   | Raise _ => []
                   end;
                 mk_hidden := [] |}
          | ScopeHidden =>
              {| mk_grid := [];
                 mk_hidden :=
                   [(bar_id (active s),
                     hidden_marks (_get_hidden_answer P (bar_id (active s)))
                                  arr)] |}
          end), arr.
  unfold _check_word, active_bar in *. cbv zeta.
  destruct (scope (active s)) eqn:Hsc.
  - assert (Hbo : bar_id (active s) ∈ GRID_ORDER).
    { rewrite <- Hgk. apply dict_get_keys. eauto. }
    destruct (grid_answer_loaded list_repr P aw ws _ Hans Hbo) as [Hgw ->].
    destruct (Haw _ Hbo) as (Hne & Hcap & _).
    apply String.eqb_neq in Hne as Hne'. rewrite Hne'.
    assert (Hbars7 : Forall (fun b => exists cells,
                dict_get (bars build_grid_spec) b = Some cells
                /\ NoDup cells /\ py_len cells = 7
                /\ dict_get (bar_lengths build_grid_spec) b = Some 7) GRID_ORDER).
    { repeat constructor; eexists; (split; [reflexivity |]);
        (split; [compute_done |]); split; reflexivity. }
    rewrite Forall_forall in Hbars7.
    destruct (Hbars7 _ Hbo) as (cells & Hc & Hndc & H7 & Hl7).
    pose proof (Hgl _ arr Harr) as Hl. rewrite Hl7 in Hl. injection Hl as Hl.
    rewrite (dict_get_or_Some _ _ cells) by done.
    destruct (grid_marks_spec s (bar_id (active s)) (aw (bar_id (active s)))
                arr Harr cells 0 []) as (mg & Emg & H1 & H2);
      [lia | lia | done |].
    unfold enumerate, range. rewrite Emg, bind_Ok.
    split; [done |]. split; [done |]. cbn [mk_grid mk_hidden].
    split; [done |]. exists (aw (bar_id (active s))). split; [done |]. split.
    + intros i cell (cells' & Hc' & Hi & Hcl)%bar_cell_Some.
      rewrite Hc in Hc'. injection Hc' as <-.
      destruct (lookup_lt_is_Some_2 arr (Z.to_nat i)) as [ch Hch].
      { unfold py_len in *. lia. }
      exists ch. split; [done |].
      rewrite (H1 (Z.to_nat i) cell ch Hcl) by done.
      pose proof (Hlg _ arr Harr) as Hall. rewrite Forall_forall in Hall.
      rewrite upper_letter_or_empty
        by (by apply Hall, list_elem_of_lookup_2 with (Z.to_nat i)).
      rewrite expected_letter_capitals by (done || lia).
      do 3 f_equal. lia.
    + intros r c Hno. rewrite H2; [done |]. intros cell Hin E.
      apply cell_id_injective in E. subst.
      apply list_elem_of_lookup in Hin as [j Hj].
      apply (Hno (Z.of_nat j)). apply bar_cell_Some. exists cells.
      split; [done |]. rewrite Nat2Z.id. split; [| done].
      apply lookup_lt_Some in Hj. unfold py_len. lia.
  - assert (Hin : bar_id (active s) ∈ dict_keys (hidden_cells s))
      by (apply dict_get_keys; eauto).
    rewrite Hkeys in Hin. apply list_elem_of_fmap in Hin as (k & Ek & Hk).
    apply elem_of_seqZ in Hk.
    destruct (lookup_lt_is_Some_2 ws (Z.to_nat (k - 1))) as [w Hw].
    { unfold py_len in Hk. lia. }
    assert (Hkw : _get_hidden_answer P (bar_id (active s)) = w).
    { rewrite Ek, (hidden_answer_lookup P ws _ Hhid).
      assert (Hk12 : k = 1 \/ k = 2).
      { destruct (loaded_hidden_count raw path _ P aw ws Hload Hans);
          unfold py_len in Hk; lia. }
      assert (Hd : (INT_MAX_STR_DIGITS <? count_digits (py_str (PyInt k)))
                   = false)
        by (destruct Hk12 as [-> | ->]; vm_compute; reflexivity).
      rewrite Hd.
      destruct (Z.leb_spec 1 k); [| lia].
      destruct (Z.leb_spec k (py_len ws)); [| lia]. simpl. by rewrite Hw. }
    assert (Hww : w <> "" /\ all_capitals w = true)
      by (by apply Hws, list_elem_of_lookup_2 with (Z.to_nat (k - 1))).
    destruct Hww as [Hne Hcap]. rewrite Hkw.
    apply String.eqb_neq in Hne as Hne'. rewrite Hne'.
    rewrite (dict_get_or_Some _ _ arr) by done.
    split; [done |]. split; [done |]. cbn [mk_grid mk_hidden].
    split; [done |]. exists (Z.to_nat (k - 1)), w, ws.
    split; [done |]. split; [done |]. split.
    + rewrite Ek. f_equal. lia.
    + do 2 f_equal. apply marks_of_letters; [done |]. by apply (Hlh _ _ Harr).
Qed.

Lemma check_word_marks_witness :
  _check_word (fun _ => "") demo_loaded
    (play (fill_bar "hidden" "hidden1" 2)) build_grid_spec no_marks
  = Ok {| mk_grid := [];
          mk_hidden := [("hidden1", ["wrong"; "correct"; "wrong"])] |}.
Proof.
  destruct (check_word_marks (fun _ => "") demo_file "puzzles/demo.json"
              demo_loaded demo_puzzle
              (play (fill_bar "hidden" "hidden1" 2)) no_marks)
    as (marks & arr & E & _).
  - vm_compute. reflexivity.
  - reflexivity.
  - apply play_reachable.
  - rewrite E. vm_compute in E. injection E as <-. reflexivity.
Defined.

Lemma mark_of_correct (ch l : string) :
  mark_of ch l = "correct" <-> ch <> "" /\ ch = l.
Proof.
  unfold mark_of. destruct (String.eqb_spec ch ""), (String.eqb_spec ch l);
    simpl; split; try done; intros [? ?]; done.
Qed.

Lemma letter_at_nonempty (w : string) (i : Z) :
  0 <= i < Z.of_nat (String.length w) -> letter_at w i <> "".
Proof.
  intros Hi. unfold letter_at. destruct (Z.leb_spec 0 i); [| lia].
  destruct (String.get (Z.to_nat i) w) eqn:E; [done |].
  apply string_get_ge in E. lia.
Qed.

(** The position whose bar decides the mark of a cell on a bar. *)
Lemma marking_position (b : string) (i : Z) (cell : Cell) :
  bar_cell build_grid_spec b i = Some cell ->
  (b ∈ ["v1"; "v2"; "v3"]
   \/ dict_get (cross_map build_grid_spec) (b, i) = None)
  \/ exists b' i',
       dict_get (cross_map build_grid_spec) (b, i) = Some (b', i')
       /\ b' ∈ ["v1"; "v2"; "v3"]
       /\ bar_cell build_grid_spec b' i' = Some cell.
Proof.
  intros Hc.
  destruct (dict_get (cross_map build_grid_spec) (b, i)) as [[b' i'] |] eqn:Ex;
    [| left; by right].
  destruct (decide (b ∈ ["v1"; "v2"; "v3"])) as [Hv | Hnv]; [left; by left |].
  right. exists b', i'. split; [done |].
  destruct (cross_map_sound _ _ Ex) as (_ & cell' & Hc1 & Hc2).
  cbn [fst snd] in Hc1, Hc2. rewrite Hc in Hc1. injection Hc1 as <-.
  split; [| done].
  apply dict_get_elem_of in Ex.
  assert (Hall : forallb (fun kv : BarPos * BarPos =>
            bool_decide (kv.1.1 ∈ ["v1"; "v2"; "v3"]
                         \/ kv.2.1 ∈ ["v1"; "v2"; "v3"]))
            (cross_map build_grid_spec) = true)
    by (vm_compute; reflexivity).
  pose proof (forallb_elem_of _ _ _ Hall Ex) as Hb. cbv beta in Hb.
  cbn [fst snd] in Hb. apply bool_decide_eq_true in Hb. by destruct Hb.
Qed.

(** X25. Check Puzzle finds the solved board.  For a loaded puzzle whose
    answers agree at the crossings and any reachable state, every mark
    that [_check_puzzle] leaves is ["correct"] exactly when every grid bar
    and every hidden bar spells its answer. *)
Theorem all_correct_iff_solved (list_repr : list string -> string)
    (raw : puzzle_io.json) (path : string) (P : puzzle_io.Puzzle) (p : Puzzle)
    (s : GameState) (marks : Marks) :
  puzzle_io.load_puzzle raw path build_grid_spec = puzzle_io.Loaded P ->
  engine_puzzle P = Some p ->
  reachable p build_grid_spec s ->
  answers_agree P build_grid_spec ->
  _check_puzzle list_repr P s build_grid_spec = Ok marks ->
  all_correct marks <-> solved P s.
Proof.
  intros Hload Hp Hr Hagree Hm.
  destruct (check_puzzle_spec list_repr raw path P p s Hload Hp Hr)
    as (marks' & ws & E & Hgrid & Hnone & Hhid & Hkeys & Hhidden).
  rewrite Hm in E. injection E as <-.
  destruct (loaded_game_facts raw path P p s Hload Hp Hr)
    as (aw & ws' & Hans & Haw & Hws & Hinv & Hlg & Hlh & Hblank).
  destruct Hinv as [[Hgk Hgl] Hsync [Hnd _] _].
  assert (Hlen7 : forall b arr, dict_get (grid_cells s) b = Some arr ->
                    b ∈ GRID_ORDER /\ py_len arr = 7).
  { intros b arr Harr.
    assert (Hb : b ∈ GRID_ORDER) by (rewrite <- Hgk; apply dict_get_keys; eauto).
    split; [done |]. pose proof (Hgl b arr Harr) as Hl.
    assert (Hl7 : dict_get (bar_lengths build_grid_spec) b = Some 7).
    { clear -Hb. revert b Hb. apply Forall_forall. compute_done. }
    rewrite Hl7 in Hl. by injection Hl as <-. }
  assert (Hpos : forall b (j : nat), b ∈ GRID_ORDER -> (j < 7)%nat ->
                   exists cell, bar_cell build_grid_spec b (Z.of_nat j) = Some cell).
  { intros b j Hb Hj.
    assert (Hall : Forall (fun b => exists cells,
                dict_get (bars build_grid_spec) b = Some cells
                /\ length cells = 7%nat) GRID_ORDER).
    { repeat constructor; eexists; (split; reflexivity). }
    rewrite Forall_forall in Hall. destruct (Hall b Hb) as (cells & Hc & Hl).
    destruct (lookup_lt_is_Some_2 cells j) as [cell Hcell]; [lia |].
    exists cell. apply bar_cell_Some. exists cells. split; [done |].
    rewrite Nat2Z.id. split; [unfold py_len; lia | done]. }
  assert (Hword : forall b, b ∈ GRID_ORDER ->
            dict_get (puzzle_io.answers P) b = Some (puzzle_io.Word (aw b))).
  { intros b Hb. by destruct (grid_answer_loaded list_repr P aw ws' b Hans Hb). }
  (* the letter compared with a cell, whichever bar the cell is read on *)
  assert (Hmark : forall b i cell ch,
            bar_cell build_grid_spec b i = Some cell ->
            cell_at (grid_cells s) b i = Some ch ->
            dict_get (mk_grid marks) (cell_id cell)
            = Some (mark_of ch (letter_at (aw b) i))).
  { intros b i cell ch Hc Hch.
    destruct (bar_cell_in_order b i cell Hc) as (Hb & _).
    destruct (marking_position b i cell Hc) as [Hcase | (b' & i' & Ex & Hv & Hc')].
    - destruct (Hgrid b i cell Hc Hcase) as (w & ch' & Hw & Hch' & ->).
      rewrite (Hword b Hb) in Hw. injection Hw as <-. congruence.
    - destruct (Hgrid b' i' cell Hc' (or_introl Hv)) as (w & ch' & Hw & Hch' & ->).
      destruct (bar_cell_in_order b' i' cell Hc') as (Hb' & _).
      rewrite (Hword b' Hb') in Hw. injection Hw as <-.
      rewrite (Hsync _ _ _ _ Ex), Hch' in Hch. injection Hch as <-.
      by rewrite (Hagree b i b' i' (aw b) (aw b') Ex (Hword b Hb) (Hword b' Hb')). }
  split.
  - intros [Hcg Hch]. split.
    + intros b w arr Hw Harr j ch Hj.
      destruct (Hlen7 b arr Harr) as [Hb H7].
      rewrite (Hword b Hb) in Hw. injection Hw as <-.
      apply lookup_lt_Some in Hj as Hlt.
      destruct (Hpos b j Hb) as [cell Hcell]; [unfold py_len in H7; lia |].
      assert (Hcat : cell_at (grid_cells s) b (Z.of_nat j) = Some ch).
      { apply cell_at_Some. exists arr. split; [done |].
        rewrite Nat2Z.id. split; [unfold py_len; lia | done]. }
      pose proof (Hmark b _ cell ch Hcell Hcat) as Hmk.
      apply Hcg in Hmk. by apply mark_of_correct in Hmk as [_ ->].
    + intros ws0 k w arr Hws0 Hw Harr j ch Hj.
      rewrite Hhid in Hws0. injection Hws0 as <-.
      destruct (Hhidden k w Hw) as (arr' & Harr' & Hl & Hmk).
      rewrite Harr in Harr'. injection Harr' as <-.
      assert (Hin : mark_of ch (letter_at w (Z.of_nat j))
                    ∈ map (fun jc : Z * string => mark_of jc.2 (letter_at w jc.1))
                          (enumerate arr)).
      { apply list_elem_of_fmap. exists (Z.of_nat j, ch). split; [done |].
        apply list_elem_of_lookup. exists j. unfold enumerate, range.
        apply lookup_zip_with_Some. exists (Z.of_nat j), ch.
        split; [done |]. split; [| done]. apply lookup_seqZ.
        apply lookup_lt_Some in Hj. split; [lia | unfold py_len; lia]. }
      pose proof (Hch _ _ _ Hmk Hin) as Hc.
      by apply mark_of_correct in Hc as [_ ->].
  - intros [Hsg Hsh]. split.
    + intros cid m Hcid.
      destruct (decide (Exists (fun q : BarPos =>
                  cell_id <$> bar_cell build_grid_spec q.1 q.2 = Some cid)
                  (all_positions build_grid_spec))) as [Hex | Hnex].
      * apply Exists_exists in Hex as ([b i] & _ & Hq). cbn [fst snd] in Hq.
        destruct (bar_cell build_grid_spec b i) as [cell |] eqn:Hc; [| done].
        injection Hq as <-.
        destruct (bar_cell_in_order b i cell Hc) as (Hb & _ & _ & _ & _ & Hi).
        assert (is_Some (dict_get (grid_cells s) b)) as [arr Harr]
          by (apply dict_get_keys; by rewrite Hgk).
        destruct (Hlen7 b arr Harr) as [_ H7].
        destruct (lookup_lt_is_Some_2 arr (Z.to_nat i)) as [ch Hch].
        { unfold py_len in H7. lia. }
        assert (Hcat : cell_at (grid_cells s) b i = Some ch).
        { apply cell_at_Some. exists arr. split; [done |]. split; [lia | done]. }
        rewrite (Hmark b i cell ch Hc Hcat) in Hcid. injection Hcid as <-.
        apply mark_of_correct.
        pose proof (Hsg b (aw b) arr (Hword b Hb) Harr _ ch Hch) as ->.
        rewrite Z2Nat.id by lia. split; [| done].
        apply letter_at_nonempty. destruct (Haw b Hb) as (_ & _ & ->). lia.
      * rewrite Hnone in Hcid; [done |]. intros b i cell Hc E.
        apply Hnex, Exists_exists. exists (b, i).
        split; [by eapply bar_cell_all_positions |]. cbn [fst snd].
        by rewrite Hc, <- E.
    + intros hid ms m Hms Hin.
      assert (Hk : hid ∈ dict_keys (hidden_cells s)).
      { rewrite <- Hkeys. apply dict_get_keys. eauto. }
      destruct (hidden_keys_of_blank _ _ Hblank) as [Hkeys' _].
      rewrite Hkeys' in Hk. apply list_elem_of_fmap in Hk as (k & -> & Hk).
      apply elem_of_seqZ in Hk.
      assert (ws' = ws) as ->.
      { rewrite Hans in Hhid.
        rewrite (dict_get_grid_hidden (fun b => puzzle_io.Word (aw b))) in Hhid.
        by injection Hhid. }
      destruct (lookup_lt_is_Some_2 ws (Z.to_nat (k - 1))) as [w Hw].
      { unfold py_len in Hk. lia. }
      destruct (Hhidden _ w Hw) as (arr & Harr & Hl & Hmk).
      replace (Z.of_nat (Z.to_nat (k - 1)) + 1) with k in Harr, Hmk by lia.
      rewrite Hmk in Hms. injection Hms as <-.
      apply list_elem_of_fmap in Hin as ([j ch] & -> & Hjc). cbn [fst snd].
      unfold enumerate, range in Hjc.
      apply list_elem_of_lookup in Hjc as [n Hn].
      apply lookup_zip_with_Some in Hn as (j' & ch' & [= <- <-] & Hj & Hch).
      apply lookup_seqZ in Hj as [-> Hn].
      pose proof (Hsh ws (Z.to_nat (k - 1)) w arr Hhid Hw) as Hsp.
      replace (Z.of_nat (Z.to_nat (k - 1)) + 1) with k in Hsp by lia.
      rewrite (Hsp Harr n ch Hch). rewrite Z.add_0_l.
      apply mark_of_correct. split; [| done].
      apply letter_at_nonempty. apply lookup_lt_Some in Hch. lia.
Qed.

Lemma all_correct_iff_solved_witness :
  exists marks,
    _check_puzzle (fun _ => "") demo_loaded (play []) build_grid_spec = Ok marks
    /\ (all_correct marks <-> solved demo_loaded (play [])).
Proof.
  destruct (_check_puzzle (fun _ => "") demo_loaded (play []) build_grid_spec)
    as [marks | e] eqn:E; [| by vm_compute in E].
  exists marks. split; [reflexivity |].
  apply (all_correct_iff_solved (fun _ => "") demo_file "puzzles/demo.json"
           demo_loaded demo_puzzle (play []) marks).
  - vm_compute. reflexivity.
  - reflexivity.
  - apply play_reachable.
  - intros b i b' i' w w' Hx Hw Hw'. apply dict_get_elem_of in Hx.
    assert (Hall : forallb (fun kv : BarPos * BarPos =>
              match dict_get (puzzle_io.answers demo_loaded) kv.1.1,
                    dict_get (puzzle_io.answers demo_loaded) kv.2.1 with
              | Some (puzzle_io.Word w), Some (puzzle_io.Word w') =>
                  String.eqb (letter_at w kv.1.2) (letter_at w' kv.2.2)
              | _, _ => false
              end) (cross_map build_grid_spec) = true)
      by (vm_compute; reflexivity).
    pose proof (forallb_elem_of _ _ _ Hall Hx) as Hb. cbv beta in Hb.
    cbn [fst snd] in Hb. rewrite Hw, Hw' in Hb. by apply String.eqb_eq.
  - exact E.
Defined.

